(** * tap13: a parser for the Test Anything Protocol, version 13

    A shallow embedding of the Go package [tap13] (the [Test] and [Results]
    structures, the line classifiers, [Parse], and the methods [IsPassing] and
    [String] of [Results], the latter as [Results_String]) and the properties
    of it that the specification states.

    Go strings are byte sequences: they are modelled as [string], one [ascii]
    per byte.  Go's [int] is taken as the 64-bit signed integer, modelled as
    [Z] with the wrap-around written out where the code does arithmetic. *)

From Stdlib Require Import String Ascii ZArith List Lia Bool DecimalString.
Import ListNotations.

Open Scope string_scope.
Open Scope Z_scope.

(** ** Machine integers *)

Definition max_int : Z := 9223372036854775807.
Definition min_int : Z := -9223372036854775808.

(** Two's complement wrap-around of a 64-bit signed result. *)
Definition wrap (z : Z) : Z := (z + 2 ^ 63) mod 2 ^ 64 - 2 ^ 63.

Definition in_int (z : Z) : Prop := min_int <= z <= max_int.

(** ** Bytes and byte classes used by the patterns *)

Definition nl : ascii := "010"%char.
Definition newline : string := String nl "".

Definition byte (c : ascii) : N := N_of_ascii c.

Definition between (lo hi c : ascii) : bool :=
  (N.leb (byte lo) (byte c) && N.leb (byte c) (byte hi))%bool.

(** [\d] is [0-9]. *)
Definition is_digit (c : ascii) : bool := between "0" "9" c.

(** [\s] is tab, newline, form feed, carriage return and space. *)
Definition is_space (c : ascii) : bool :=
  (Ascii.eqb c "009" || Ascii.eqb c "010" || Ascii.eqb c "012"
   || Ascii.eqb c "013" || Ascii.eqb c " ")%bool.

(** [\S] is every byte that is not in [\s]. *)
Definition is_nonspace (c : ascii) : bool := negb (is_space c).

(** [\w] is [0-9A-Za-z_]. *)
Definition is_word (c : ascii) : bool :=
  (is_digit c || between "A" "Z" c || between "a" "z" c || Ascii.eqb c "_")%bool.

(** [.] is every byte but the newline. *)
Definition is_dot (c : ascii) : bool := negb (Ascii.eqb c nl).

(** [[^#]] is every byte but the hash sign. *)
Definition is_nothash (c : ascii) : bool := negb (Ascii.eqb c "#").

(** ** Regular expressions

    The fragment of Go's [regexp] syntax that the package uses, and a
    backtracking matcher with Go's leftmost-first preference: a greedy
    star or option tries its body first and gives the characters back one at a
    time.  Every class of the patterns separates ASCII bytes only, so matching
    byte by byte finds the same boundaries as matching rune by rune. *)

Inductive regex : Type :=
| Eps
| Chr (p : ascii -> bool)
| Seq (a b : regex)
| Star (a : regex)
| Opt (a : regex)
| Grp (n : nat) (a : regex)
| Bol
| Eol
| WordB.

(** The text of the capture groups; a group that took no part in the match
    reads as the empty string, as in the slice [FindStringSubmatch] returns. *)
Definition caps : Type := nat -> string.

Definition no_caps : caps := fun _ => "".

Definition set_cap (n : nat) (v : string) (c : caps) : caps :=
  fun i => if Nat.eqb i n then v else c i.

Fixpoint take (n : nat) (s : string) : string :=
  match n, s with
  | S n', String a s' => String a (take n' s')
  | _, _ => ""
  end.

(** The text consumed between the position with [s] left to read and the later
    position with [s'] left. *)
Definition captured (s s' : string) : string :=
  take (String.length s - String.length s') s.

(** A continuation receives the byte before the position (none at the start
    of the text), the text left and the captures so far. *)
Definition cont : Type := option ascii -> string -> caps -> option caps.

Definition word_before (prev : option ascii) : bool :=
  match prev with Some a => is_word a | None => false end.

Definition word_after (s : string) : bool :=
  match s with String a _ => is_word a | EmptyString => false end.

Fixpoint star_loop (fuel : nat)
    (body : option ascii -> string -> caps -> cont -> option caps)
    (prev : option ascii) (s : string) (c : caps) (k : cont) : option caps :=
  match fuel with
  | O => k prev s c
  | S fuel' =>
      match body prev s c (fun prev' s' c' =>
              if Nat.ltb (String.length s') (String.length s)
              then star_loop fuel' body prev' s' c' k
              else None) with
      | Some r => Some r
      | None => k prev s c
      end
  end.

Fixpoint run (r : regex) (prev : option ascii) (s : string) (c : caps)
    (k : cont) {struct r} : option caps :=
  match r with
  | Eps => k prev s c
  | Chr p =>
      match s with
      | String a s' => if p a then k (Some a) s' c else None
      | EmptyString => None
      end
  | Seq a b => run a prev s c (fun prev' s' c' => run b prev' s' c' k)
  | Star a => star_loop (String.length s) (run a) prev s c k
  | Opt a =>
      match run a prev s c k with
      | Some res => Some res
      | None => k prev s c
      end
  | Grp n a =>
      run a prev s c (fun prev' s' c' => k prev' s' (set_cap n (captured s s') c'))
  | Bol => match prev with None => k prev s c | Some _ => None end
  | Eol => match s with EmptyString => k prev s c | String _ _ => None end
  | WordB => if xorb (word_before prev) (word_after s) then k prev s c else None
  end.

Definition accept : cont := fun _ _ c => Some c.

(** The leftmost match: the first start position, from the left, at which the
    pattern matches. *)
Fixpoint search (r : regex) (prev : option ascii) (s : string) : option caps :=
  match run r prev s no_caps accept with
  | Some c => Some c
  | None =>
      match s with
      | String a s' => search r (Some a) s'
      | EmptyString => None
      end
  end.

Definition FindStringSubmatch (r : regex) (s : string) : option caps :=
  search r None s.

Definition MatchString (r : regex) (s : string) : bool :=
  match FindStringSubmatch r s with Some _ => true | None => false end.

Fixpoint lit (s : string) : regex :=
  match s with
  | EmptyString => Eps
  | String a s' => Seq (Chr (Ascii.eqb a)) (lit s')
  end.

Definition plus (r : regex) : regex := Seq r (Star r).

Fixpoint seqs (rs : list regex) : regex :=
  match rs with
  | [] => Eps
  | [r] => r
  | r :: rs' => Seq r (seqs rs')
  end.

(** [versionLine]: at the start of the text, the bytes [TAP version ], then
    group 1, one or more [\d].  The match may end before the end of the text. *)
Definition versionLine : regex :=
  seqs [Bol; lit "TAP version "; Grp 1 (plus (Chr is_digit))].

(** [bailOutLine]: at the start of the text, the bytes [Bail out!], any number
    of [\s], then optionally group 1, one [\S] followed by any number of [.],
    then the end of the text. *)
Definition bailOutLine : regex :=
  seqs [Bol; lit "Bail out!"; Star (Chr is_space);
        Opt (Grp 1 (Seq (Chr is_nonspace) (Star (Chr is_dot)))); Eol].

(** [testLine]: at the start of the text, optionally group 1, the bytes
    [not ], then the bytes [ok], a word boundary, and group 2, any number
    of [.]. *)
Definition testLine : regex :=
  seqs [Bol; Opt (Grp 1 (lit "not ")); lit "ok"; WordB; Grp 2 (Star (Chr is_dot))].

(** [optionalTestLine]: any number of [\s]; optionally group 1, any number of
    [\d]; any number of [\s]; group 2, any number of bytes other than the
    hash sign; then optionally group 3: a hash sign, any number of [\s],
    group 4 (group 5, any number of [\w]; any number of [\s]; any number of
    [.]), and any number of [\s].  It is not anchored. *)
Definition optionalTestLine : regex :=
  seqs [Star (Chr is_space); Opt (Grp 1 (Star (Chr is_digit)));
        Star (Chr is_space); Grp 2 (Star (Chr is_nothash));
        Opt (Grp 3 (seqs [Chr (Ascii.eqb "#"); Star (Chr is_space);
                          Grp 4 (seqs [Grp 5 (Star (Chr is_word));
                                       Star (Chr is_space); Star (Chr is_dot)]);
                          Star (Chr is_space)]))].

(** [testPlanDeclaration]: at the start of the text, one or more [\d], two
    dots, group 1, one or more [\d], and the end of the text. *)
Definition testPlanDeclaration : regex :=
  seqs [Bol; plus (Chr is_digit); lit ".."; Grp 1 (plus (Chr is_digit)); Eol].

(** [diagnostic]: any number of [\s], a hash sign, group 1, any number of
    [.], and the end of the text.  It is not anchored at the start. *)
Definition diagnostic : regex :=
  seqs [Star (Chr is_space); Chr (Ascii.eqb "#"); Grp 1 (Star (Chr is_dot)); Eol].

(** [yamlStart]: at the start of the text, any number of [\s], three dashes
    and the end of the text. *)
Definition yamlStart : regex :=
  seqs [Bol; Star (Chr is_space); lit "---"; Eol].

(** [yamlStop]: at the start of the text, any number of [\s], three dots and
    the end of the text. *)
Definition yamlStop : regex :=
  seqs [Bol; Star (Chr is_space); lit "..."; Eol].

(** ** Library functions the package calls *)

(** The value of a text of decimal digits, read after [acc]; none when a byte
    is not a digit. *)
Fixpoint digits_value (acc : Z) (s : string) : option Z :=
  match s with
  | EmptyString => Some acc
  | String a s' =>
      if is_digit a
      then digits_value (acc * 10 + Z.of_N (byte a - 48)) s'
      else None
  end.

(** [strconv.Atoi]: the value and whether the error is nil.  A text that is not
    an optional sign followed by decimal digits gives 0 and an error; a value
    out of the range of [int] gives the nearest bound and an error. *)
Definition Atoi (s : string) : Z * bool :=
  let '(neg, body) :=
    match s with
    | String "+" t => (false, t)
    | String "-" t => (true, t)
    | _ => (false, s)
    end in
  match body with
  | EmptyString => (0, false)
  | String _ _ =>
      match digits_value 0 body with
      | None => (0, false)
      | Some n =>
          if neg
          then if n <=? - min_int then (- n, true) else (min_int, false)
          else if n <=? max_int then (n, true) else (max_int, false)
      end
  end.

(** The number of bytes of the white space rune that [s] starts with, 0 when it
    starts with none: the ASCII white space, U+0085 and U+00A0 (two bytes),
    U+1680, U+2000 to U+200A, U+2028, U+2029, U+202F, U+205F and U+3000 (three
    bytes), as [unicode.IsSpace] has them. *)
Definition space_rune (s : string) : nat :=
  match s with
  | EmptyString => O
  | String a t =>
      let x := byte a in
      if ((9 <=? x) && (x <=? 13) || (x =? 32))%N then 1%nat
      else match t with
      | EmptyString => O
      | String b u =>
          let y := byte b in
          if ((x =? 194) && ((y =? 133) || (y =? 160)))%N then 2%nat
          else match u with
          | EmptyString => O
          | String d _ =>
              let z := byte d in
              if ((x =? 225) && (y =? 154) && (z =? 128)
                  || (x =? 226) && (y =? 128)
                     && ((128 <=? z) && (z <=? 138) || (z =? 168) || (z =? 169)
                         || (z =? 175))
                  || (x =? 226) && (y =? 129) && (z =? 159)
                  || (x =? 227) && (y =? 128) && (z =? 128))%N
              then 3%nat else O
          end
      end
  end.

(** [s] without its first [n] bytes. *)
Fixpoint drop (n : nat) (s : string) : string :=
  match n, s with
  | S n', String _ s' => drop n' s'
  | _, _ => s
  end.

(** The bytes of [s] in reverse order, before [acc]. *)
Fixpoint rev_string (acc s : string) : string :=
  match s with
  | EmptyString => acc
  | String a s' => rev_string (String a acc) s'
  end.

(** [s] without the white space runes it starts with. *)
Fixpoint trim_left (fuel : nat) (s : string) : string :=
  match fuel with
  | O => s
  | S fuel' =>
      match space_rune s with
      | O => s
      | n => trim_left fuel' (drop n s)
      end
  end.

(** The same from the end, on the reversed text [rs]: the white space rune
    that the text ends with is found on its last one, two or three bytes. *)
Fixpoint trim_right (fuel : nat) (rs : string) : string :=
  match fuel with
  | O => rs
  | S fuel' =>
      match rs with
      | String c (String b (String a t)) =>
          if Nat.eqb (space_rune (String a (String b (String c "")))) 3
          then trim_right fuel' t
          else if Nat.eqb (space_rune (String b (String c ""))) 2
          then trim_right fuel' (String a t)
          else if Nat.eqb (space_rune (String c "")) 1
          then trim_right fuel' (String b (String a t))
          else rs
      | String c (String b t) =>
          if Nat.eqb (space_rune (String b (String c ""))) 2
          then trim_right fuel' t
          else if Nat.eqb (space_rune (String c "")) 1
          then trim_right fuel' (String b t)
          else rs
      | String c t =>
          if Nat.eqb (space_rune (String c "")) 1 then trim_right fuel' t else rs
      | EmptyString => rs
      end
  end.

(** [strings.TrimSpace]: the text without its leading and trailing white space
    runes. *)
Definition TrimSpace (s : string) : string :=
  let l := trim_left (String.length s) s in
  rev_string "" (trim_right (String.length l) (rev_string "" l)).

(** The lower case of an ASCII letter. *)
Definition lower (c : ascii) : ascii :=
  if between "A" "Z" c then ascii_of_N (byte c + 32) else c.

Fixpoint map_string (f : ascii -> ascii) (s : string) : string :=
  match s with
  | EmptyString => EmptyString
  | String a s' => String (f a) (map_string f s')
  end.

(** [strings.EqualFold] as the package uses it: its first argument is the text
    of a group of [\w], ASCII letters, digits and the underscore, and its
    second a lower case ASCII word, and on those texts equality under case
    folding is equality of the lower cased bytes. *)
Definition EqualFold (s t : string) : bool :=
  String.eqb (map_string lower s) (map_string lower t).

(** The verb [%d] of [fmt.Sprintf] on an [int]. *)
Definition fmt_d (z : Z) : string := NilZero.string_of_int (Z.to_int z).

(** ** The data model *)

Record Test : Type := mkTest {
  TestNumber : Z;
  Passed : bool;
  Failed : bool;
  Skipped : bool;
  Todo : bool;
  Description : string;
  DirectiveText : string;
  Diagnostics : list string;
  YamlBytes : string
}.

Record Results : Type := mkResults {
  ExpectedTests : Z;
  TotalTests : Z;
  PassedTests : Z;
  FailedTests : Z;
  SkippedTests : Z;
  TodoTests : Z;
  TapVersion : Z;
  BailOut : bool;
  BailOutReason : string;
  Tests : list Test;
  Lines : list string;
  Explanation : list string
}.

Inductive State : Type := findVersionString | storeTestMetadata | storeYaml.

(** The zero value [Test{}]. *)
Definition zeroTest : Test := mkTest 0 false false false false "" "" [] "".

(** ** The verdict and the report *)

(** The method [IsPassing] of [Results]. *)
Definition IsPassing (r : Results) : bool :=
  if TapVersion r <? 0 then false
  else if BailOut r then false
  else
    let testCount := if ExpectedTests r >=? 0 then ExpectedTests r else TotalTests r in
    wrap (wrap (TodoTests r + SkippedTests r) + PassedTests r) =? testCount.

(** The method [String] of [Results]: the report, built line by line as the
    code does. *)
Definition Results_String (r : Results) : string :=
  let result := "" in
  let result :=
    if IsPassing r then result ++ " Overall result: PASS" ++ newline
    else result ++ " Overall result: FAIL" ++ newline in
  let result :=
    if ((TotalTests r =? 0) || negb (PassedTests r =? TotalTests r))%bool
    then result ++ "Total tests run: " ++ fmt_d (TotalTests r) ++ newline
    else result in
  let result :=
    if ((ExpectedTests r >? 0) && negb (ExpectedTests r =? TotalTests r))%bool
    then result ++ " Expected tests: " ++ fmt_d (ExpectedTests r) ++ newline
    else result in
  let result :=
    if ((ExpectedTests r >? 0) && (TotalTests r <? ExpectedTests r))%bool
    then result ++ "  Missing tests: "
                ++ fmt_d (wrap (ExpectedTests r - TotalTests r)) ++ newline
    else result in
  let result :=
    if PassedTests r >? 0
    then result ++ "   Passed tests: " ++ fmt_d (PassedTests r) ++ newline
    else result in
  let result :=
    if FailedTests r >? 0
    then result ++ "   Failed tests: " ++ fmt_d (FailedTests r) ++ newline
    else result in
  let result :=
    if SkippedTests r >? 0
    then result ++ "  Skipped tests: " ++ fmt_d (SkippedTests r) ++ newline
    else result in
  let result :=
    if TodoTests r >? 0
    then result ++ "     TODO tests: " ++ fmt_d (TodoTests r) ++ newline
    else result in
  let result :=
    if BailOut r
    then
      let reason :=
        if negb (String.eqb (BailOutReason r) "") then BailOutReason r
        else "(no reason given)" in
      result ++ "     Bailed out: " ++ reason ++ newline
    else result in
  result.

(** ** The parse engine *)

(** The variables of [Parse] that live across the iterations of its loop. *)
Record pstate : Type := mkP {
  state : State;
  foundTestPlan : bool;
  foundAllTests : bool;
  currentTest : option Test;
  results : Results
}.

(** Assignments to one variable of the loop or to fields of the structures. *)
Definition with_state (s : State) (st : pstate) : pstate :=
  mkP s (foundTestPlan st) (foundAllTests st) (currentTest st) (results st).

Definition with_results (r : Results) (st : pstate) : pstate :=
  mkP (state st) (foundTestPlan st) (foundAllTests st) (currentTest st) r.

Definition with_currentTest (t : option Test) (st : pstate) : pstate :=
  mkP (state st) (foundTestPlan st) (foundAllTests st) t (results st).

Definition set_TapVersion (v : Z) (r : Results) : Results :=
  mkResults (ExpectedTests r) (TotalTests r) (PassedTests r) (FailedTests r)
    (SkippedTests r) (TodoTests r) v (BailOut r) (BailOutReason r) (Tests r)
    (Lines r) (Explanation r).

Definition set_ExpectedTests (v : Z) (r : Results) : Results :=
  mkResults v (TotalTests r) (PassedTests r) (FailedTests r)
    (SkippedTests r) (TodoTests r) (TapVersion r) (BailOut r) (BailOutReason r)
    (Tests r) (Lines r) (Explanation r).

Definition set_BailOut (b : bool) (reason : string) (r : Results) : Results :=
  mkResults (ExpectedTests r) (TotalTests r) (PassedTests r) (FailedTests r)
    (SkippedTests r) (TodoTests r) (TapVersion r) b reason (Tests r)
    (Lines r) (Explanation r).

Definition set_counters (total passed failed skipped todo : Z) (r : Results)
    : Results :=
  mkResults (ExpectedTests r) total passed failed skipped todo (TapVersion r)
    (BailOut r) (BailOutReason r) (Tests r) (Lines r) (Explanation r).

Definition set_Tests (ts : list Test) (r : Results) : Results :=
  mkResults (ExpectedTests r) (TotalTests r) (PassedTests r) (FailedTests r)
    (SkippedTests r) (TodoTests r) (TapVersion r) (BailOut r) (BailOutReason r)
    ts (Lines r) (Explanation r).

Definition set_Explanation (e : list string) (r : Results) : Results :=
  mkResults (ExpectedTests r) (TotalTests r) (PassedTests r) (FailedTests r)
    (SkippedTests r) (TodoTests r) (TapVersion r) (BailOut r) (BailOutReason r)
    (Tests r) (Lines r) e.

Definition set_Diagnostics (d : list string) (t : Test) : Test :=
  mkTest (TestNumber t) (Passed t) (Failed t) (Skipped t) (Todo t)
    (Description t) (DirectiveText t) d (YamlBytes t).

Definition set_YamlBytes (y : string) (t : Test) : Test :=
  mkTest (TestNumber t) (Passed t) (Failed t) (Skipped t) (Todo t)
    (Description t) (DirectiveText t) (Diagnostics t) y.

(** [append(results.Tests, *currentTest)] when a test is staged. *)
Definition flush (cur : option Test) (r : Results) : Results :=
  match cur with
  | Some t => set_Tests (Tests r ++ [t]) r
  | None => r
  end.

(** [x++] on an [int]. *)
Definition incr (x : Z) : Z := wrap (x + 1).

(** The number stored for the text of group 1 of [optionalTestLine]. *)
Definition testNumber (testNumString : string) : Z :=
  if negb (String.eqb testNumString "")
  then let '(v, ok) := Atoi testNumString in if ok then v else -1
  else 0.

(** A test result line that is counted: the fresh record is filled in and the
    counters move.  [notPrefix] and [rest] are groups 1 and 2 of [testLine]; a
    nil match of [optionalTestLine] would make the index expression panic,
    which is [None] here. *)
Definition countTest (st : pstate) (notPrefix rest : string) : option pstate :=
  match FindStringSubmatch optionalTestLine rest with
  | None => None
  | Some optionalContentMatch =>
      let directive := optionalContentMatch 5%nat in
      let directiveText := optionalContentMatch 4%nat in
      let testNumString := optionalContentMatch 1%nat in
      let number := testNumber testNumString in
      let description := TrimSpace (optionalContentMatch 2%nat) in
      let isFailed := String.eqb notPrefix "not " in
      let r := results st in
      let total := incr (TotalTests r) in
      let dtext := if negb (String.eqb directive "") then directiveText else "" in
      let '(r', t) :=
        if EqualFold directive "skip" then
          (set_counters total (PassedTests r) (FailedTests r)
             (incr (SkippedTests r)) (TodoTests r) r,
           mkTest number false false true false description dtext [] "")
        else if EqualFold directive "todo" then
          (set_counters total (PassedTests r) (FailedTests r)
             (SkippedTests r) (incr (TodoTests r)) r,
           mkTest number false false false true description dtext [] "")
        else if isFailed then
          (set_counters total (PassedTests r) (incr (FailedTests r))
             (SkippedTests r) (TodoTests r) r,
           mkTest number false true false false description dtext [] "")
        else
          (set_counters total (incr (PassedTests r)) (FailedTests r)
             (SkippedTests r) (TodoTests r) r,
           mkTest number true false false false description dtext [] "") in
      let all := if TotalTests r' =? ExpectedTests r' then true
                 else foundAllTests st in
      Some (mkP (state st) (foundTestPlan st) all (Some t) r')
  end.

(** The plan, read while [foundTestPlan] is false.  The flag tells that the
    count did not parse: the loop then goes on with the next line. *)
Definition planStep (st : pstate) (line : string) : pstate * bool :=
  if negb (foundTestPlan st) then
    match FindStringSubmatch testPlanDeclaration line with
    | Some testPlan =>
        let '(v, ok) := Atoi (testPlan 1%nat) in
        (with_results (set_ExpectedTests v (results st)) st, negb ok)
    | None => (st, false)
    end
  else (st, false).

(** A line of the test stream that is neither a test result nor the start of
    a data block: a diagnostic, or nothing. *)
Definition diagnosticStep (st : pstate) (line : string) : pstate :=
  match FindStringSubmatch diagnostic line with
  | Some diagnosticMatch =>
      let diagnosticLine := TrimSpace (diagnosticMatch 1%nat) in
      if String.eqb diagnosticLine "" then st
      else
        match currentTest st with
        | Some t =>
            with_currentTest
              (Some (set_Diagnostics (Diagnostics t ++ [diagnosticLine]) t)) st
        | None =>
            with_results
              (set_Explanation (Explanation (results st) ++ [diagnosticLine])
                 (results st)) st
        end
  | None => st
  end.

(** The test result, the start of a data block or the diagnostic. *)
Definition testStep (st : pstate) (line : string) : option pstate :=
  match FindStringSubmatch testLine line with
  | Some testLineMatch =>
      let st' :=
        with_currentTest (Some zeroTest)
          (with_results (flush (currentTest st) (results st)) st) in
      if foundAllTests st' then Some st'
      else countTest st' (testLineMatch 1%nat) (testLineMatch 2%nat)
  | None =>
      if MatchString yamlStart line then Some (with_state storeYaml st)
      else Some (diagnosticStep st line)
  end.

(** The body of the loop of [Parse] for one line; [None] is a panic. *)
Definition step (st : pstate) (line : string) : option pstate :=
  match state st with
  | findVersionString =>
      match FindStringSubmatch versionLine line with
      | Some versionMatch =>
          let '(v, ok) := Atoi (versionMatch 1%nat) in
          let st' := with_results (set_TapVersion v (results st)) st in
          if ok then Some (with_state storeTestMetadata st') else Some st'
      | None => Some st
      end
  | storeTestMetadata =>
      match FindStringSubmatch bailOutLine line with
      | Some bailOutMatch =>
          Some (with_results
                  (set_BailOut true (bailOutMatch 1%nat) (results st)) st)
      | None =>
          let '(st', malformed) := planStep st line in
          if malformed then Some st' else testStep st' line
      end
  | storeYaml =>
      if MatchString yamlStop line then Some (with_state storeTestMetadata st)
      else
        match currentTest st with
        | Some t =>
            Some (with_currentTest
                    (Some (set_YamlBytes (YamlBytes t ++ line ++ newline) t)) st)
        | None => Some st
        end
  end.

(** The loop over the lines. *)
Fixpoint run_lines (st : pstate) (lines : list string) : option pstate :=
  match lines with
  | [] => Some st
  | line :: rest =>
      match step st line with
      | Some st' => run_lines st' rest
      | None => None
      end
  end.

(** The [Results] and the variables before the first line. *)
Definition initResults (lines : list string) : Results :=
  mkResults (-1) 0 0 0 0 0 (-1) false "" [] lines [].

Definition init (lines : list string) : pstate :=
  mkP findVersionString false false None (initResults lines).

(** What [Parse] returns from the state the loop ends in. *)
Definition finish (st : pstate) : Results := flush (currentTest st) (results st).

(** [Parse]: the loop over the lines, then the staged test is appended. *)
Definition Parse (lines : list string) : option Results :=
  option_map finish (run_lines (init lines) lines).

(** * Notions for the statements *)

(** ** Texts and patterns *)

(** The text left of [s] after the prefix [p], when [s] starts with [p]. *)
Fixpoint strip_prefix (p s : string) : option string :=
  match p, s with
  | EmptyString, _ => Some s
  | String a p', String b s' =>
      if Ascii.eqb a b then strip_prefix p' s' else None
  | String _ _, EmptyString => None
  end.

(** The byte before the position once [w] has been read. *)
Fixpoint last_byte (prev : option ascii) (w : string) : option ascii :=
  match w with
  | EmptyString => prev
  | String a w' => last_byte (Some a) w'
  end.

(** Every byte of [w] is in the class [p]. *)
Fixpoint all_bytes (p : ascii -> bool) (w : string) : bool :=
  match w with
  | EmptyString => true
  | String a w' => p a && all_bytes p w'
  end.

(** [s] without its longest prefix of bytes in [p]. *)
Fixpoint skip (p : ascii -> bool) (s : string) : string :=
  match s with
  | String a s' => if p a then skip p s' else s
  | EmptyString => s
  end.

(** The longest prefix of [s] of bytes in [p]. *)
Fixpoint keep (p : ascii -> bool) (s : string) : string :=
  match s with
  | String a s' => if p a then String a (keep p s') else ""
  | EmptyString => ""
  end.

(** The patterns that match the empty text, by their form. *)
Fixpoint nullable (r : regex) : bool :=
  match r with
  | Eps | Star _ | Opt _ => true
  | Seq a b => nullable a && nullable b
  | Grp _ a => nullable a
  | Chr _ | Bol | Eol | WordB => false
  end.

(** Whether the group [n] occurs in a pattern. *)
Fixpoint has_group (n : nat) (r : regex) : bool :=
  match r with
  | Seq a b => has_group n a || has_group n b
  | Star a | Opt a => has_group n a
  | Grp n' a => Nat.eqb n' n || has_group n a
  | Eps | Chr _ | Bol | Eol | WordB => false
  end.

(** ** Counters *)

(** The number of lines of an input, as an integer. *)
Definition len (lines : list string) : Z := Z.of_nat (List.length lines).

(** The counters agree: none is negative and the total is the sum of the four
    outcomes. *)
Definition counters_ok (r : Results) : Prop :=
  0 <= TotalTests r /\ 0 <= PassedTests r /\ 0 <= FailedTests r /\
  0 <= SkippedTests r /\ 0 <= TodoTests r /\
  TotalTests r = PassedTests r + FailedTests r + SkippedTests r + TodoTests r.

(** After [n] lines: the counters agree, at most [n] tests were counted, and
    the plan is an [int]. *)
Definition bounded (n : Z) (r : Results) : Prop :=
  counters_ok r /\ TotalTests r <= n /\ in_int (ExpectedTests r).

(** ** What a line records *)

(** The count that [line] stores in [ExpectedTests] when it is read in the
    state [st], if it is read as a plan there. *)
Definition plan_recorded (st : pstate) (line : string) : option Z :=
  match state st with
  | storeTestMetadata =>
      match FindStringSubmatch bailOutLine line with
      | Some _ => None
      | None =>
          if foundTestPlan st then None
          else
            match FindStringSubmatch testPlanDeclaration line with
            | Some testPlan => Some (fst (Atoi (testPlan 1%nat)))
            | None => None
            end
      end
  | _ => None
  end.

(** The reason that [line] stores in [BailOutReason] when it is read in the
    state [st], if it is read as an abort line there. *)
Definition abort_recorded (st : pstate) (line : string) : option string :=
  match state st with
  | storeTestMetadata =>
      match FindStringSubmatch bailOutLine line with
      | Some bailOutMatch => Some (bailOutMatch 1%nat)
      | None => None
      end
  | _ => None
  end.

(** Along the run from [st] no line is read as [rec] tells: as a plan with
    [plan_recorded], as an abort line with [abort_recorded]. *)
Fixpoint none_recorded {A : Type} (rec : pstate -> string -> option A)
    (st : pstate) (lines : list string) : bool :=
  match lines with
  | [] => true
  | line :: rest =>
      match rec st line with
      | Some _ => false
      | None =>
          match step st line with
          | Some st' => none_recorded rec st' rest
          | None => true
          end
      end
  end.

(** ** The run-cap *)

(** The run-cap at work: no plan, or fewer tests counted than planned, or
    as many as planned with [foundAllTests] set. *)
Definition capped (st : pstate) : Prop :=
  ExpectedTests (results st) < 0 \/
  TotalTests (results st) < ExpectedTests (results st) \/
  (TotalTests (results st) = ExpectedTests (results st) /\
   foundAllTests st = true).

(** Every plan read along the run declares more tests than were counted
    before it. *)
Fixpoint plans_ahead (st : pstate) (lines : list string) : bool :=
  match lines with
  | [] => true
  | line :: rest =>
      match plan_recorded st line with
      | Some v => TotalTests (results st) <? v
      | None => true
      end
      && match step st line with
         | Some st' => plans_ahead st' rest
         | None => true
         end
  end.

(** ** Outcome flags *)

(** How many of the four outcome flags of a record are set. *)
Definition flag_count (t : Test) : nat :=
  (Nat.b2n (Passed t) + Nat.b2n (Failed t) + Nat.b2n (Skipped t)
   + Nat.b2n (Todo t))%nat.

(** Exactly one flag is set. *)
Definition one_flag (t : Test) : bool := Nat.eqb (flag_count t) 1.

(** The records so far, in order: the appended ones and the staged one. *)
Definition staged (st : pstate) : list Test :=
  (Tests (results st)
   ++ match currentTest st with Some t => [t] | None => [] end)%list.

(** The flags of a list of records are in order: no record has two, and the
    records with one flag are as many as [total]. *)
Definition flags_ok (fl : list nat) (total : Z) : Prop :=
  Forall (fun k => (k <= 1)%nat) fl /\
  Z.of_nat (List.length (filter (Nat.eqb 1) fl)) = total.

(** ** Data blocks *)

(** The bytes of the lines of a data block, each followed by a newline. *)
Fixpoint yaml_text (block : list string) : string :=
  match block with
  | [] => ""
  | line :: rest => line ++ newline ++ yaml_text rest
  end.

(** The record with [text] added to its data block. *)
Definition add_yaml (text : string) (t : Test) : Test :=
  set_YamlBytes (YamlBytes t ++ text) t.

(** A delimiter line as the specification words it, to be compared with
    [yamlStart] and [yamlStop], which follow the code: the line is the
    delimiter [d] once the white space before and after it is ignored. *)
Definition spec_delimiter (d line : string) : bool :=
  String.eqb (TrimSpace line) d.

(** ** The verdict and the report of the specification

    Written after the words of the specification, to be compared with
    [IsPassing] and [Results_String], which follow the code. *)

(** The spec_verdict as the specification words it, on unbounded integers. *)
Definition spec_verdict (r : Results) : bool :=
  if TapVersion r <? 0 then false
  else if BailOut r then false
  else
    let target := if ExpectedTests r >=? 0 then ExpectedTests r else TotalTests r in
    SkippedTests r + TodoTests r + PassedTests r =? target.

(** The report as the specification words it: the lines of its template in
    their order, each with its guard. *)
Definition spec_template (r : Results) : list (bool * string) :=
  [ (true,
     if spec_verdict r then " Overall result: PASS" else " Overall result: FAIL");
    ((TotalTests r =? 0) || negb (PassedTests r =? TotalTests r),
     "Total tests run: " ++ fmt_d (TotalTests r));
    ((ExpectedTests r >? 0) && negb (ExpectedTests r =? TotalTests r),
     " Expected tests: " ++ fmt_d (ExpectedTests r));
    ((ExpectedTests r >? 0) && (TotalTests r <? ExpectedTests r),
     "  Missing tests: " ++ fmt_d (ExpectedTests r - TotalTests r));
    (PassedTests r >? 0, "   Passed tests: " ++ fmt_d (PassedTests r));
    (FailedTests r >? 0, "   Failed tests: " ++ fmt_d (FailedTests r));
    (SkippedTests r >? 0, "  Skipped tests: " ++ fmt_d (SkippedTests r));
    (TodoTests r >? 0, "     TODO tests: " ++ fmt_d (TodoTests r));
    (BailOut r,
     "     Bailed out: "
     ++ (if String.eqb (BailOutReason r) "" then "(no reason given)"
         else BailOutReason r)) ]%bool.

(** The lines whose guard holds, each ended by a newline. *)
Fixpoint render (template : list (bool * string)) : string :=
  match template with
  | [] => ""
  | (guard, line) :: rest =>
      (if guard then line ++ newline else "") ++ render rest
  end.

(** The report of the specification. *)
Definition spec_report (r : Results) : string := render (spec_template r).

(** ** An input with several abort lines *)

(** An input with three lines that start with the abort marker, the third
    inside a data block, and the states before and after the second. *)
Definition abort_pre : list string := ["TAP version 13"; "ok"; "Bail out! one"].

Definition abort_post : list string :=
  ["  ---"; "Bail out! three"; "  ..."; "not ok"].

Definition abort_before : pstate :=
  mkP storeTestMetadata false false
    (Some (mkTest 0 true false false false "" "" [] ""))
    (mkResults (-1) 1 1 0 0 0 13 true "one" []
       (abort_pre ++ "Bail out! two  " :: abort_post) []).

Definition abort_after : pstate :=
  mkP storeTestMetadata false false
    (Some (mkTest 0 true false false false "" "" [] ""))
    (mkResults (-1) 1 1 0 0 0 13 true "two  " []
       (abort_pre ++ "Bail out! two  " :: abort_post) []).

(** ** Tactics *)

(** Case analysis on the next [match] of the goal or of a hypothesis. *)
Ltac break_match :=
  match goal with
  | H : context [match ?x with _ => _ end] |- _ => destruct x eqn:?
  | |- context [match ?x with _ => _ end] => destruct x eqn:?
  end.

(** * The classifiers in direct form

    What each pattern of the package recognises, written on the text itself;
    the properties relate the matcher on the pattern to these. *)

(** The digits of a version line: the line starts with [TAP version ] and a
    digit follows. *)
Definition version_digits (line : string) : option string :=
  match strip_prefix "TAP version " line with
  | Some rest =>
      match keep is_digit rest with
      | EmptyString => None
      | String a d => Some (String a d)
      end
  | None => None
  end.

(** The reason of an abort line: the line starts with the marker, and no
    newline follows the white space after it. *)
Definition abort_reason (line : string) : option string :=
  match strip_prefix "Bail out!" line with
  | Some rest =>
      if all_bytes is_dot (skip is_space rest)
      then Some (skip is_space rest)
      else None
  | None => None
  end.

(** The count of a plan line: digits, two dots, digits, and nothing else. *)
Definition plan_count (line : string) : option string :=
  match keep is_digit line with
  | EmptyString => None
  | String _ _ =>
      match strip_prefix ".." (skip is_digit line) with
      | Some d =>
          match d with
          | EmptyString => None
          | String _ _ => if all_bytes is_digit d then Some d else None
          end
      | None => None
      end
  end.

(** The two parts of a test line: [not ] or nothing, and what follows [ok] up
    to the first newline; [ok] must not be followed by a word byte. *)
Definition test_parts (line : string) : option (string * string) :=
  match strip_prefix "not ok" line with
  | Some rest =>
      if word_after rest then None else Some ("not ", keep is_dot rest)
  | None =>
      match strip_prefix "ok" line with
      | Some rest => if word_after rest then None else Some ("", keep is_dot rest)
      | None => None
      end
  end.

(** A delimiter line of a data block: white space, then the delimiter and
    nothing else. *)
Definition is_delimiter (d line : string) : bool :=
  String.eqb (skip is_space line) d.

(** The text after the first hash sign of [s], if there is one. *)
Fixpoint after_hash (s : string) : option string :=
  match s with
  | EmptyString => None
  | String a s' => if Ascii.eqb "#" a then Some s' else after_hash s'
  end.

(** The parts of what follows [ok] on a test line: the digits of the number,
    the description before the first hash sign (not yet trimmed), and, when
    there is a hash sign, the directive text after it and the word the text
    starts with.  The directive text is a word, white space and what follows
    up to the first newline. *)
Record test_text : Type := mkText {
  number_text : string;
  description_text : string;
  directive_text : string;
  directive_word : string
}.

Definition optional_parts (rest : string) : test_text :=
  let s1 := skip is_space rest in
  let s3 := skip is_space (skip is_digit s1) in
  match skip is_nothash s3 with
  | String _ tail =>
      let s5 := skip is_space tail in
      let s6 := skip is_word s5 in
      let s7 := skip is_space s6 in
      mkText (keep is_digit s1) (keep is_nothash s3)
        (keep is_word s5 ++ keep is_space s6 ++ keep is_dot s7)
        (keep is_word s5)
  | EmptyString => mkText (keep is_digit s1) (keep is_nothash s3) "" ""
  end.

(** * Notions for the further statements *)

(** The value of a text of decimal digits. *)
Definition digits_number (d : string) : Z :=
  match digits_value 0 d with
  | Some v => v
  | None => 0
  end.

(** What [Atoi] gives for a text of digits: its value, or the largest [int]
    and an error when the value does not fit. *)
Definition stored_number (d : string) : Z * bool :=
  if digits_number d <=? max_int then (digits_number d, true)
  else (max_int, false).

(** While a version is sought nothing but the version has been stored, and it
    is the initial -1 or the bound left by an overflowing number; afterwards
    the version is a number that was read. *)
Definition header_state (input : list string) (st : pstate) : Prop :=
  match state st with
  | findVersionString =>
      (TapVersion (results st) = -1 \/ TapVersion (results st) = max_int) /\
      st = with_results
             (set_TapVersion (TapVersion (results st)) (initResults input))
             (init input)
  | _ => 0 <= TapVersion (results st) <= max_int
  end.

(** The same results with another echo of the input. *)
Definition set_Lines (input : list string) (r : Results) : Results :=
  mkResults (ExpectedTests r) (TotalTests r) (PassedTests r) (FailedTests r)
    (SkippedTests r) (TodoTests r) (TapVersion r) (BailOut r) (BailOutReason r)
    (Tests r) input (Explanation r).

Definition relabel (input : list string) (st : pstate) : pstate :=
  with_results (set_Lines input (results st)) st.

(** No stored comment is empty: neither in the explanation nor in the
    diagnostics of a record. *)
Definition comments_ok (st : pstate) : Prop :=
  Forall (fun d : string => d <> "") (Explanation (results st)) /\
  Forall (fun t => Forall (fun d : string => d <> "") (Diagnostics t)) (staged st).

(** No counter of [r] is above its value in [r']. *)
Definition counters_le (r r' : Results) : Prop :=
  TotalTests r <= TotalTests r' /\ PassedTests r <= PassedTests r' /\
  FailedTests r <= FailedTests r' /\ SkippedTests r <= SkippedTests r' /\
  TodoTests r <= TodoTests r'.

(** The results have only grown from [r] to [r']: the records of [r] but the
    last one are still there and in front, so is its explanation, and no
    counter went down. *)
Definition grown (r r' : Results) : Prop :=
  (exists more, Tests r' = (removelast (Tests r) ++ more)%list) /\
  (exists more, Explanation r' = (Explanation r ++ more)%list) /\
  counters_le r r'.

(** The same between two states of the loop, where the last record is still
    staged; a staged record stays staged, and the explanation is closed once
    a record is staged. *)
Definition state_grown (st st' : pstate) : Prop :=
  (exists more, Tests (results st') = (Tests (results st) ++ more)%list) /\
  (exists more,
     Explanation (results st') = (Explanation (results st) ++ more)%list) /\
  counters_le (results st) (results st') /\
  (currentTest st' = None ->
   currentTest st = None /\ Tests (results st') = Tests (results st)) /\
  (currentTest st <> None ->
   Explanation (results st') = Explanation (results st)).

(** Records are appended only when another one is staged. *)
Definition records_follow (st : pstate) : Prop :=
  currentTest st = None -> Tests (results st) = [].

(** The record that a counted test line stages, from its [not ] prefix and
    the parts of its text. *)
Definition line_record (np : string) (p : test_text) : Test :=
  let skipped := EqualFold (directive_word p) "skip" in
  let todo := (negb skipped && EqualFold (directive_word p) "todo")%bool in
  let failed := (negb skipped && negb todo && String.eqb np "not ")%bool in
  let passed := (negb skipped && negb todo && negb failed)%bool in
  mkTest (testNumber (number_text p)) passed failed skipped todo
    (TrimSpace (description_text p))
    (if String.eqb (directive_word p) "" then "" else directive_text p) [] "".

(** What a comment does to the state: it goes to the staged record, or to the
    explanation when none is staged. *)
Definition add_comment (d : string) (st : pstate) : pstate :=
  match currentTest st with
  | Some t =>
      with_currentTest (Some (set_Diagnostics (Diagnostics t ++ [d]) t)) st
  | None =>
      with_results
        (set_Explanation (Explanation (results st) ++ [d]) (results st)) st
  end.
(** * Properties *)

(** ** Machine arithmetic *)

Lemma wrap_small (z : Z) : min_int <= z <= max_int -> wrap z = z.
Proof.
  unfold wrap, min_int, max_int. intros H.
  change (2 ^ 63) with 9223372036854775808.
  change (2 ^ 64) with 18446744073709551616.
  rewrite Z.mod_small; lia.
Qed.

Lemma incr_small (z : Z) : 0 <= z < max_int -> incr z = z + 1.
Proof.
  intros H. unfold incr. apply wrap_small. unfold min_int, max_int in *. lia.
Qed.

Lemma digits_value_ge (s : string) :
  forall acc n, digits_value acc s = Some n -> 0 <= acc -> acc <= n.
Proof.
  induction s as [|a s IH]; simpl; intros acc n H Hacc.
  - injection H as <-. lia.
  - destruct (is_digit a); [|discriminate].
    apply IH in H; lia.
Qed.

Lemma Atoi_in_int (s : string) : in_int (fst (Atoi s)).
Proof.
  unfold Atoi, in_int.
  destruct (match s with
            | String "+" t => (false, t)
            | String "-" t => (true, t)
            | _ => (false, s)
            end) as [neg body].
  destruct body as [|a body']; [simpl; unfold min_int, max_int; lia|].
  destruct (digits_value 0 (String a body')) as [n|] eqn:E;
    [|simpl; unfold min_int, max_int; lia].
  apply digits_value_ge in E; [|lia].
  destruct neg.
  - destruct (Z.leb_spec n (- min_int)); simpl; unfold min_int, max_int in *; lia.
  - destruct (Z.leb_spec n max_int); simpl; unfold min_int, max_int in *; lia.
Qed.

(** ** Facts on texts *)

Lemma length_append (a b : string) :
  String.length (a ++ b) = (String.length a + String.length b)%nat.
Proof. induction a as [|x a IH]; simpl; [reflexivity|]. rewrite IH. reflexivity. Qed.

Lemma take_length_append (a b : string) : take (String.length a) (a ++ b) = a.
Proof. induction a as [|x a IH]; simpl; [destruct b|rewrite IH]; reflexivity. Qed.

Lemma captured_append (a b : string) : captured (a ++ b) b = a.
Proof.
  unfold captured. rewrite length_append.
  replace (String.length a + String.length b - String.length b)%nat
    with (String.length a) by lia.
  apply take_length_append.
Qed.

Lemma append_nil_r (a : string) : a ++ "" = a.
Proof. induction a as [|x a IH]; simpl; [|rewrite IH]; reflexivity. Qed.

Lemma captured_all (s : string) : captured s "" = s.
Proof. rewrite <- (append_nil_r s) at 1. apply captured_append. Qed.

Lemma append_assoc (a b c : string) : (a ++ b) ++ c = a ++ (b ++ c).
Proof. induction a as [|x a IH]; simpl; [|rewrite IH]; reflexivity. Qed.

Lemma skip_append (p : ascii -> bool) (w s : string) :
  all_bytes p w = true ->
  (match s with String a _ => p a = false | EmptyString => True end) ->
  skip p (w ++ s) = s.
Proof.
  induction w as [|x w IH]; simpl; intros Hw Hs.
  - destruct s as [|a s]; [reflexivity|]. simpl. rewrite Hs. reflexivity.
  - apply andb_true_iff in Hw as [Hx Hw]. rewrite Hx. apply IH; assumption.
Qed.

Lemma keep_append (p : ascii -> bool) (w s : string) :
  all_bytes p w = true ->
  (match s with String a _ => p a = false | EmptyString => True end) ->
  keep p (w ++ s) = w.
Proof.
  induction w as [|x w IH]; simpl; intros Hw Hs.
  - destruct s as [|a s]; [reflexivity|]. simpl. rewrite Hs. reflexivity.
  - apply andb_true_iff in Hw as [Hx Hw]. rewrite Hx, IH; auto.
Qed.

Lemma strip_prefix_append (p s t : string) :
  strip_prefix p s = Some t -> s = p ++ t.
Proof.
  revert s. induction p as [|a p IH]; simpl; intros s H.
  - injection H as ->. reflexivity.
  - destruct s as [|b s]; [discriminate|].
    destruct (Ascii.eqb_spec a b) as [->|]; [|discriminate].
    rewrite (IH _ H). reflexivity.
Qed.

Lemma keep_skip (p : ascii -> bool) (s : string) : s = keep p s ++ skip p s.
Proof.
  induction s as [|a s IH]; simpl; [reflexivity|].
  destruct (p a); simpl; [rewrite <- IH|]; reflexivity.
Qed.

(** ** The matcher *)

(** A pattern that can match the empty text matches wherever its continuation
    accepts on the spot. *)
Lemma run_nullable (r : regex) :
  nullable r = true ->
  forall prev s c (k : cont),
    (forall c', k prev s c' <> None) -> run r prev s c k <> None.
Proof.
  induction r as [|p|a IHa b IHb|a IHa|a IHa|n a IHa| | |];
    simpl; intros Hn prev s c k Hk; try discriminate.
  - apply Hk.
  - apply andb_true_iff in Hn as [Ha Hb].
    apply IHa; [exact Ha|]. intros c'. apply IHb; assumption.
  - destruct (String.length s); simpl; [apply Hk|].
    match goal with |- context [match ?x with _ => _ end] => destruct x end;
      [discriminate|apply Hk].
  - destruct (run a prev s c k); [discriminate|apply Hk].
  - apply IHa; [exact Hn|]. intros c'. apply Hk.
Qed.

Lemma search_nullable (r : regex) (s : string) :
  nullable r = true -> FindStringSubmatch r s <> None.
Proof.
  intros Hn. unfold FindStringSubmatch.
  assert (H : run r None s no_caps accept <> None)
    by (apply run_nullable; [exact Hn|discriminate]).
  destruct s; simpl; destruct (run r None _ no_caps accept); congruence.
Qed.

Lemma optionalTestLine_matches (s : string) :
  FindStringSubmatch optionalTestLine s <> None.
Proof. apply search_nullable. reflexivity. Qed.

Lemma search_bol (r : regex) (s : string) :
  forall a, search (Seq Bol r) (Some a) s = None.
Proof.
  induction s as [|b s IH]; intros a; simpl; [reflexivity|apply IH].
Qed.

(** A pattern anchored at the start of the text is tried there only. *)
Lemma find_anchored (r : regex) (s : string) :
  FindStringSubmatch (Seq Bol r) s = run r None s no_caps accept.
Proof.
  unfold FindStringSubmatch.
  destruct s as [|a s]; simpl; destruct (run r None _ no_caps accept);
    try reflexivity.
  apply search_bol.
Qed.

Lemma run_lit (p : string) :
  forall prev s c k,
    run (lit p) prev s c k =
    match strip_prefix p s with
    | Some s' => k (last_byte prev p) s' c
    | None => None
    end.
Proof.
  induction p as [|a p IH]; simpl; intros prev s c k; [reflexivity|].
  destruct s as [|b s]; [reflexivity|].
  destruct (Ascii.eqb a b) eqn:E; [|reflexivity].
  apply Ascii.eqb_eq in E as <-. apply IH.
Qed.

Lemma length_tail_lt (a : ascii) (s : string) :
  Nat.ltb (String.length s) (String.length (String a s)) = true.
Proof. apply Nat.ltb_lt. simpl. lia. Qed.

Section ClassStar.

(** The loop of a star over one class [p], for any body that reads one byte
    of the class as [run (Chr p)] does. *)
Variable p : ascii -> bool.
Variable body : option ascii -> string -> caps -> cont -> option caps.
Hypothesis body_chr :
  forall prev s c k,
    body prev s c k =
    match s with
    | String a s' => if p a then k (Some a) s' c else None
    | EmptyString => None
    end.

Variable k : cont.
Variables c m : caps.

(** A successful star over a class read a run of bytes of the class and its
    continuation accepted what was left. *)
Lemma star_loop_class_inv :
  forall fuel prev s,
    star_loop fuel body prev s c k = Some m ->
    exists w s',
      s = w ++ s' /\ all_bytes p w = true /\
      k (last_byte prev w) s' c = Some m.
Proof.
  induction fuel as [|fuel IH]; intros prev s H; cbn [star_loop] in H.
  - exists "", s. auto.
  - rewrite body_chr in H.
    destruct s as [|a s]; [exists "", ""; auto|].
    destruct (p a) eqn:Ep; [|exists "", (String a s); auto].
    rewrite length_tail_lt in H.
    destruct (star_loop fuel body (Some a) s c k) eqn:Es.
    + injection H as ->. apply IH in Es as (w & s' & -> & Hw & Hk).
      exists (String a w), s'. simpl. rewrite Ep, Hw. auto.
    + exists "", (String a s). auto.
Qed.

(** When the continuation accepts after the longest run of the class, the
    star returns what the continuation returns there. *)
Lemma star_loop_class_first :
  forall s fuel prev,
    (String.length s <= fuel)%nat ->
    k (last_byte prev (keep p s)) (skip p s) c = Some m ->
    star_loop fuel body prev s c k = Some m.
Proof.
  induction s as [|a s IH]; intros fuel prev Hl Hk.
  - destruct fuel; cbn [star_loop]; [exact Hk|]. rewrite body_chr. exact Hk.
  - destruct fuel as [|fuel]; [simpl in Hl; lia|].
    cbn [star_loop]. rewrite body_chr. simpl in Hk.
    destruct (p a); [|exact Hk].
    rewrite length_tail_lt. rewrite (IH fuel (Some a)); [reflexivity| |exact Hk].
    simpl in Hl. lia.
Qed.

End ClassStar.

Lemma star_loop_chr_inv (p : ascii -> bool) (k : cont) (c m : caps) :
  forall fuel prev s,
    star_loop fuel (run (Chr p)) prev s c k = Some m ->
    exists w s',
      s = w ++ s' /\ all_bytes p w = true /\ k (last_byte prev w) s' c = Some m.
Proof. apply star_loop_class_inv. reflexivity. Qed.

Lemma star_loop_chr_first (p : ascii -> bool) (k : cont) (c m : caps) :
  forall s fuel prev,
    (String.length s <= fuel)%nat ->
    k (last_byte prev (keep p s)) (skip p s) c = Some m ->
    star_loop fuel (run (Chr p)) prev s c k = Some m.
Proof. apply star_loop_class_first. reflexivity. Qed.

Lemma star_chr_inv (p : ascii -> bool) (k : cont) (c : caps) (m : caps)
    (prev : option ascii) (s : string) :
  run (Star (Chr p)) prev s c k = Some m ->
  exists w s',
    s = w ++ s' /\ all_bytes p w = true /\ k (last_byte prev w) s' c = Some m.
Proof. apply star_loop_chr_inv. Qed.

Lemma star_chr_greedy (p : ascii -> bool) (k : cont) (c m : caps)
    (prev : option ascii) (s : string) :
  (forall c', k (last_byte prev (keep p s)) (skip p s) c' <> None) ->
  run (Star (Chr p)) prev s c k = Some m ->
  k (last_byte prev (keep p s)) (skip p s) c = Some m.
Proof.
  intros Hk H.
  destruct (k (last_byte prev (keep p s)) (skip p s) c) as [m'|] eqn:E;
    [|destruct (Hk _ E)].
  change (run (Star (Chr p)) prev s c k)
    with (star_loop (String.length s) (run (Chr p)) prev s c k) in H.
  rewrite (star_loop_chr_first p k c m' s (String.length s) prev) in H;
    [exact H|lia|exact E].
Qed.

(** A pattern without the group [n] leaves the text of that group as it is. *)
Lemma run_frame (n : nat) (v : string) (m : caps) (r : regex) :
  has_group n r = false ->
  forall prev s c (k : cont),
    (forall p' s' c', c' n = v -> k p' s' c' = Some m -> m n = v) ->
    c n = v ->
    run r prev s c k = Some m ->
    m n = v.
Proof.
  induction r as [|p|a IHa b IHb|a IHa|a IHa|n' a IHa| | |];
    cbn [has_group run]; intros Hg prev s c k Hk Hc H.
  - exact (Hk _ _ _ Hc H).
  - destruct s as [|x s]; [discriminate|].
    destruct (p x); [exact (Hk _ _ _ Hc H)|discriminate].
  - apply orb_false_iff in Hg as [Ha Hb].
    apply (IHa Ha prev s c _) in H; [exact H| |exact Hc].
    intros p' s' c' Hc' H'. exact (IHb Hb _ _ _ _ Hk Hc' H').
  - revert H. generalize (String.length s). intros fuel. revert prev s c Hc.
    induction fuel as [|fuel IHf]; intros prev s c Hc H;
      cbn [star_loop] in H; [exact (Hk _ _ _ Hc H)|].
    match type of H with
    | match ?x with _ => _ end = _ => destruct x as [m'|] eqn:E
    end; [|exact (Hk _ _ _ Hc H)].
    injection H as ->.
    apply (IHa Hg prev s c _) in E; [exact E| |exact Hc].
    intros p' s' c' Hc' H'.
    destruct (Nat.ltb (String.length s') (String.length s)); [|discriminate].
    exact (IHf _ _ _ Hc' H').
  - destruct (run a prev s c k) as [m'|] eqn:E.
    + injection H as ->. exact (IHa Hg _ _ _ _ Hk Hc E).
    + exact (Hk _ _ _ Hc H).
  - apply orb_false_iff in Hg as [Hn Ha].
    apply (IHa Ha prev s c _) in H; [exact H| |exact Hc].
    intros p' s' c' Hc' H'. apply (Hk _ _ _) in H'; [exact H'|].
    unfold set_cap. rewrite Nat.eqb_sym, Hn. exact Hc'.
  - destruct prev; [discriminate|exact (Hk _ _ _ Hc H)].
  - destruct s; [exact (Hk _ _ _ Hc H)|discriminate].
  - destruct (xorb _ _); [exact (Hk _ _ _ Hc H)|discriminate].
Qed.

Lemma find_nullable (r : regex) (s : string) :
  nullable r = true ->
  FindStringSubmatch r s = run r None s no_caps accept.
Proof.
  intros Hn. unfold FindStringSubmatch.
  assert (H : run r None s no_caps accept <> None)
    by (apply run_nullable; [exact Hn|discriminate]).
  destruct s; simpl; destruct (run r None _ no_caps accept); congruence.
Qed.

Lemma run_Seq (a b : regex) (prev : option ascii) (s : string) (c : caps)
    (k : cont) :
  run (Seq a b) prev s c k = run a prev s c (fun p' s' c' => run b p' s' c' k).
Proof. reflexivity. Qed.

Lemma run_Grp (n : nat) (a : regex) (prev : option ascii) (s : string)
    (c : caps) (k : cont) :
  run (Grp n a) prev s c k
  = run a prev s c (fun p' s' c' => k p' s' (set_cap n (captured s s') c')).
Proof. reflexivity. Qed.

Lemma run_Opt_first (a : regex) (prev : option ascii) (s : string) (c : caps)
    (k : cont) :
  run a prev s c k <> None -> run (Opt a) prev s c k = run a prev s c k.
Proof. intros H. cbn [run]. destruct (run a prev s c k); congruence. Qed.

(** ** The patterns *)

(** What [bailOutLine] captures: the line is the marker, white space, and the
    reason; the reason is what is left of the line after the marker and the
    white space that follows it. *)
Lemma bailOutLine_inv (line : string) (m : caps) :
  FindStringSubmatch bailOutLine line = Some m ->
  exists rest,
    strip_prefix "Bail out!" line = Some rest /\
    m 1%nat = skip is_space rest.
Proof.
  unfold bailOutLine. cbn [seqs]. rewrite find_anchored.
  change (run (Seq (lit "Bail out!") ?r) ?p ?s ?c ?k)
    with (run (lit "Bail out!") p s c (fun p' s' c' => run r p' s' c' k)).
  rewrite run_lit.
  destruct (strip_prefix "Bail out!" line) as [rest|]; [|discriminate].
  intros H. exists rest. split; [reflexivity|].
  change (run (Seq (Star (Chr is_space)) ?r) ?p ?s ?c ?k)
    with (run (Star (Chr is_space)) p s c (fun p' s' c' => run r p' s' c' k)) in H.
  apply star_chr_inv in H as (w & s' & -> & Hw & H).
  destruct s' as [|a t].
  - cbn in H. injection H as <-. rewrite append_nil_r.
    rewrite <- (append_nil_r w) at 1. rewrite skip_append; auto.
  - cbn [run] in H. unfold is_nonspace in H at 1.
    destruct (is_space a) eqn:Ea; [discriminate|]. cbn [negb] in H.
    rewrite skip_append; [|exact Hw|exact Ea].
    match type of H with
    | match ?x with _ => _ end = _ => destruct x as [m'|] eqn:E; [|discriminate]
    end.
    injection H as ->.
    apply (star_loop_chr_inv is_dot) in E as (w2 & s2 & Ht & _ & E).
    destruct s2; [|discriminate]. injection E as <-.
    unfold set_cap. simpl Nat.eqb. cbv iota. apply captured_all.
Qed.

Lemma bailOutLine_first (line : string) (m : caps) :
  FindStringSubmatch bailOutLine line = Some m ->
  exists t, line = String "B" t.
Proof.
  intros H. apply bailOutLine_inv in H as (rest & Hp & _).
  apply strip_prefix_append in Hp. subst line. simpl. eauto.
Qed.

Lemma testPlanDeclaration_first (line : string) (m : caps) :
  FindStringSubmatch testPlanDeclaration line = Some m ->
  exists a t, line = String a t /\ is_digit a = true.
Proof.
  unfold testPlanDeclaration. cbn [seqs]. rewrite find_anchored.
  destruct line as [|a t]; [discriminate|]. cbn [run plus].
  destruct (is_digit a) eqn:E; [|discriminate]. eauto.
Qed.

Lemma testLine_first (line : string) (m : caps) :
  FindStringSubmatch testLine line = Some m ->
  exists t, line = String "n" t \/ line = String "o" t.
Proof.
  unfold testLine. cbn [seqs]. rewrite find_anchored.
  destruct line as [|a t]; [discriminate|]. cbn [run lit].
  destruct (Ascii.eqb_spec "n" a) as [<-|Hn]; [eauto|].
  destruct (Ascii.eqb_spec "o" a) as [<-|Ho]; [eauto|discriminate].
Qed.

Lemma yamlStart_first (line : string) :
  MatchString yamlStart line = true ->
  exists a t, line = String a t /\ (is_space a = true \/ a = "-"%char).
Proof.
  unfold MatchString, yamlStart. cbn [seqs]. rewrite find_anchored.
  destruct (run _ None line no_caps accept) as [m|] eqn:E; [|discriminate].
  intros _.
  change (run (Seq (Star (Chr is_space)) ?r) ?p ?s ?c ?k)
    with (run (Star (Chr is_space)) p s c (fun p' s' c' => run r p' s' c' k)) in E.
  apply star_chr_inv in E as (w & s' & -> & Hw & E).
  destruct w as [|a w].
  - change (run (Seq (lit "---") ?r) ?p ?s ?c ?k)
      with (run (lit "---") p s c (fun p' s' c' => run r p' s' c' k)) in E.
    rewrite run_lit in E.
    destruct (strip_prefix "---" s') as [t|] eqn:Ep; [|discriminate].
    apply strip_prefix_append in Ep. subst s'. simpl. eauto.
  - simpl in Hw. apply andb_true_iff in Hw as [Ha _]. simpl. eauto.
Qed.

Lemma is_space_cases (a : ascii) :
  is_space a = true ->
  a = "009"%char \/ a = "010"%char \/ a = "012"%char \/ a = "013"%char
  \/ a = " "%char.
Proof.
  unfold is_space. intros H.
  repeat (apply orb_true_iff in H as [H|H]);
    apply Ascii.eqb_eq in H; auto 6.
Qed.

(** A line that starts a data block is no abort line, no plan and no test
    result. *)
Lemma yamlStart_only (line : string) :
  MatchString yamlStart line = true ->
  FindStringSubmatch bailOutLine line = None /\
  FindStringSubmatch testPlanDeclaration line = None /\
  FindStringSubmatch testLine line = None.
Proof.
  intros H. apply yamlStart_first in H as (a & t & -> & Ha).
  assert (Hd : is_digit a = false /\ a <> "B"%char /\ a <> "n"%char
               /\ a <> "o"%char).
  { destruct Ha as [Ha| ->].
    - apply is_space_cases in Ha as [->|[->|[->|[->| ->]]]];
        repeat split; try reflexivity; discriminate.
    - repeat split; try reflexivity; discriminate. }
  destruct Hd as (Hd & HB & Hn & Ho). repeat split.
  - destruct (FindStringSubmatch bailOutLine (String a t)) eqn:E; [|reflexivity].
    apply bailOutLine_first in E as (t' & E). congruence.
  - destruct (FindStringSubmatch testPlanDeclaration (String a t)) eqn:E;
      [|reflexivity].
    apply testPlanDeclaration_first in E as (a' & t' & E & Ha').
    injection E as -> ->. congruence.
  - destruct (FindStringSubmatch testLine (String a t)) eqn:E; [|reflexivity].
    apply testLine_first in E as (t' & [E|E]); congruence.
Qed.

(** Group 1 of [optionalTestLine] is the run of digits that follows the
    leading white space. *)
Lemma optionalTestLine_number (s : string) (m : caps) :
  FindStringSubmatch optionalTestLine s = Some m ->
  m 1%nat = keep is_digit (skip is_space s).
Proof.
  intros H. rewrite find_nullable in H by reflexivity.
  unfold optionalTestLine in H. cbn [seqs] in H.
  match type of H with
  | run (Seq _ (Seq _ ?r)) _ _ _ _ = _ => set (R2 := r) in H
  end.
  rewrite run_Seq in H. apply star_chr_greedy in H;
    [|intros c'; apply run_nullable; [reflexivity|discriminate]].
  set (s1 := skip is_space s) in *.
  rewrite run_Seq in H. rewrite run_Opt_first in H
    by (apply run_nullable; [reflexivity|];
        intros c'; apply run_nullable; [reflexivity|discriminate]).
  rewrite run_Grp in H. apply star_chr_greedy in H;
    [|intros c'; apply run_nullable; [reflexivity|discriminate]].
  apply (run_frame 1 (keep is_digit s1)) in H; [exact H|reflexivity| |].
  - intros p' s' c' Hc E. injection E as <-. exact Hc.
  - unfold set_cap. cbn [Nat.eqb].
    rewrite (keep_skip is_digit s1) at 1. apply captured_append.
Qed.

Lemma strip_prefix_same (p t : string) : strip_prefix p (p ++ t) = Some t.
Proof.
  induction p as [|a p IH]; simpl; [reflexivity|].
  rewrite Ascii.eqb_refl. exact IH.
Qed.

(** What [testLine] captures: the line is [ok] or [not ok], not followed by a
    word byte, and group 2 is what follows up to the first newline. *)
Lemma testLine_inv (line : string) (m : caps) :
  FindStringSubmatch testLine line = Some m ->
  exists rest,
    (strip_prefix "not ok" line = Some rest /\ m 1%nat = "not "
     \/ strip_prefix "ok" line = Some rest /\ m 1%nat = "") /\
    word_after rest = false /\
    m 2%nat = keep is_dot rest.
Proof.
  unfold testLine. cbn [seqs]. rewrite find_anchored. rewrite run_Seq.
  set (K := fun p' s' c' => run _ p' s' c' accept).
  assert (HK : forall p' s' c' m',
             K p' s' c' = Some m' ->
             exists rest,
               strip_prefix "ok" s' = Some rest /\ word_after rest = false /\
               m' = set_cap 2 (keep is_dot rest) c').
  { intros p' s' c' m' H. unfold K in H. rewrite run_Seq, run_lit in H.
    destruct (strip_prefix "ok" s') as [rest|]; [|discriminate].
    exists rest. split; [reflexivity|].
    rewrite run_Seq in H.
    change (run WordB ?p ?s ?c ?k)
      with (if xorb (word_before p) (word_after s) then k p s c else None) in H.
    cbn [last_byte word_before] in H. change (is_word "k") with true in H.
    destruct (word_after rest); [discriminate|]. split; [reflexivity|].
    cbn [xorb] in H. rewrite run_Grp in H.
    apply star_chr_greedy in H; [|discriminate].
    unfold accept in H. injection H as <-.
    rewrite (keep_skip is_dot rest) at 1. rewrite captured_append. reflexivity. }
  intros H.
  change (run (Opt ?a) ?p ?s ?c ?k)
    with (match run a p s c k with Some res => Some res | None => k p s c end)
    in H.
  destruct (run (Grp 1 (lit "not ")) None line no_caps K) as [m'|] eqn:E.
  - injection H as ->. rewrite run_Grp, run_lit in E.
    destruct (strip_prefix "not " line) as [l1|] eqn:E1; [|discriminate].
    apply HK in E as (rest & E2 & Hw & ->).
    apply strip_prefix_append in E1. apply strip_prefix_append in E2. subst.
    exists rest. split; [left|split; [exact Hw|reflexivity]].
    split; [apply (strip_prefix_same "not ok")|].
    unfold set_cap. cbn [Nat.eqb].
    apply (captured_append "not " ("ok" ++ rest)).
  - apply HK in H as (rest & E2 & Hw & ->).
    exists rest. split; [right; split; [exact E2|reflexivity]|].
    split; [exact Hw|reflexivity].
Qed.

(** ** The loop never panics *)

Lemma countTest_total (st : pstate) (a b : string) : countTest st a b <> None.
Proof.
  unfold countTest.
  destruct (FindStringSubmatch optionalTestLine b) eqn:E;
    [|destruct (optionalTestLine_matches _ E)].
  repeat break_match; discriminate.
Qed.

Lemma testStep_total (st : pstate) (line : string) : testStep st line <> None.
Proof.
  unfold testStep. repeat (break_match; try discriminate). apply countTest_total.
Qed.

Lemma step_total (st : pstate) (line : string) : step st line <> None.
Proof.
  unfold step.
  repeat (break_match; try discriminate); apply testStep_total.
Qed.

Lemma run_lines_total (lines : list string) :
  forall st, run_lines st lines <> None.
Proof.
  induction lines as [|l lines IH]; simpl; intros st; [discriminate|].
  destruct (step st l) eqn:E; [apply IH|destruct (step_total _ _ E)].
Qed.

Lemma run_lines_app (l1 l2 : list string) :
  forall st, run_lines st (l1 ++ l2) =
             match run_lines st l1 with
             | Some st' => run_lines st' l2
             | None => None
             end.
Proof.
  induction l1 as [|l l1 IH]; simpl; intros st; [reflexivity|].
  destruct (step st l); [apply IH|reflexivity].
Qed.

(** ** What a line changes and what it leaves alone *)

Lemma set_ExpectedTests_same (st : pstate) :
  with_results (set_ExpectedTests (ExpectedTests (results st)) (results st)) st = st.
Proof. destruct st as [s p a t []]. reflexivity. Qed.

Lemma planStep_spec (st st' : pstate) (line : string) (b : bool) :
  planStep st line = (st', b) ->
  exists v,
    st' = with_results (set_ExpectedTests v (results st)) st /\
    ((v = ExpectedTests (results st) /\ b = false /\
      (foundTestPlan st = true \/
       FindStringSubmatch testPlanDeclaration line = None))
     \/
     (exists m, foundTestPlan st = false /\
                FindStringSubmatch testPlanDeclaration line = Some m /\
                Atoi (m 1%nat) = (v, negb b))).
Proof.
  unfold planStep. intros H.
  destruct (foundTestPlan st) eqn:Ef; simpl in H.
  - injection H as <- <-. exists (ExpectedTests (results st)).
    rewrite set_ExpectedTests_same. split; [reflexivity|left; auto].
  - destruct (FindStringSubmatch testPlanDeclaration line) as [m|] eqn:Em.
    + destruct (Atoi (m 1%nat)) as [v ok] eqn:Ea. injection H as <- <-.
      exists v. split; [reflexivity|]. right. exists m.
      rewrite negb_involutive. auto.
    + injection H as <- <-. exists (ExpectedTests (results st)).
      rewrite set_ExpectedTests_same. split; [reflexivity|left; auto].
Qed.

Lemma planStep_in_int (st st' : pstate) (line : string) (b : bool) :
  planStep st line = (st', b) ->
  in_int (ExpectedTests (results st)) ->
  exists v, st' = with_results (set_ExpectedTests v (results st)) st /\ in_int v.
Proof.
  intros H Hi. apply planStep_spec in H as (v & -> & [(-> & _)|(m & _ & _ & Ea)]).
  - exists (ExpectedTests (results st)). auto.
  - exists v. split; [reflexivity|].
    pose proof (Atoi_in_int (m 1%nat)) as Hv. rewrite Ea in Hv. exact Hv.
Qed.

Lemma countTest_spec (st st' : pstate) (a b : string) :
  countTest st a b = Some st' ->
  state st' = state st /\
  foundTestPlan st' = foundTestPlan st /\
  foundAllTests st' =
    (if TotalTests (results st') =? ExpectedTests (results st') then true
     else foundAllTests st) /\
  (exists t, currentTest st' = Some t /\ flag_count t = 1%nat) /\
  TotalTests (results st') = incr (TotalTests (results st)) /\
  ExpectedTests (results st') = ExpectedTests (results st) /\
  TapVersion (results st') = TapVersion (results st) /\
  BailOut (results st') = BailOut (results st) /\
  BailOutReason (results st') = BailOutReason (results st) /\
  Tests (results st') = Tests (results st) /\
  Lines (results st') = Lines (results st) /\
  Explanation (results st') = Explanation (results st).
Proof.
  unfold countTest. intros H.
  destruct (FindStringSubmatch optionalTestLine b) as [m|]; [|discriminate].
  destruct (EqualFold _ "skip"); [|destruct (EqualFold _ "todo");
    [|destruct (String.eqb a "not ")]];
    injection H as <-; simpl; repeat split; try reflexivity;
    eexists; (split; [reflexivity|reflexivity]).
Qed.

Lemma flush_fields (cur : option Test) (r : Results) :
  ExpectedTests (flush cur r) = ExpectedTests r /\
  TotalTests (flush cur r) = TotalTests r /\
  BailOut (flush cur r) = BailOut r /\
  BailOutReason (flush cur r) = BailOutReason r /\
  TapVersion (flush cur r) = TapVersion r /\
  Tests (flush cur r)
  = (Tests r ++ match cur with Some t => [t] | None => [] end)%list.
Proof.
  destruct cur; simpl; repeat split; try reflexivity.
  symmetry. apply app_nil_r.
Qed.

Lemma diagnosticStep_frame (st : pstate) (line : string) :
  state (diagnosticStep st line) = state st /\
  ExpectedTests (results (diagnosticStep st line)) = ExpectedTests (results st) /\
  BailOut (results (diagnosticStep st line)) = BailOut (results st) /\
  BailOutReason (results (diagnosticStep st line)) = BailOutReason (results st).
Proof.
  unfold diagnosticStep. repeat break_match; repeat split; reflexivity.
Qed.

Lemma testStep_frame (st st' : pstate) (line : string) :
  testStep st line = Some st' ->
  ExpectedTests (results st') = ExpectedTests (results st) /\
  BailOut (results st') = BailOut (results st) /\
  BailOutReason (results st') = BailOutReason (results st).
Proof.
  unfold testStep. intros H.
  destruct (flush_fields (currentTest st) (results st))
    as (He & _ & Hb & Hr & _).
  destruct (FindStringSubmatch testLine line).
  - cbn [foundAllTests with_currentTest with_results] in H.
    destruct (foundAllTests st).
    + injection H as <-. simpl. auto.
    + apply countTest_spec in H
        as (_ & _ & _ & _ & _ & He' & _ & Hb' & Hr' & _).
      simpl in He', Hb', Hr'. rewrite He', Hb', Hr'. auto.
  - destruct (MatchString yamlStart line); injection H as <-;
      [repeat split; reflexivity|].
    apply diagnosticStep_frame.
Qed.

(** The plan after one line: what the line records, or what it was. *)
Lemma step_ExpectedTests (st st' : pstate) (line : string) :
  step st line = Some st' ->
  ExpectedTests (results st') =
  match plan_recorded st line with
  | Some v => v
  | None => ExpectedTests (results st)
  end.
Proof.
  intros H. unfold step in H. unfold plan_recorded. destruct (state st).
  - repeat break_match; injection H as <-; reflexivity.
  - destruct (FindStringSubmatch bailOutLine line);
      [injection H as <-; reflexivity|].
    destruct (planStep st line) as [st1 b] eqn:Ep.
    assert (He : ExpectedTests (results st') = ExpectedTests (results st1)).
    { destruct b; [injection H as <-; reflexivity|].
      apply testStep_frame in H. apply H. }
    rewrite He.
    apply planStep_spec in Ep as (v & -> & [(-> & _ & [Ef|Em])|(m & Ef & Em & Ea)]).
    + rewrite Ef. reflexivity.
    + rewrite Em. destruct (foundTestPlan st); reflexivity.
    + rewrite Ef, Em, Ea. reflexivity.
  - repeat break_match; injection H as <-; reflexivity.
Qed.

(** The abort flag and reason after one line. *)
Lemma step_BailOut (st st' : pstate) (line : string) :
  step st line = Some st' ->
  match abort_recorded st line with
  | Some reason =>
      BailOut (results st') = true /\ BailOutReason (results st') = reason
  | None =>
      BailOut (results st') = BailOut (results st) /\
      BailOutReason (results st') = BailOutReason (results st)
  end.
Proof.
  intros H. unfold step in H. unfold abort_recorded. destruct (state st).
  - repeat break_match; injection H as <-; split; reflexivity.
  - destruct (FindStringSubmatch bailOutLine line);
      [injection H as <-; split; reflexivity|].
    destruct (planStep st line) as [st1 b] eqn:Ep.
    apply planStep_spec in Ep as (v & -> & _).
    destruct b; [injection H as <-; split; reflexivity|].
    apply testStep_frame in H as (_ & Hb & Hr). simpl in Hb, Hr. auto.
  - repeat break_match; injection H as <-; split; reflexivity.
Qed.

Lemma run_lines_no_plan (lines : list string) :
  forall st st',
    none_recorded plan_recorded st lines = true ->
    run_lines st lines = Some st' ->
    ExpectedTests (results st') = ExpectedTests (results st).
Proof.
  induction lines as [|l lines IH]; simpl; intros st st' Hn H.
  - injection H as <-. reflexivity.
  - destruct (plan_recorded st l) eqn:Ep; [discriminate|].
    destruct (step st l) as [st1|] eqn:E; [|discriminate].
    rewrite (IH _ _ Hn H). rewrite (step_ExpectedTests _ _ _ E), Ep. reflexivity.
Qed.

(** The plan of the final [Results] is the one the last plan line records. *)
Lemma last_plan_wins (st st1 st' : pstate) (line : string) (post : list string)
    (v : Z) :
  plan_recorded st line = Some v ->
  step st line = Some st1 ->
  none_recorded plan_recorded st1 post = true ->
  run_lines st1 post = Some st' ->
  ExpectedTests (finish st') = v.
Proof.
  intros Hp Hs Hn Hr. unfold finish.
  destruct (flush_fields (currentTest st') (results st')) as (-> & _).
  rewrite (run_lines_no_plan _ _ _ Hn Hr), (step_ExpectedTests _ _ _ Hs), Hp.
  reflexivity.
Qed.

Lemma run_lines_BailOut (lines : list string) :
  forall st st',
    BailOut (results st) = true ->
    run_lines st lines = Some st' ->
    BailOut (results st') = true.
Proof.
  induction lines as [|l lines IH]; simpl; intros st st' Hb H.
  - injection H as <-. exact Hb.
  - destruct (step st l) as [st1|] eqn:E; [|discriminate].
    apply (IH st1); [|exact H].
    pose proof (step_BailOut _ _ _ E) as Hs.
    destruct (abort_recorded st l); destruct Hs as [Hs _]; congruence.
Qed.

Lemma run_lines_no_abort (lines : list string) :
  forall st st',
    none_recorded abort_recorded st lines = true ->
    run_lines st lines = Some st' ->
    BailOutReason (results st') = BailOutReason (results st).
Proof.
  induction lines as [|l lines IH]; simpl; intros st st' Hn H.
  - injection H as <-. reflexivity.
  - destruct (abort_recorded st l) eqn:Ea; [discriminate|].
    destruct (step st l) as [st1|] eqn:E; [|discriminate].
    rewrite (IH _ _ Hn H).
    pose proof (step_BailOut _ _ _ E) as Hs. rewrite Ea in Hs. apply Hs.
Qed.

(** ** The counters *)

Lemma countTest_bounded (st st' : pstate) (a b : string) (n : Z) :
  n < max_int ->
  bounded n (results st) ->
  countTest st a b = Some st' ->
  bounded (n + 1) (results st').
Proof.
  unfold countTest, bounded, counters_ok. intros Hn (Hc & Hle & He) H.
  destruct (FindStringSubmatch optionalTestLine b); [|discriminate].
  assert (Ht : incr (TotalTests (results st)) = TotalTests (results st) + 1)
    by (apply incr_small; lia).
  assert (Hp : incr (PassedTests (results st)) = PassedTests (results st) + 1)
    by (apply incr_small; lia).
  assert (Hf : incr (FailedTests (results st)) = FailedTests (results st) + 1)
    by (apply incr_small; lia).
  assert (Hs : incr (SkippedTests (results st)) = SkippedTests (results st) + 1)
    by (apply incr_small; lia).
  assert (Hd : incr (TodoTests (results st)) = TodoTests (results st) + 1)
    by (apply incr_small; lia).
  rewrite Ht, Hp, Hf, Hs, Hd in H.
  destruct (EqualFold _ "skip"); [|destruct (EqualFold _ "todo");
    [|destruct (String.eqb a "not ")]];
    injection H as <-; simpl; repeat split; try lia; apply He.
Qed.

Lemma bounded_flush (n : Z) (cur : option Test) (r : Results) :
  bounded n r -> bounded n (flush cur r).
Proof. destruct cur; intros H; exact H. Qed.

Lemma bounded_weaken (n : Z) (r : Results) : bounded n r -> bounded (n + 1) r.
Proof.
  intros (Hc & Hle & He). repeat split; try apply Hc; try apply He. lia.
Qed.

Lemma testStep_bounded (st st' : pstate) (line : string) (n : Z) :
  n < max_int ->
  bounded n (results st) ->
  testStep st line = Some st' ->
  bounded (n + 1) (results st').
Proof.
  unfold testStep. intros Hn Hb H.
  destruct (FindStringSubmatch testLine line) as [m|].
  - cbn [foundAllTests with_currentTest with_results] in H.
    destruct (foundAllTests st).
    + injection H as <-. apply bounded_weaken, bounded_flush, Hb.
    + eapply countTest_bounded; [exact Hn| |exact H].
      apply bounded_flush, Hb.
  - destruct (MatchString yamlStart line); injection H as <-;
      [exact (bounded_weaken _ _ Hb)|].
    unfold diagnosticStep. repeat break_match; apply bounded_weaken, Hb.
Qed.

Lemma step_bounded (st st' : pstate) (line : string) (n : Z) :
  n < max_int ->
  bounded n (results st) ->
  step st line = Some st' ->
  bounded (n + 1) (results st').
Proof.
  intros Hn Hb H. pose proof (bounded_weaken _ _ Hb) as Hw.
  unfold step in H. destruct (state st).
  - repeat break_match; injection H as <-; exact Hw.
  - destruct (FindStringSubmatch bailOutLine line); [injection H as <-; exact Hw|].
    destruct (planStep st line) as [st1 b] eqn:Ep.
    apply planStep_in_int in Ep as (v & -> & Hv); [|apply Hb].
    assert (Hb1 : bounded n (set_ExpectedTests v (results st)))
      by (destruct Hb as (Hc & Hle & He); repeat split; try apply Hc; try apply Hv;
          exact Hle).
    destruct b.
    + injection H as <-. apply bounded_weaken, Hb1.
    + eapply testStep_bounded; [exact Hn| |exact H]. exact Hb1.
  - repeat break_match; injection H as <-; exact Hw.
Qed.

Lemma run_lines_bounded (lines : list string) :
  forall st st' n,
    n + len lines <= max_int ->
    bounded n (results st) ->
    run_lines st lines = Some st' ->
    bounded (n + len lines) (results st').
Proof.
  unfold len.
  induction lines as [|l lines IH]; simpl List.length; intros st st' n Hn Hb H.
  - simpl in H. injection H as <-. rewrite Z.add_0_r. exact Hb.
  - simpl in H. destruct (step st l) as [st1|] eqn:E; [|discriminate].
    replace (n + Z.of_nat (S (List.length lines)))
      with (n + 1 + Z.of_nat (List.length lines)) by lia.
    apply (IH st1); [lia| |exact H].
    eapply step_bounded; [|exact Hb|exact E]. lia.
Qed.

Lemma init_bounded (lines : list string) : bounded 0 (results (init lines)).
Proof.
  unfold bounded, counters_ok, in_int, min_int, max_int. simpl. lia.
Qed.

(** The state after a prefix of the input. *)
Lemma prefix_bounded (pre post : list string) :
  len (pre ++ post) <= max_int ->
  exists st, run_lines (init (pre ++ post)) pre = Some st /\
             bounded (len pre) (results st).
Proof.
  intros Hn.
  destruct (run_lines (init (pre ++ post)) pre) as [st|] eqn:E;
    [|destruct (run_lines_total _ _ E)].
  exists st. split; [reflexivity|].
  apply (run_lines_bounded pre _ _ 0) in E; [exact E| |apply init_bounded].
  unfold len in *. rewrite length_app in Hn. lia.
Qed.

Lemma Parse_bounded (lines : list string) :
  len lines <= max_int ->
  exists r, Parse lines = Some r /\ bounded (len lines) r.
Proof.
  intros Hn. destruct (prefix_bounded lines []) as (st & E & Hb);
    [rewrite app_nil_r; exact Hn|].
  rewrite app_nil_r in E. unfold Parse. rewrite E. simpl.
  exists (finish st). split; [reflexivity|]. apply bounded_flush, Hb.
Qed.

(** ** The verdict *)

(** C1: for the [Results] of every completed parse, [IsPassing] is false when
    [TapVersion] is negative, otherwise false when [BailOut] is set, and
    otherwise it tells whether the skipped, todo and passed tests together are
    as many as the plan declares, or as many as were counted when there is no
    plan; the failed tests are not in the sum. *)
Theorem IsPassing_verdict (lines : list string) :
  len lines <= max_int ->
  exists r,
    Parse lines = Some r /\
    IsPassing r =
      if TapVersion r <? 0 then false
      else if BailOut r then false
      else SkippedTests r + TodoTests r + PassedTests r
           =? (if 0 <=? ExpectedTests r then ExpectedTests r else TotalTests r).
Proof.
  intros Hn. destruct (Parse_bounded lines Hn) as (r & E & Hc & Hle & He).
  exists r. split; [exact E|].
  unfold IsPassing. destruct (TapVersion r <? 0); [reflexivity|].
  destruct (BailOut r); [reflexivity|].
  unfold counters_ok in Hc. rewrite Z.geb_leb.
  rewrite (wrap_small (TodoTests r + SkippedTests r)) by (unfold min_int; lia).
  rewrite wrap_small by (unfold min_int; lia).
  replace (TodoTests r + SkippedTests r + PassedTests r)
    with (SkippedTests r + TodoTests r + PassedTests r) by lia.
  reflexivity.
Qed.

(** The verdict of a planned run with a failed test. *)
Lemma IsPassing_verdict_witness :
  len ["TAP version 13"; "1..2"; "ok"; "not ok"] <= max_int /\
  exists r,
    Parse ["TAP version 13"; "1..2"; "ok"; "not ok"] = Some r /\
    IsPassing r =
      if TapVersion r <? 0 then false
      else if BailOut r then false
      else SkippedTests r + TodoTests r + PassedTests r
           =? (if 0 <=? ExpectedTests r then ExpectedTests r else TotalTests r).
Proof.
  split; [vm_compute; discriminate|].
  apply (IsPassing_verdict ["TAP version 13"; "1..2"; "ok"; "not ok"]).
  vm_compute; discriminate.
Defined.

(** ** The counters agree *)

(** C2: after every prefix of the input, and in the value [Parse] returns, the
    total is the sum of the passed, failed, skipped and todo counts, and none
    of the five counters is negative. *)
Theorem counters_agree (lines : list string) :
  len lines <= max_int ->
  (forall pre post, lines = (pre ++ post)%list ->
     exists st, run_lines (init lines) pre = Some st /\ counters_ok (results st)) /\
  (exists r, Parse lines = Some r /\ counters_ok r).
Proof.
  intros Hn. split.
  - intros pre post ->. destruct (prefix_bounded pre post Hn) as (st & E & Hb).
    exists st. split; [exact E|apply Hb].
  - destruct (Parse_bounded lines Hn) as (r & E & Hb).
    exists r. split; [exact E|apply Hb].
Qed.

(** The counters of a run with a passed, a todo and a skipped test. *)
Lemma counters_agree_witness :
  len ["TAP version 13"; "ok"; "not ok # TODO later"; "ok # skip"] <= max_int /\
  (forall pre post,
     ["TAP version 13"; "ok"; "not ok # TODO later"; "ok # skip"] = (pre ++ post)%list ->
     exists st,
       run_lines (init ["TAP version 13"; "ok"; "not ok # TODO later"; "ok # skip"])
         pre = Some st /\ counters_ok (results st)) /\
  (exists r,
     Parse ["TAP version 13"; "ok"; "not ok # TODO later"; "ok # skip"] = Some r /\
     counters_ok r).
Proof.
  split; [vm_compute; discriminate|].
  apply (counters_agree ["TAP version 13"; "ok"; "not ok # TODO later"; "ok # skip"]).
  vm_compute; discriminate.
Defined.

(** ** The run-cap *)

Lemma step_capped (st st' : pstate) (line : string) (n : Z) :
  n < max_int ->
  bounded n (results st) ->
  capped st ->
  match plan_recorded st line with
  | Some v => TotalTests (results st) <? v
  | None => true
  end = true ->
  step st line = Some st' ->
  capped st'.
Proof.
  intros Hn Hb Hc Hp H. unfold step in H. unfold plan_recorded in Hp.
  destruct (state st).
  - repeat break_match; injection H as <-; exact Hc.
  - destruct (FindStringSubmatch bailOutLine line); [injection H as <-; exact Hc|].
    destruct (planStep st line) as [st1 b] eqn:Ep.
    assert (Hc1 : capped st1).
    { apply planStep_spec in Ep as (v & -> & [(-> & _)|(m & Ef & Em & Ea)]).
      - rewrite set_ExpectedTests_same. exact Hc.
      - rewrite Ef, Em, Ea in Hp. simpl in Hp. apply Z.ltb_lt in Hp.
        right. left. simpl. exact Hp. }
    assert (Hb1 : bounded n (results st1)).
    { apply planStep_in_int in Ep as (v & -> & Hv); [|apply Hb].
      destruct Hb as (Hx & Hle & He). repeat split; try apply Hx; try apply Hv.
      exact Hle. }
    destruct b; [injection H as <-; exact Hc1|].
    clear Ep Hp Hc Hb. unfold testStep in H.
    destruct (FindStringSubmatch testLine line).
    + cbn [foundAllTests with_currentTest with_results] in H.
      destruct (foundAllTests st1) eqn:Ea.
      * injection H as <-. unfold capped in *. simpl.
        destruct (currentTest st1); simpl; rewrite ?Ea;
          destruct Hc1 as [?|[?|[? ?]]]; auto.
      * apply countTest_spec in H as (_ & _ & Hf & _ & Ht & He & _).
        cbn [results foundAllTests with_currentTest with_results] in *.
        destruct (flush_fields (currentTest st1) (results st1))
          as (Hr1 & Hr2 & _).
        rewrite Hr1 in He. rewrite Hr2 in Ht.
        rewrite incr_small in Ht
          by (destruct Hb1 as (Hx & Hle & _); unfold counters_ok in Hx; lia).
        unfold capped in *. rewrite Hf, He, Ht. rewrite Ea in Hc1.
        destruct (Z.eqb_spec (TotalTests (results st1) + 1)
                    (ExpectedTests (results st1))); [right; right; auto|].
        destruct Hc1 as [Hc1|[Hc1|[_ Hc1]]]; [left; exact Hc1|right; left; lia|
                                               discriminate].
    + destruct (MatchString yamlStart line); injection H as <-; [exact Hc1|].
      unfold diagnosticStep. repeat break_match; exact Hc1.
  - repeat break_match; injection H as <-; exact Hc.
Qed.

Lemma run_lines_capped (lines : list string) :
  forall st st' n,
    n + len lines <= max_int ->
    bounded n (results st) ->
    capped st ->
    plans_ahead st lines = true ->
    run_lines st lines = Some st' ->
    capped st'.
Proof.
  unfold len.
  induction lines as [|l lines IH]; simpl List.length;
    intros st st' n Hn Hb Hc Hp H; simpl in H.
  - injection H as <-. exact Hc.
  - simpl in Hp. apply andb_true_iff in Hp as [Hp1 Hp2].
    destruct (step st l) as [st1|] eqn:E; [|discriminate].
    apply (IH st1 st' (n + 1)); [lia| | |exact Hp2|exact H].
    + eapply step_bounded; [|exact Hb|exact E]. lia.
    + eapply step_capped; [|exact Hb|exact Hc|exact Hp1|exact E]. lia.
Qed.

(** C3, as the code has it: when every plan is read before as many tests as
    it declares have been counted, the counted total of the final [Results]
    does not exceed a declared plan. *)
Theorem run_cap_bounds_total (lines : list string) :
  len lines <= max_int ->
  plans_ahead (init lines) lines = true ->
  exists r,
    Parse lines = Some r /\
    (ExpectedTests r >= 0 -> TotalTests r <= ExpectedTests r).
Proof.
  intros Hn Hp.
  destruct (run_lines (init lines) lines) as [st|] eqn:E;
    [|destruct (run_lines_total _ _ E)].
  exists (finish st). unfold Parse. rewrite E. split; [reflexivity|].
  assert (Hc : capped st).
  { apply (run_lines_capped lines (init lines) st 0);
      [rewrite Z.add_0_l; exact Hn|apply init_bounded| |exact Hp|exact E].
    left. simpl. lia. }
  unfold finish. intros He.
  destruct (flush_fields (currentTest st) (results st)) as (Hr1 & Hr2 & _).
  rewrite Hr1 in *. rewrite Hr2.
  destruct Hc as [Hc|[Hc|[Hc _]]]; lia.
Qed.

(** A plan of two before three test lines: two tests are counted. *)
Lemma run_cap_bounds_total_witness :
  len ["TAP version 13"; "1..2"; "ok"; "ok"; "ok"] <= max_int /\
  plans_ahead (init ["TAP version 13"; "1..2"; "ok"; "ok"; "ok"])
    ["TAP version 13"; "1..2"; "ok"; "ok"; "ok"] = true /\
  exists r,
    Parse ["TAP version 13"; "1..2"; "ok"; "ok"; "ok"] = Some r /\
    (ExpectedTests r >= 0 -> TotalTests r <= ExpectedTests r).
Proof.
  split; [vm_compute; discriminate|]. split; [vm_compute; reflexivity|].
  apply (run_cap_bounds_total ["TAP version 13"; "1..2"; "ok"; "ok"; "ok"]).
  - vm_compute; discriminate.
  - vm_compute; reflexivity.
Defined.

(** C3 as it is stated fails: a plan read after the tests does not take the
    count back.  Two tests are counted, then a plan of one is recorded. *)
Lemma run_cap_late_plan :
  ~ (forall lines r,
       Parse lines = Some r ->
       ExpectedTests r >= 0 -> TotalTests r <= ExpectedTests r).
Proof.
  intros H.
  assert (E : Parse ["TAP version 13"; "ok"; "ok"; "1..1"]
              = Some (mkResults 1 2 2 0 0 0 13 false ""
                        [mkTest 0 true false false false "" "" [] "";
                         mkTest 0 true false false false "" "" [] ""]
                        ["TAP version 13"; "ok"; "ok"; "1..1"] []))
    by (vm_compute; reflexivity).
  apply H in E; simpl in *; lia.
Qed.

(** ** The outcome flags *)

Lemma staged_finish (st : pstate) : Tests (finish st) = staged st.
Proof. unfold finish, staged. apply flush_fields. Qed.

Lemma diagnosticStep_flags (st : pstate) (line : string) :
  map flag_count (staged (diagnosticStep st line)) = map flag_count (staged st) /\
  TotalTests (results (diagnosticStep st line)) = TotalTests (results st).
Proof.
  unfold diagnosticStep.
  destruct (FindStringSubmatch diagnostic line); [|split; reflexivity].
  destruct (String.eqb _ ""); [split; reflexivity|].
  unfold staged. destruct (currentTest st) eqn:E; simpl; rewrite ?E, ?map_app;
    split; reflexivity.
Qed.

(** What one line does to the flags of the records and to the total: nothing,
    or one more record without a flag and the same total, or one more record
    with one flag and one more test counted. *)
Lemma step_flags (st st' : pstate) (line : string) :
  step st line = Some st' ->
  (map flag_count (staged st') = map flag_count (staged st) /\
   TotalTests (results st') = TotalTests (results st))
  \/ (map flag_count (staged st') = (map flag_count (staged st) ++ [O])%list /\
      TotalTests (results st') = TotalTests (results st))
  \/ (map flag_count (staged st') = (map flag_count (staged st) ++ [1%nat])%list /\
      TotalTests (results st') = incr (TotalTests (results st))).
Proof.
  intros H. unfold step in H. destruct (state st).
  - left. repeat break_match; injection H as <-; split; reflexivity.
  - destruct (FindStringSubmatch bailOutLine line);
      [left; injection H as <-; split; reflexivity|].
    destruct (planStep st line) as [st1 b] eqn:Ep.
    apply planStep_spec in Ep as (v & -> & _).
    destruct b; [left; injection H as <-; split; reflexivity|].
    unfold testStep in H.
    destruct (FindStringSubmatch testLine line).
    + cbn [foundAllTests with_currentTest with_results] in H.
      destruct (foundAllTests st).
      * right. left. injection H as <-. unfold staged. simpl.
        destruct (currentTest st); simpl; rewrite ?app_nil_r, ?map_app;
          split; reflexivity.
      * right. right.
        apply countTest_spec in H
          as (_ & _ & _ & (t & Ht & Hf) & Htot & _ & _ & _ & _ & HT & _).
        unfold staged. rewrite Ht, HT, Htot. simpl.
        rewrite map_app. simpl. rewrite Hf.
        destruct (currentTest st); simpl; rewrite ?app_nil_r, ?map_app;
          split; reflexivity.
    + left. destruct (MatchString yamlStart line); injection H as <-;
        [split; reflexivity|].
      pose proof (diagnosticStep_flags
                    (with_results (set_ExpectedTests v (results st)) st) line)
        as [H1 H2].
      split; [rewrite H1|rewrite H2]; reflexivity.
  - left. destruct (MatchString yamlStop line);
      [injection H as <-; split; reflexivity|].
    unfold staged.
    destruct (currentTest st) eqn:E; injection H as <-; simpl;
      rewrite ?E, ?map_app; split; reflexivity.
Qed.

Lemma flags_ok_snoc (fl : list nat) (total : Z) (k : nat) :
  flags_ok fl total ->
  (k <= 1)%nat ->
  flags_ok (fl ++ [k]) (total + Z.of_nat (Nat.b2n (Nat.eqb 1 k))).
Proof.
  unfold flags_ok. intros [Ha Hc] Hk. split.
  - apply Forall_app. split; [exact Ha|]. constructor; [exact Hk|constructor].
  - rewrite filter_app, length_app, Nat2Z.inj_add, Hc. f_equal.
    cbn [filter]. destruct (Nat.eqb 1 k); reflexivity.
Qed.

Lemma step_flags_ok (st st' : pstate) (line : string) (n : Z) :
  n < max_int ->
  bounded n (results st) ->
  flags_ok (map flag_count (staged st)) (TotalTests (results st)) ->
  step st line = Some st' ->
  flags_ok (map flag_count (staged st')) (TotalTests (results st')).
Proof.
  intros Hn (Hc & Hle & _) Hf H. unfold counters_ok in Hc.
  apply step_flags in H as [[-> ->]|[[-> ->]|[-> ->]]].
  - exact Hf.
  - apply (flags_ok_snoc _ _ O) in Hf; [|lia]. simpl in Hf.
    rewrite Z.add_0_r in Hf. exact Hf.
  - apply (flags_ok_snoc _ _ 1%nat) in Hf; [|lia]. simpl in Hf.
    rewrite incr_small by lia. exact Hf.
Qed.

Lemma run_lines_flags_ok (lines : list string) :
  forall st st' n,
    n + len lines <= max_int ->
    bounded n (results st) ->
    flags_ok (map flag_count (staged st)) (TotalTests (results st)) ->
    run_lines st lines = Some st' ->
    flags_ok (map flag_count (staged st')) (TotalTests (results st')).
Proof.
  unfold len.
  induction lines as [|l lines IH]; simpl List.length;
    intros st st' n Hn Hb Hf H; simpl in H.
  - injection H as <-. exact Hf.
  - destruct (step st l) as [st1|] eqn:E; [|discriminate].
    apply (IH st1 st' (n + 1)); [lia| | |exact H].
    + eapply step_bounded; [|exact Hb|exact E]. lia.
    + eapply step_flags_ok; [|exact Hb|exact Hf|exact E]. lia.
Qed.

Lemma filter_map_length {A B : Type} (f : A -> B) (p : B -> bool) (l : list A) :
  List.length (filter p (map f l)) = List.length (filter (fun x => p (f x)) l).
Proof.
  induction l as [|x l IH]; simpl; [reflexivity|].
  destruct (p (f x)); simpl; rewrite IH; reflexivity.
Qed.

(** C4, as the code has it: in the final [Tests] no record has two of the
    four flags; a record has exactly one flag or, when it was staged for a
    test line read after the run-cap, none; and the records with exactly one
    flag are as many as the tests counted. *)
Theorem flags_exclusive (lines : list string) :
  len lines <= max_int ->
  exists r,
    Parse lines = Some r /\
    Forall (fun t => flag_count t = 1%nat \/ flag_count t = O) (Tests r) /\
    Z.of_nat (List.length (filter one_flag (Tests r))) = TotalTests r.
Proof.
  intros Hn.
  destruct (run_lines (init lines) lines) as [st|] eqn:E;
    [|destruct (run_lines_total _ _ E)].
  exists (finish st). unfold Parse. rewrite E. split; [reflexivity|].
  assert (Hf : flags_ok (map flag_count (staged st)) (TotalTests (results st))).
  { apply (run_lines_flags_ok lines (init lines) st 0);
      [rewrite Z.add_0_l; exact Hn|apply init_bounded| |exact E].
    split; [constructor|reflexivity]. }
  destruct Hf as [Ha Hc]. rewrite staged_finish.
  destruct (flush_fields (currentTest st) (results st)) as (_ & Ht & _).
  unfold finish. rewrite Ht. split.
  - rewrite Forall_map in Ha. eapply Forall_impl; [|exact Ha].
    simpl. intros t Hle. lia.
  - rewrite filter_map_length in Hc. rewrite <- Hc. f_equal. f_equal.
    apply filter_ext. intros t. unfold one_flag. apply Nat.eqb_sym.
Qed.

(** A plan of one before two test lines: one record has a flag. *)
Lemma flags_exclusive_witness :
  len ["TAP version 13"; "1..1"; "ok"; "not ok"] <= max_int /\
  exists r,
    Parse ["TAP version 13"; "1..1"; "ok"; "not ok"] = Some r /\
    Forall (fun t => flag_count t = 1%nat \/ flag_count t = O) (Tests r) /\
    Z.of_nat (List.length (filter one_flag (Tests r))) = TotalTests r.
Proof.
  split; [vm_compute; discriminate|].
  apply (flags_exclusive ["TAP version 13"; "1..1"; "ok"; "not ok"]).
  vm_compute; discriminate.
Defined.

(** C4 as it is stated fails: the record staged for a test line read after the
    run-cap has no flag. *)
Lemma flags_blank_after_cap :
  ~ (forall lines r t,
       Parse lines = Some r -> In t (Tests r) -> flag_count t = 1%nat).
Proof.
  intros H.
  assert (E : Parse ["TAP version 13"; "1..1"; "ok"; "not ok"]
              = Some (mkResults 1 1 1 0 0 0 13 false ""
                        [mkTest 0 true false false false "" "" [] ""; zeroTest]
                        ["TAP version 13"; "1..1"; "ok"; "not ok"] []))
    by (vm_compute; reflexivity).
  specialize (H _ _ zeroTest E). simpl in H.
  assert (F : flag_count zeroTest = 1%nat) by (apply H; auto).
  discriminate F.
Qed.

(** ** The plan *)

(** The guard on the first plan never closes: no line sets [foundTestPlan]. *)
Lemma step_foundTestPlan (st st' : pstate) (line : string) :
  step st line = Some st' -> foundTestPlan st' = foundTestPlan st.
Proof.
  intros H. unfold step in H. destruct (state st).
  - repeat break_match; injection H as <-; reflexivity.
  - destruct (FindStringSubmatch bailOutLine line);
      [injection H as <-; reflexivity|].
    destruct (planStep st line) as [st1 b] eqn:Ep.
    apply planStep_spec in Ep as (v & -> & _).
    destruct b; [injection H as <-; reflexivity|].
    unfold testStep in H. destruct (FindStringSubmatch testLine line).
    + cbn [foundAllTests with_currentTest with_results] in H.
      destruct (foundAllTests st); [injection H as <-; reflexivity|].
      apply countTest_spec in H as (_ & Hf & _). exact Hf.
    + destruct (MatchString yamlStart line); injection H as <-; [reflexivity|].
      unfold diagnosticStep. repeat break_match; reflexivity.
  - repeat break_match; injection H as <-; reflexivity.
Qed.

Lemma run_lines_foundTestPlan (lines : list string) :
  forall st st',
    run_lines st lines = Some st' -> foundTestPlan st' = foundTestPlan st.
Proof.
  induction lines as [|l lines IH]; simpl; intros st st' H.
  - injection H as <-. reflexivity.
  - destruct (step st l) as [st1|] eqn:E; [|discriminate].
    rewrite (IH _ _ H). exact (step_foundTestPlan _ _ _ E).
Qed.

(** A plan line read in the test stream is recorded, whatever plan was
    recorded before it. *)
Lemma plan_line_recorded (pre post : list string) (st : pstate) (line : string)
    (m : caps) :
  run_lines (init (pre ++ post)) pre = Some st ->
  state st = storeTestMetadata ->
  FindStringSubmatch testPlanDeclaration line = Some m ->
  plan_recorded st line = Some (fst (Atoi (m 1%nat))).
Proof.
  intros Hr Hs Hm. unfold plan_recorded. rewrite Hs.
  apply run_lines_foundTestPlan in Hr. simpl in Hr. rewrite Hr, Hm.
  destruct (FindStringSubmatch bailOutLine line) eqn:E; [|reflexivity].
  apply bailOutLine_first in E as (t & ->).
  apply testPlanDeclaration_first in Hm as (a & t' & Ha & Hd).
  injection Ha as <- _. discriminate Hd.
Qed.

(** Where no plan line with an overflowing count comes later, the claim
    holds: the last plan line read in the test stream gives the final plan. *)
Lemma later_plan_overwrites (pre post : list string) (st st1 : pstate)
    (line : string) (m : caps) (v : Z) :
  run_lines (init (pre ++ line :: post)) pre = Some st ->
  state st = storeTestMetadata ->
  FindStringSubmatch testPlanDeclaration line = Some m ->
  Atoi (m 1%nat) = (v, true) ->
  step st line = Some st1 ->
  none_recorded plan_recorded st1 post = true ->
  exists r, Parse (pre ++ line :: post) = Some r /\ ExpectedTests r = v.
Proof.
  intros Hr Hs Hm Ha Hstep Hn.
  pose proof (plan_line_recorded _ _ _ _ _ Hr Hs Hm) as Hp.
  rewrite Ha in Hp. simpl in Hp.
  unfold Parse. rewrite run_lines_app, Hr. simpl. rewrite Hstep.
  destruct (run_lines st1 post) as [st2|] eqn:E;
    [|destruct (run_lines_total _ _ E)].
  exists (finish st2). split; [reflexivity|].
  exact (last_plan_wins _ _ _ _ _ _ Hp Hstep Hn E).
Qed.

(** A second plan, read after a test was counted, replaces the first. *)
Example second_plan_replaces_first :
  option_map ExpectedTests
    (Parse ["TAP version 13"; "1..2"; "ok"; "1..3"; "ok"; "ok"])
  = Some 3.
Proof. vm_compute. reflexivity. Qed.

(** C5 at an input where it fails: after two plans that parse, of 2 and of 3,
    a plan whose count overflows is not skipped; the bound that [Atoi] returns
    with its error is stored, and the final plan is not 3. *)
Theorem plan_overflow_overwrites :
  exists r,
    Parse ["TAP version 13"; "1..2"; "1..3"; "1..99999999999999999999"] = Some r /\
    ExpectedTests r = max_int /\
    ExpectedTests r <> 3.
Proof.
  eexists. split; [vm_compute; reflexivity|]. split; [reflexivity|].
  simpl. discriminate.
Qed.

(** ** The abort line *)

(** C6, as the code has it: a line that matches the abort marker in the test
    stream sets [BailOut], and sets [BailOutReason] to what follows the marker
    without its leading white space, which is empty when only white space
    follows; white space at the end of the reason is kept.  Nothing else
    changes: the state, the counters, the records and the staged test stay, so
    the next lines are read as before. *)
Theorem abort_line (st : pstate) (line : string) :
  state st = storeTestMetadata ->
  MatchString bailOutLine line = true ->
  exists rest,
    strip_prefix "Bail out!" line = Some rest /\
    step st line
    = Some (with_results (set_BailOut true (skip is_space rest) (results st)) st).
Proof.
  intros Hs Hm. unfold MatchString in Hm.
  destruct (FindStringSubmatch bailOutLine line) as [m|] eqn:E; [|discriminate].
  destruct (bailOutLine_inv _ _ E) as (rest & Hp & Hr).
  exists rest. split; [exact Hp|].
  unfold step. rewrite Hs, E, Hr. reflexivity.
Qed.

(** An abort line with white space on both sides of its reason. *)
Lemma abort_line_witness :
  state (mkP storeTestMetadata false false None
           (mkResults (-1) 2 1 1 0 0 13 false "" [] [] []))
  = storeTestMetadata /\
  MatchString bailOutLine "Bail out!   Towel not found. " = true /\
  exists rest,
    strip_prefix "Bail out!" "Bail out!   Towel not found. " = Some rest /\
    step (mkP storeTestMetadata false false None
            (mkResults (-1) 2 1 1 0 0 13 false "" [] [] []))
      "Bail out!   Towel not found. "
    = Some (with_results
              (set_BailOut true (skip is_space rest)
                 (results (mkP storeTestMetadata false false None
                             (mkResults (-1) 2 1 1 0 0 13 false "" [] [] []))))
              (mkP storeTestMetadata false false None
                 (mkResults (-1) 2 1 1 0 0 13 false "" [] [] []))).
Proof.
  split; [reflexivity|]. split; [vm_compute; reflexivity|].
  apply (abort_line
           (mkP storeTestMetadata false false None
              (mkResults (-1) 2 1 1 0 0 13 false "" [] [] []))
           "Bail out!   Towel not found. ").
  - reflexivity.
  - vm_compute; reflexivity.
Defined.

(** C6 as it is stated fails: the reason keeps the white space it ends with,
    so it is not the trimmed text after the marker. *)
Lemma abort_reason_not_trimmed :
  ~ (forall lines r rest,
       Parse lines = Some r ->
       BailOut r = true ->
       last lines "" = "Bail out!" ++ rest ->
       BailOutReason r = TrimSpace rest).
Proof.
  intros H.
  assert (E : Parse ["TAP version 13"; "ok"; "Bail out! Towel not found. "]
              = Some (mkResults (-1) 1 1 0 0 0 13 true "Towel not found. "
                        [mkTest 0 true false false false "" "" [] ""]
                        ["TAP version 13"; "ok"; "Bail out! Towel not found. "]
                        []))
    by (vm_compute; reflexivity).
  specialize (H _ _ " Towel not found. " E eq_refl eq_refl).
  vm_compute in H. discriminate H.
Qed.

(** ** Data blocks *)

Lemma add_yaml_nil (st : pstate) :
  with_currentTest (option_map (add_yaml "") (currentTest st)) st = st.
Proof.
  destruct st as [s p a [t|] r]; [|reflexivity].
  unfold with_currentTest, add_yaml. simpl. rewrite append_nil_r.
  destruct t; reflexivity.
Qed.

Lemma add_yaml_add_yaml (a b : string) (cur : option Test) :
  option_map (add_yaml b) (option_map (add_yaml a) cur)
  = option_map (add_yaml (a ++ b)) cur.
Proof.
  destruct cur as [t|]; [|reflexivity]. unfold add_yaml. simpl.
  rewrite append_assoc. reflexivity.
Qed.

(** The lines inside a data block. *)
Lemma run_lines_block (block : list string) :
  forall st,
    state st = storeYaml ->
    Forall (fun l => MatchString yamlStop l = false) block ->
    run_lines st block
    = Some (with_currentTest
              (option_map (add_yaml (yaml_text block)) (currentTest st)) st).
Proof.
  induction block as [|l block IH]; intros st Hs Hb; simpl.
  - rewrite add_yaml_nil. reflexivity.
  - inversion Hb as [|? ? Hl Hb']; subst.
    assert (E : step st l
                = Some (with_currentTest
                          (option_map (add_yaml (l ++ newline)) (currentTest st))
                          st)).
    { unfold step. rewrite Hs, Hl.
      destruct st as [s p a [t|] r]; reflexivity. }
    rewrite E. rewrite IH; [|exact Hs|exact Hb'].
    cbn [currentTest with_currentTest state foundTestPlan foundAllTests results].
    rewrite add_yaml_add_yaml, append_assoc. reflexivity.
Qed.

(** C7, as the code has it: from the line that starts a data block, which is
    one that [yamlStart] matches, to the line that ends it, which is the next
    one that [yamlStop] matches, with nothing after the dashes or the dots,
    nothing is read as a test result, a plan, an abort line or a comment: the
    results, with all their counters, and the flags, the description and the
    diagnostics of the staged test stay as they are.  Each line between the
    two is added as it is, with a newline, to the [YamlBytes] of the staged
    test; the two delimiter lines are not; and without a staged test the block
    leaves no trace. *)
Theorem data_block (st : pstate) (start stop : string) (block : list string) :
  state st = storeTestMetadata ->
  MatchString yamlStart start = true ->
  Forall (fun l => MatchString yamlStop l = false) block ->
  MatchString yamlStop stop = true ->
  run_lines st (start :: block)
  = Some (with_state storeYaml
            (with_currentTest
               (option_map (add_yaml (yaml_text block)) (currentTest st)) st)) /\
  run_lines st (start :: block ++ [stop])
  = Some (with_state storeTestMetadata
            (with_currentTest
               (option_map (add_yaml (yaml_text block)) (currentTest st)) st)).
Proof.
  intros Hs Hstart Hblock Hstop.
  assert (E : step st start = Some (with_state storeYaml st)).
  { destruct (yamlStart_only _ Hstart) as (Hb & Hp & Ht).
    unfold step. rewrite Hs, Hb. unfold planStep. rewrite Hp.
    destruct (negb (foundTestPlan st)); unfold testStep; rewrite Ht, Hstart;
      reflexivity. }
  assert (R : run_lines (with_state storeYaml st) block
              = Some (with_state storeYaml
                        (with_currentTest
                           (option_map (add_yaml (yaml_text block)) (currentTest st))
                           st)))
    by (rewrite run_lines_block; [reflexivity|reflexivity|exact Hblock]).
  split.
  - cbn [run_lines]. rewrite E. exact R.
  - change (start :: block ++ [stop])%list with ((start :: block) ++ [stop])%list.
    rewrite run_lines_app. cbn [run_lines]. rewrite E, R.
    unfold step. cbn [state with_state]. rewrite Hstop. reflexivity.
Qed.

(** A data block whose lines look like a test result and a comment. *)
Lemma data_block_witness :
  state (mkP storeTestMetadata false false
           (Some (mkTest 0 true false false false "" "" [] ""))
           (mkResults (-1) 1 1 0 0 0 13 false "" [] [] []))
  = storeTestMetadata /\
  MatchString yamlStart "  ---" = true /\
  Forall (fun l => MatchString yamlStop l = false) ["  not ok 2"; "  # note"] /\
  MatchString yamlStop "  ..." = true /\
  run_lines (mkP storeTestMetadata false false
               (Some (mkTest 0 true false false false "" "" [] ""))
               (mkResults (-1) 1 1 0 0 0 13 false "" [] [] []))
    ["  ---"; "  not ok 2"; "  # note"; "  ..."]
  = Some (mkP storeTestMetadata false false
            (Some (mkTest 0 true false false false "" "" []
                     ("  not ok 2" ++ newline ++ "  # note" ++ newline)))
            (mkResults (-1) 1 1 0 0 0 13 false "" [] [] [])).
Proof.
  assert (H1 : MatchString yamlStart "  ---" = true) by (vm_compute; reflexivity).
  assert (H2 : Forall (fun l => MatchString yamlStop l = false)
                 ["  not ok 2"; "  # note"])
    by (repeat constructor).
  assert (H3 : MatchString yamlStop "  ..." = true) by (vm_compute; reflexivity).
  split; [reflexivity|]. split; [exact H1|]. split; [exact H2|].
  split; [exact H3|].
  exact (proj2 (data_block
                  (mkP storeTestMetadata false false
                     (Some (mkTest 0 true false false false "" "" [] ""))
                     (mkResults (-1) 1 1 0 0 0 13 false "" [] [] []))
                  "  ---" "  ..." ["  not ok 2"; "  # note"]
                  eq_refl H1 H2 H3)).
Defined.

(** C7 as it is stated fails where the specification and the code part on
    what a delimiter is: for the specification white space may follow the
    dashes or the dots, for [yamlStart] and [yamlStop] nothing may.  An end
    delimiter followed by a space does not end the block; it is stored as a
    line of the block. *)
Lemma data_block_delimiter_with_space :
  ~ (forall st start stop block,
       state st = storeTestMetadata ->
       spec_delimiter "---" start = true ->
       Forall (fun l => spec_delimiter "..." l = false) block ->
       spec_delimiter "..." stop = true ->
       run_lines st (start :: block ++ [stop])
       = Some (with_state storeTestMetadata
                 (with_currentTest
                    (option_map (add_yaml (yaml_text block)) (currentTest st))
                    st))).
Proof.
  intros H.
  specialize (H (mkP storeTestMetadata false false
                   (Some (mkTest 1 true false false false "" "" [] ""))
                   (mkResults (-1) 1 1 0 0 0 13 false "" [] [] []))
                "---" "... " ["a: 1"] eq_refl eq_refl).
  assert (Hb : Forall (fun l => spec_delimiter "..." l = false) ["a: 1"])
    by (repeat constructor).
  specialize (H Hb eq_refl). vm_compute in H. discriminate H.
Qed.

(** What follows such a line is still taken for the block: here a failed
    test and an abort line are stored as data, and neither is counted. *)
Example open_block_swallows :
  Parse ["TAP version 13"; "ok 1"; "---"; "a: 1"; "... "; "not ok 2";
         "Bail out! x"]
  = Some (mkResults (-1) 1 1 0 0 0 13 false ""
            [mkTest 1 true false false false "" "" []
               ("a: 1" ++ newline ++ "... " ++ newline ++ "not ok 2" ++ newline
                ++ "Bail out! x" ++ newline)]
            ["TAP version 13"; "ok 1"; "---"; "a: 1"; "... "; "not ok 2";
             "Bail out! x"] []).
Proof. vm_compute. reflexivity. Qed.

(** A start delimiter followed by a space does not start a block: the lines
    after it are read as test lines. *)
Example spaced_start_opens_no_block :
  option_map (fun r => (TotalTests r, FailedTests r))
    (Parse ["TAP version 13"; "ok 1"; "--- "; "not ok 2"; "..."])
  = Some (2, 1).
Proof. vm_compute. reflexivity. Qed.

(** ** The test number *)

Lemma digits_value_keep (s : string) :
  forall acc, 0 <= acc ->
    exists v, digits_value acc (keep is_digit s) = Some v /\ acc <= v.
Proof.
  induction s as [|a s IH]; simpl; intros acc Hacc.
  - exists acc. split; [reflexivity|lia].
  - destruct (is_digit a) eqn:E; simpl.
    + rewrite E. destruct (IH (acc * 10 + Z.of_N (byte a - 48))) as (v & Hv & Hle);
        [lia|].
      exists v. split; [exact Hv|lia].
    + exists acc. split; [reflexivity|lia].
Qed.

Lemma Atoi_digit_head (a : ascii) (t : string) :
  is_digit a = true ->
  Atoi (String a t) =
  match digits_value 0 (String a t) with
  | Some n => if n <=? max_int then (n, true) else (max_int, false)
  | None => (0, false)
  end.
Proof.
  destruct a as [[] [] [] [] [] [] [] []]; try discriminate; intros _; reflexivity.
Qed.

Lemma testNumber_keep (s : string) :
  exists v,
    digits_value 0 (keep is_digit s) = Some v /\ 0 <= v /\
    testNumber (keep is_digit s) =
    if String.eqb (keep is_digit s) "" then 0
    else if v <=? max_int then v else -1.
Proof.
  destruct (digits_value_keep s 0) as (v & Hv & Hle); [lia|].
  exists v. split; [exact Hv|]. split; [exact Hle|].
  unfold testNumber. destruct (keep is_digit s) as [|a t] eqn:E; [reflexivity|].
  assert (Ha : is_digit a = true).
  { destruct s as [|b s]; [discriminate|]. simpl in E.
    destruct (is_digit b) eqn:Eb; [|discriminate]. injection E as -> _. exact Eb. }
  cbn [String.eqb negb]. rewrite (Atoi_digit_head _ _ Ha), Hv.
  destruct (v <=? max_int); reflexivity.
Qed.

(** The number that a counted test stores, from the text after [ok]. *)
Lemma countTest_number (st : pstate) (notPrefix rest : string) :
  exists st' t v,
    countTest st notPrefix rest = Some st' /\
    currentTest st' = Some t /\
    digits_value 0 (keep is_digit (skip is_space rest)) = Some v /\
    0 <= v /\
    TestNumber t =
      if String.eqb (keep is_digit (skip is_space rest)) "" then 0
      else if v <=? max_int then v else -1.
Proof.
  destruct (testNumber_keep (skip is_space rest)) as (v & Hv & Hle & Hn).
  unfold countTest.
  destruct (FindStringSubmatch optionalTestLine rest) as [m|] eqn:E;
    [|destruct (optionalTestLine_matches _ E)].
  apply optionalTestLine_number in E. rewrite E.
  destruct (EqualFold _ "skip"); [|destruct (EqualFold _ "todo");
    [|destruct (String.eqb notPrefix "not ")]];
    eexists; eexists; exists v;
    (split; [reflexivity|]); (split; [reflexivity|]);
    (split; [exact Hv|]); (split; [exact Hle|]); exact Hn.
Qed.

(** A test line is no abort line and no plan. *)
Lemma testLine_only (line : string) (m : caps) :
  FindStringSubmatch testLine line = Some m ->
  FindStringSubmatch bailOutLine line = None /\
  FindStringSubmatch testPlanDeclaration line = None.
Proof.
  intros H. apply testLine_first in H as (t & H). split.
  - destruct (FindStringSubmatch bailOutLine line) eqn:E; [|reflexivity].
    apply bailOutLine_first in E as (t' & E). destruct H; congruence.
  - destruct (FindStringSubmatch testPlanDeclaration line) eqn:E; [|reflexivity].
    apply testPlanDeclaration_first in E as (a & t' & E & Ha).
    destruct H as [H|H]; rewrite H in E; injection E as <- _; discriminate Ha.
Qed.

(** C8, as the code has it: a test line that is counted stores, for the
    digits that follow the white space after [ok], 0 when there are none,
    their value when it fits an [int], and -1 when it does not.  The sentinel
    -1 differs from every parsed number, and the tests beside an overflowing
    one keep their numbers; a missing number reads 0, as the number 0 does. *)
Theorem test_number (st : pstate) (line : string) :
  state st = storeTestMetadata ->
  foundAllTests st = false ->
  MatchString testLine line = true ->
  (exists rest st' t v,
     (strip_prefix "ok" line = Some rest \/
      strip_prefix "not ok" line = Some rest) /\
     step st line = Some st' /\
     TotalTests (results st') = incr (TotalTests (results st)) /\
     currentTest st' = Some t /\
     digits_value 0 (keep is_digit (skip is_space (keep is_dot rest))) = Some v /\
     0 <= v /\
     TestNumber t =
       if String.eqb (keep is_digit (skip is_space (keep is_dot rest))) "" then 0
       else if v <=? max_int then v else -1) /\
  option_map (fun r => map TestNumber (Tests r))
    (Parse ["TAP version 13"; "1..4";
            "ok 400000000000000000000000000000000000000000000000000000000000000000000000000";
            "ok 2"; "ok 1"; "ok 3"])
  = Some [-1; 2; 1; 3].
Proof.
  intros Hs Hf Hm. split; [|vm_compute; reflexivity].
  unfold MatchString in Hm.
  destruct (FindStringSubmatch testLine line) as [m|] eqn:E; [|discriminate].
  destruct (testLine_only _ _ E) as [Hb Hp].
  destruct (testLine_inv _ _ E) as (rest & Hrest & _ & H2).
  set (st0 := with_currentTest (Some zeroTest)
                (with_results (flush (currentTest st) (results st)) st)).
  assert (Hstep : step st line = countTest st0 (m 1%nat) (m 2%nat)).
  { unfold step. rewrite Hs, Hb. unfold planStep. rewrite Hp.
    destruct (negb (foundTestPlan st)); unfold testStep; rewrite E;
      cbn [foundAllTests with_currentTest with_results]; rewrite Hf; reflexivity. }
  destruct (countTest_number st0 (m 1%nat) (m 2%nat))
    as (st' & t & v & Hc & Ht & Hv & Hle & Hn).
  rewrite H2 in Hv, Hn.
  exists rest, st', t, v.
  split; [destruct Hrest as [[H _]|[H _]]; auto|].
  split; [rewrite Hstep; exact Hc|].
  split.
  { apply countTest_spec in Hc as (_ & _ & _ & _ & Htot & _).
    rewrite Htot. unfold st0. cbn [results with_currentTest with_results].
    destruct (flush_fields (currentTest st) (results st)) as (_ & -> & _).
    reflexivity. }
  split; [exact Ht|]. split; [exact Hv|]. split; [exact Hle|exact Hn].
Qed.

(** A failed test whose number does not fit an [int]. *)
Lemma test_number_witness :
  state (mkP storeTestMetadata false false None
           (mkResults 4 0 0 0 0 0 13 false "" [] [] []))
  = storeTestMetadata /\
  foundAllTests (mkP storeTestMetadata false false None
                   (mkResults 4 0 0 0 0 0 13 false "" [] [] []))
  = false /\
  MatchString testLine "not ok 99999999999999999999 - too big" = true /\
  exists rest st' t v,
    (strip_prefix "ok" "not ok 99999999999999999999 - too big" = Some rest \/
     strip_prefix "not ok" "not ok 99999999999999999999 - too big" = Some rest) /\
    step (mkP storeTestMetadata false false None
            (mkResults 4 0 0 0 0 0 13 false "" [] [] []))
      "not ok 99999999999999999999 - too big" = Some st' /\
    TotalTests (results st')
    = incr (TotalTests (results (mkP storeTestMetadata false false None
                                   (mkResults 4 0 0 0 0 0 13 false "" [] [] [])))) /\
    currentTest st' = Some t /\
    digits_value 0 (keep is_digit (skip is_space (keep is_dot rest))) = Some v /\
    0 <= v /\
    TestNumber t =
      if String.eqb (keep is_digit (skip is_space (keep is_dot rest))) "" then 0
      else if v <=? max_int then v else -1.
Proof.
  split; [reflexivity|]. split; [reflexivity|].
  split; [vm_compute; reflexivity|].
  apply (test_number
           (mkP storeTestMetadata false false None
              (mkResults 4 0 0 0 0 0 13 false "" [] [] []))
           "not ok 99999999999999999999 - too big");
    [reflexivity|reflexivity|vm_compute; reflexivity].
Defined.

(** C8 as it is stated fails: a test line without a number and a test line
    numbered 0 store the same number. *)
Lemma absent_number_reads_zero :
  ~ (forall r t1 t2,
       Parse ["TAP version 13"; "ok"; "ok 0"] = Some r ->
       Tests r = [t1; t2] ->
       TestNumber t1 <> TestNumber t2).
Proof.
  intros H.
  apply (H (mkResults (-1) 2 2 0 0 0 13 false ""
              [mkTest 0 true false false false "" "" [] "";
               mkTest 0 true false false false "" "" [] ""]
              ["TAP version 13"; "ok"; "ok 0"] [])
           (mkTest 0 true false false false "" "" [] "")
           (mkTest 0 true false false false "" "" [] ""));
    [vm_compute; reflexivity|reflexivity|reflexivity].
Qed.

(** ** The report *)

Lemma if_append (g : bool) (acc l : string) :
  (if g then acc ++ l else acc) = acc ++ (if g then l else "").
Proof. destruct g; [reflexivity|]. symmetry. apply append_nil_r. Qed.

Lemma IsPassing_is_verdict (r : Results) (n : Z) :
  n <= max_int -> bounded n r -> IsPassing r = spec_verdict r.
Proof.
  intros Hn (Hc & Hle & _). unfold counters_ok in Hc.
  unfold IsPassing, spec_verdict.
  rewrite (wrap_small (TodoTests r + SkippedTests r)) by (unfold min_int; lia).
  rewrite wrap_small by (unfold min_int; lia).
  replace (TodoTests r + SkippedTests r + PassedTests r)
    with (SkippedTests r + TodoTests r + PassedTests r) by lia.
  reflexivity.
Qed.

Lemma Results_String_report (r : Results) (n : Z) :
  n <= max_int -> bounded n r -> Results_String r = spec_report r.
Proof.
  intros Hn Hb. pose proof (IsPassing_is_verdict r n Hn Hb) as Hv.
  destruct Hb as (Hc & Hle & He). unfold counters_ok in Hc.
  unfold spec_report, spec_template, render, Results_String. rewrite Hv.
  cbv zeta.
  assert (Hm : (ExpectedTests r >? 0) && (TotalTests r <? ExpectedTests r) = true ->
               wrap (ExpectedTests r - TotalTests r)
               = ExpectedTests r - TotalTests r).
  { intros Hg. apply andb_true_iff in Hg as [H1 H2].
    apply Z.ltb_lt in H2. apply wrap_small.
    unfold in_int, min_int, max_int in *. lia. }
  destruct ((ExpectedTests r >? 0) && (TotalTests r <? ExpectedTests r))%bool;
    [rewrite (Hm eq_refl)|]; clear Hm;
    repeat rewrite if_append;
    destruct (spec_verdict r); destruct (String.eqb (BailOutReason r) "");
    cbn [negb]; rewrite ?append_assoc, ?append_nil_r; reflexivity.
Qed.

(** C9: the text that [String] returns for the [Results] of a parse is the
    template of the specification, line by line in its order, each line
    present exactly when its guard holds; and for the empty input the verdict
    is a failure and the report is the two lines of a failed, empty run. *)
Theorem report_follows_template (lines : list string) :
  len lines <= max_int ->
  (exists r, Parse lines = Some r /\ Results_String r = spec_report r) /\
  (exists r,
     Parse [] = Some r /\ IsPassing r = false /\
     Results_String r
     = " Overall result: FAIL" ++ newline ++ "Total tests run: 0" ++ newline).
Proof.
  intros Hn. split.
  - destruct (Parse_bounded lines Hn) as (r & E & Hb).
    exists r. split; [exact E|]. exact (Results_String_report r _ Hn Hb).
  - eexists. split; [reflexivity|]. split; reflexivity.
Qed.

(** The report of a run that misses one test of its plan. *)
Lemma report_follows_template_witness :
  len ["TAP version 13"; "1..4"; "ok"; "ok"; "ok"] <= max_int /\
  (exists r,
     Parse ["TAP version 13"; "1..4"; "ok"; "ok"; "ok"] = Some r /\
     Results_String r = spec_report r) /\
  (exists r,
     Parse [] = Some r /\ IsPassing r = false /\
     Results_String r
     = " Overall result: FAIL" ++ newline ++ "Total tests run: 0" ++ newline).
Proof.
  split; [vm_compute; discriminate|].
  apply (report_follows_template ["TAP version 13"; "1..4"; "ok"; "ok"; "ok"]).
  vm_compute; discriminate.
Defined.

(** The report of the missing test of the test suite. *)
Example report_missing_tests :
  option_map spec_report (Parse ["TAP version 13"; "1..4"; "ok"; "ok"; "ok"])
  = Some (" Overall result: FAIL" ++ newline ++ " Expected tests: 4" ++ newline
          ++ "  Missing tests: 1" ++ newline ++ "   Passed tests: 3" ++ newline).
Proof. vm_compute. reflexivity. Qed.

(** ** The abort flag stays *)

(** C10: once an abort line has been read, [BailOut] is true after every later
    line and in the final [Results]; and the final [BailOutReason] is the
    reason of the last line read as an abort line. *)
Theorem abort_stays (pre post : list string) (line reason : string)
    (st st1 : pstate) :
  run_lines (init (pre ++ line :: post)) pre = Some st ->
  abort_recorded st line = Some reason ->
  step st line = Some st1 ->
  (forall post1 post2,
     post = (post1 ++ post2)%list ->
     exists st2,
       run_lines (init (pre ++ line :: post)) (pre ++ line :: post1) = Some st2 /\
       BailOut (results st2) = true) /\
  (exists r, Parse (pre ++ line :: post) = Some r /\ BailOut r = true) /\
  (none_recorded abort_recorded st1 post = true ->
   exists r, Parse (pre ++ line :: post) = Some r /\ BailOutReason r = reason).
Proof.
  intros Hpre Ha Hs.
  pose proof (step_BailOut _ _ _ Hs) as Hb. rewrite Ha in Hb.
  destruct Hb as [Hb Hr].
  assert (Hrun : forall l, run_lines (init (pre ++ line :: post)) (pre ++ line :: l)
                           = run_lines st1 l).
  { intros l. rewrite run_lines_app, Hpre. simpl. rewrite Hs. reflexivity. }
  split; [|split].
  - intros post1 post2 _. rewrite Hrun.
    destruct (run_lines st1 post1) as [st2|] eqn:E;
      [|destruct (run_lines_total _ _ E)].
    exists st2. split; [reflexivity|]. exact (run_lines_BailOut _ _ _ Hb E).
  - unfold Parse. rewrite Hrun.
    destruct (run_lines st1 post) as [st2|] eqn:E;
      [|destruct (run_lines_total _ _ E)].
    exists (finish st2). split; [reflexivity|]. unfold finish.
    destruct (flush_fields (currentTest st2) (results st2)) as (_ & _ & -> & _).
    exact (run_lines_BailOut _ _ _ Hb E).
  - intros Hn. unfold Parse. rewrite Hrun.
    destruct (run_lines st1 post) as [st2|] eqn:E;
      [|destruct (run_lines_total _ _ E)].
    exists (finish st2). split; [reflexivity|]. unfold finish.
    destruct (flush_fields (currentTest st2) (results st2))
      as (_ & _ & _ & -> & _).
    rewrite (run_lines_no_abort _ _ _ Hn E). exact Hr.
Qed.

(** Of three lines with the abort marker, the second is the last one read as
    an abort line: the third is inside a data block. *)
Lemma abort_stays_witness :
  run_lines (init (abort_pre ++ "Bail out! two  " :: abort_post)) abort_pre
  = Some abort_before /\
  abort_recorded abort_before "Bail out! two  " = Some "two  " /\
  step abort_before "Bail out! two  " = Some abort_after /\
  none_recorded abort_recorded abort_after abort_post = true /\
  (forall post1 post2,
     abort_post = (post1 ++ post2)%list ->
     exists st2,
       run_lines (init (abort_pre ++ "Bail out! two  " :: abort_post))
         (abort_pre ++ "Bail out! two  " :: post1) = Some st2 /\
       BailOut (results st2) = true) /\
  (exists r,
     Parse (abort_pre ++ "Bail out! two  " :: abort_post) = Some r /\
     BailOut r = true) /\
  (exists r,
     Parse (abort_pre ++ "Bail out! two  " :: abort_post) = Some r /\
     BailOutReason r = "two  ").
Proof.
  assert (H1 : run_lines (init (abort_pre ++ "Bail out! two  " :: abort_post))
                 abort_pre = Some abort_before) by (vm_compute; reflexivity).
  assert (H2 : abort_recorded abort_before "Bail out! two  " = Some "two  ")
    by (vm_compute; reflexivity).
  assert (H3 : step abort_before "Bail out! two  " = Some abort_after)
    by (vm_compute; reflexivity).
  assert (H4 : none_recorded abort_recorded abort_after abort_post = true)
    by (vm_compute; reflexivity).
  destruct (abort_stays abort_pre abort_post "Bail out! two  " "two  "
              abort_before abort_after H1 H2 H3) as (A & B & C).
  split; [exact H1|]. split; [exact H2|]. split; [exact H3|].
  split; [exact H4|]. split; [exact A|]. split; [exact B|exact (C H4)].
Defined.


(** * More on the classifiers *)

(** ** Stars that cannot give bytes back *)

Section ClassStarCommit.

(** The loop of a star over the class [p] when the continuation refuses every
    text that starts with a byte of the class: the star reads the longest run
    and nothing else is tried. *)
Variable p : ascii -> bool.
Variable k : cont.
Variable c : caps.
Hypothesis k_refuses :
  forall prev a s, p a = true -> k prev (String a s) c = None.

Lemma star_loop_chr_commit :
  forall s fuel prev,
    (String.length s <= fuel)%nat ->
    star_loop fuel (run (Chr p)) prev s c k
    = k (last_byte prev (keep p s)) (skip p s) c.
Proof.
  remember (run (Chr p)) as body eqn:Hbody.
  assert (Hb : forall prev s c k,
             body prev s c k =
             match s with
             | String a s' => if p a then k (Some a) s' c else None
             | EmptyString => None
             end) by (intros; subst body; reflexivity).
  clear Hbody.
  induction s as [|a s IH]; intros fuel prev Hl.
  - destruct fuel; cbn [star_loop]; [reflexivity|]. rewrite Hb. reflexivity.
  - destruct fuel as [|fuel]; [simpl in Hl; lia|].
    cbn [star_loop]. rewrite Hb. cbn [keep skip].
    destruct (p a) eqn:Ep; [|reflexivity].
    cbn [last_byte]. rewrite length_tail_lt. rewrite IH by (simpl in Hl; lia).
    destruct (k (last_byte (Some a) (keep p s)) (skip p s) c) eqn:E;
      [reflexivity|].
    apply k_refuses. exact Ep.
Qed.

Lemma star_chr_commit (prev : option ascii) (s : string) :
  run (Star (Chr p)) prev s c k = k (last_byte prev (keep p s)) (skip p s) c.
Proof. apply star_loop_chr_commit. lia. Qed.

End ClassStarCommit.

(** A star whose continuation accepts after the longest run. *)
Lemma star_chr_first (p : ascii -> bool) (k : cont) (c m : caps)
    (prev : option ascii) (s : string) :
  k (last_byte prev (keep p s)) (skip p s) c = Some m ->
  run (Star (Chr p)) prev s c k = Some m.
Proof. intros H. apply star_loop_chr_first; [lia|exact H]. Qed.

Lemma all_bytes_skip (p : ascii -> bool) (s : string) :
  all_bytes p s = true <-> skip p s = "".
Proof.
  induction s as [|a s IH]; simpl; [tauto|].
  destruct (p a); simpl; [exact IH|]. split; discriminate.
Qed.

Lemma all_bytes_keep (p : ascii -> bool) (s : string) :
  all_bytes p s = true -> keep p s = s.
Proof.
  induction s as [|a s IH]; simpl; [reflexivity|].
  destruct (p a); simpl; [|discriminate]. intros H. rewrite IH by exact H.
  reflexivity.
Qed.

Lemma skip_head (p : ascii -> bool) (s : string) :
  match skip p s with String a _ => p a = false | EmptyString => True end.
Proof.
  induction s as [|a s IH]; simpl; [exact I|].
  destruct (p a) eqn:E; [exact IH|exact E].
Qed.

Lemma captured_keep (p : ascii -> bool) (s : string) :
  captured s (skip p s) = keep p s.
Proof. rewrite (keep_skip p s) at 1. apply captured_append. Qed.

(** ** The equations of the matcher *)

Lemma run_Chr (p : ascii -> bool) (prev : option ascii) (s : string) (c : caps)
    (k : cont) :
  run (Chr p) prev s c k
  = match s with
    | String a s' => if p a then k (Some a) s' c else None
    | EmptyString => None
    end.
Proof. reflexivity. Qed.

Lemma run_Opt (a : regex) (prev : option ascii) (s : string) (c : caps)
    (k : cont) :
  run (Opt a) prev s c k
  = match run a prev s c k with
    | Some res => Some res
    | None => k prev s c
    end.
Proof. reflexivity. Qed.

Lemma run_Eol (prev : option ascii) (s : string) (c : caps) (k : cont) :
  run Eol prev s c k
  = match s with EmptyString => k prev s c | String _ _ => None end.
Proof. reflexivity. Qed.

Lemma run_WordB (prev : option ascii) (s : string) (c : caps) (k : cont) :
  run WordB prev s c k
  = if xorb (word_before prev) (word_after s) then k prev s c else None.
Proof. reflexivity. Qed.

Lemma is_space_is_dot (a : ascii) : is_space a = false -> is_dot a = true.
Proof.
  unfold is_space, is_dot, nl. intros H.
  destruct (Ascii.eqb a "010"); [|reflexivity].
  rewrite orb_true_r in H. discriminate H.
Qed.

(** ** The abort line *)

Lemma bailOutLine_run (line : string) :
  option_map (fun m : caps => m 1%nat) (FindStringSubmatch bailOutLine line)
  = abort_reason line.
Proof.
  unfold bailOutLine, abort_reason. cbn [seqs].
  rewrite find_anchored, run_Seq, run_lit.
  destruct (strip_prefix "Bail out!" line) as [rest|]; [|reflexivity].
  rewrite run_Seq, star_chr_commit.
  2:{ intros prev a s Ha. rewrite run_Seq, run_Opt, run_Grp, run_Seq, run_Chr.
      unfold is_nonspace. rewrite Ha. reflexivity. }
  pose proof (skip_head is_space rest) as Hh.
  destruct (skip is_space rest) as [|a t]; [reflexivity|].
  rewrite run_Seq, run_Opt, run_Grp, run_Seq, run_Chr.
  unfold is_nonspace. rewrite Hh. cbn [negb].
  rewrite star_chr_commit by reflexivity.
  cbn [all_bytes]. rewrite (is_space_is_dot _ Hh). cbn [andb].
  rewrite run_Eol.
  destruct (skip is_dot t) eqn:Es.
  - apply all_bytes_skip in Es. rewrite Es. unfold accept, set_cap. simpl.
    f_equal. apply (captured_all (String a t)).
  - assert (Hn : all_bytes is_dot t = false).
    { destruct (all_bytes is_dot t) eqn:E; [|reflexivity].
      apply all_bytes_skip in E. congruence. }
    rewrite Hn. reflexivity.
Qed.

(** ** The version line *)

Lemma plus_digit_first (prev : option ascii) (s : string) (c : caps) (k : cont)
    (m : caps) :
  match s with String a _ => is_digit a = true | EmptyString => False end ->
  k (last_byte prev (keep is_digit s)) (skip is_digit s) c = Some m ->
  run (plus (Chr is_digit)) prev s c k = Some m.
Proof.
  destruct s as [|a t]; [intros []|]. intros Ha Hk.
  unfold plus. rewrite run_Seq, run_Chr, Ha.
  apply star_chr_first. cbn [keep skip last_byte] in Hk. rewrite Ha in Hk.
  exact Hk.
Qed.

Lemma versionLine_run (line : string) :
  option_map (fun m : caps => m 1%nat) (FindStringSubmatch versionLine line)
  = version_digits line.
Proof.
  unfold versionLine, version_digits. cbn [seqs].
  rewrite find_anchored, run_Seq, run_lit.
  destruct (strip_prefix "TAP version " line) as [rest|]; [|reflexivity].
  rewrite run_Grp.
  destruct rest as [|a t]; [reflexivity|]. cbn [keep].
  destruct (is_digit a) eqn:Ha.
  - erewrite plus_digit_first; [|exact Ha|reflexivity].
    unfold set_cap. cbn [option_map Nat.eqb]. f_equal.
    rewrite captured_keep. cbn [keep]. rewrite Ha. reflexivity.
  - unfold plus. rewrite run_Seq, run_Chr, Ha. reflexivity.
Qed.

(** ** The plan line *)

Lemma plus_digit_commit (prev : option ascii) (s : string) (c : caps)
    (k : cont) :
  (forall prev' a s', is_digit a = true -> k prev' (String a s') c = None) ->
  run (plus (Chr is_digit)) prev s c k
  = match keep is_digit s with
    | EmptyString => None
    | String _ _ => k (last_byte prev (keep is_digit s)) (skip is_digit s) c
    end.
Proof.
  intros Hk. unfold plus. rewrite run_Seq, run_Chr.
  destruct s as [|a t]; [reflexivity|]. cbn [keep skip].
  destruct (is_digit a); [|reflexivity].
  rewrite star_chr_commit by exact Hk. reflexivity.
Qed.

Lemma is_digit_not_dot (a : ascii) : is_digit a = true -> Ascii.eqb "." a = false.
Proof.
  destruct (Ascii.eqb_spec "." a) as [<-|]; [discriminate|reflexivity].
Qed.

Lemma testPlanDeclaration_run (line : string) :
  option_map (fun m : caps => m 1%nat)
    (FindStringSubmatch testPlanDeclaration line)
  = plan_count line.
Proof.
  unfold testPlanDeclaration, plan_count. cbn [seqs].
  rewrite find_anchored, run_Seq.
  rewrite plus_digit_commit.
  2:{ intros prev a s Ha. rewrite run_Seq, run_lit. cbn [strip_prefix].
      rewrite (is_digit_not_dot _ Ha). reflexivity. }
  destruct (keep is_digit line); [reflexivity|].
  rewrite run_Seq, run_lit.
  destruct (strip_prefix ".." (skip is_digit line)) as [d|]; [|reflexivity].
  rewrite run_Seq, run_Grp, plus_digit_commit by reflexivity.
  destruct d as [|b u]; [reflexivity|]. cbn [keep skip all_bytes].
  destruct (is_digit b); [|reflexivity]. cbn [andb]. rewrite run_Eol.
  destruct (skip is_digit u) eqn:Es.
  - apply all_bytes_skip in Es. rewrite Es. unfold accept, set_cap. simpl.
    f_equal. apply (captured_all (String b u)).
  - assert (Hn : all_bytes is_digit u = false).
    { destruct (all_bytes is_digit u) eqn:E; [|reflexivity].
      apply all_bytes_skip in E. congruence. }
    rewrite Hn. reflexivity.
Qed.

(** ** The delimiters of a data block *)

Lemma strip_prefix_nil (d r : string) :
  (match strip_prefix d r with Some EmptyString => true | _ => false end)
  = String.eqb r d.
Proof.
  destruct (String.eqb_spec r d) as [->|Hne].
  - rewrite <- (append_nil_r d) at 2. rewrite strip_prefix_same. reflexivity.
  - destruct (strip_prefix d r) as [[|]|] eqn:E; try reflexivity.
    apply strip_prefix_append in E. rewrite append_nil_r in E. contradiction.
Qed.

Lemma delimiter_run (d line : string) :
  match d with String a _ => is_space a = false | EmptyString => False end ->
  MatchString (seqs [Bol; Star (Chr is_space); lit d; Eol]) line
  = is_delimiter d line.
Proof.
  intros Hd. unfold MatchString, is_delimiter. cbn [seqs].
  rewrite find_anchored, run_Seq, star_chr_commit.
  2:{ intros prev a s Ha. rewrite run_Seq, run_lit.
      destruct d as [|b d']; [destruct Hd|]. cbn [strip_prefix].
      destruct (Ascii.eqb_spec b a) as [->|]; [congruence|reflexivity]. }
  rewrite run_Seq, run_lit. rewrite <- strip_prefix_nil.
  destruct (strip_prefix d (skip is_space line)) as [[|]|]; reflexivity.
Qed.

Lemma yamlStart_run (line : string) :
  MatchString yamlStart line = is_delimiter "---" line.
Proof. apply (delimiter_run "---"). reflexivity. Qed.

Lemma yamlStop_run (line : string) :
  MatchString yamlStop line = is_delimiter "..." line.
Proof. apply (delimiter_run "..."). reflexivity. Qed.

(** ** The test line *)

Lemma testLine_run (line : string) :
  option_map (fun m : caps => (m 1%nat, m 2%nat))
    (FindStringSubmatch testLine line)
  = test_parts line.
Proof.
  unfold testLine. cbn [seqs]. rewrite find_anchored, run_Seq.
  set (K := fun p' s' c' => run _ p' s' c' accept).
  assert (HK : forall p' s' c',
             K p' s' c' =
             match strip_prefix "ok" s' with
             | Some rest =>
                 if word_after rest then None
                 else Some (set_cap 2 (keep is_dot rest) c')
             | None => None
             end).
  { intros p' s' c'. unfold K. rewrite run_Seq, run_lit.
    destruct (strip_prefix "ok" s') as [rest|]; [|reflexivity].
    rewrite run_Seq, run_WordB. cbn [last_byte word_before].
    change (is_word "k") with true.
    destruct (word_after rest); [reflexivity|]. cbn [xorb].
    rewrite run_Grp. apply star_chr_first. unfold accept.
    rewrite captured_keep. reflexivity. }
  rewrite run_Opt, run_Grp, run_lit. unfold test_parts.
  destruct (strip_prefix "not " line) as [l1|] eqn:E1.
  - apply strip_prefix_append in E1. subst line. rewrite !HK.
    assert (E0 : strip_prefix "ok" ("not " ++ l1) = None) by reflexivity.
    rewrite E0.
    destruct (strip_prefix "ok" l1) as [r2|] eqn:E2.
    + apply strip_prefix_append in E2. subst l1.
      rewrite (strip_prefix_same "not ok" r2 : strip_prefix "not ok" ("not " ++ "ok" ++ r2) = Some r2).
      destruct (word_after r2); [reflexivity|].
      unfold set_cap. simpl. f_equal. f_equal.
      apply (captured_append "not " ("ok" ++ r2)).
    + assert (E3 : strip_prefix "not ok" ("not " ++ l1) = None).
      { destruct (strip_prefix "not ok" ("not " ++ l1)) as [r|] eqn:E; [|reflexivity].
        apply strip_prefix_append in E. injection E as E. subst l1.
        simpl in E2. discriminate E2. }
      rewrite E3. reflexivity.
  - rewrite HK.
    assert (E3 : strip_prefix "not ok" line = None).
    { destruct (strip_prefix "not ok" line) as [r|] eqn:E; [|reflexivity].
      apply strip_prefix_append in E. subst line.
      cbn in E1. discriminate E1. }
    rewrite E3.
    destruct (strip_prefix "ok" line) as [rest|]; [|reflexivity].
    destruct (word_after rest); reflexivity.
Qed.

(** ** The diagnostic line *)

Lemma all_bytes_skip_any (p q : ascii -> bool) (s : string) :
  all_bytes p s = true -> all_bytes p (skip q s) = true.
Proof.
  induction s as [|a s IH]; simpl; [auto|].
  intros H. apply andb_true_iff in H as [Ha Hs].
  destruct (q a); [auto|]. simpl. rewrite Ha, Hs. reflexivity.
Qed.

Lemma is_space_not_hash (a : ascii) : is_space a = true -> Ascii.eqb "#" a = false.
Proof.
  intros H. apply is_space_cases in H as [->|[->|[->|[->| ->]]]]; reflexivity.
Qed.

(** The pattern tried at one position of a text without a newline. *)
Lemma diagnostic_at (prev : option ascii) (s : string) :
  all_bytes is_dot s = true ->
  option_map (fun m : caps => m 1%nat) (run diagnostic prev s no_caps accept)
  = match skip is_space s with
    | String a t => if Ascii.eqb "#" a then Some t else None
    | EmptyString => None
    end.
Proof.
  intros Hs. unfold diagnostic. cbn [seqs].
  rewrite run_Seq, star_chr_commit.
  2:{ intros p a t Ha. rewrite run_Seq, run_Chr, (is_space_not_hash _ Ha).
      reflexivity. }
  apply (all_bytes_skip_any is_dot is_space) in Hs.
  destruct (skip is_space s) as [|a t]; [reflexivity|].
  rewrite run_Seq, run_Chr.
  destruct (Ascii.eqb "#" a); [|reflexivity].
  rewrite run_Seq, run_Grp, star_chr_commit by reflexivity.
  simpl in Hs. apply andb_true_iff in Hs as [_ Ht].
  rewrite run_Eol. apply all_bytes_skip in Ht. rewrite Ht.
  unfold accept, set_cap. simpl. f_equal. apply captured_all.
Qed.

Lemma after_hash_skip (s : string) :
  after_hash s =
  match skip is_space s with
  | String a t => if Ascii.eqb "#" a then Some t else after_hash t
  | EmptyString => None
  end.
Proof.
  induction s as [|a s IH]; cbn [after_hash skip]; [reflexivity|].
  destruct (is_space a) eqn:Ha.
  - rewrite (is_space_not_hash _ Ha). exact IH.
  - reflexivity.
Qed.

Lemma diagnostic_search (s : string) :
  forall prev,
    all_bytes is_dot s = true ->
    option_map (fun m : caps => m 1%nat) (search diagnostic prev s)
    = after_hash s.
Proof.
  induction s as [|a s IH]; intros prev Hs.
  - reflexivity.
  - pose proof (diagnostic_at prev (String a s) Hs) as Hat.
    cbn [search]. simpl in Hs. apply andb_true_iff in Hs as [Ha Hs].
    destruct (run diagnostic prev (String a s) no_caps accept) as [m|].
    + cbn [option_map] in *. rewrite (after_hash_skip (String a s)).
      revert Hat. destruct (skip is_space (String a s)) as [|b t];
        [discriminate|].
      destruct (Ascii.eqb "#" b); [auto|discriminate].
    + rewrite (IH (Some a) Hs). cbn [option_map skip after_hash] in *.
      destruct (Ascii.eqb "#" a) eqn:Eh; [|reflexivity].
      exfalso. destruct (is_space a) eqn:Esp.
      * rewrite (is_space_not_hash _ Esp) in Eh. discriminate.
      * rewrite Eh in Hat. discriminate.
Qed.

Lemma diagnostic_run (line : string) :
  all_bytes is_dot line = true ->
  option_map (fun m : caps => m 1%nat) (FindStringSubmatch diagnostic line)
  = after_hash line.
Proof. apply diagnostic_search. Qed.

(** ** What follows [ok] on a test line *)

Lemma run_Opt_some (a : regex) (prev : option ascii) (s : string) (c m : caps)
    (k : cont) :
  run a prev s c k = Some m -> run (Opt a) prev s c k = Some m.
Proof. intros H. rewrite run_Opt, H. reflexivity. Qed.

Lemma is_nothash_false (a : ascii) : is_nothash a = false -> a = "#"%char.
Proof.
  unfold is_nothash. destruct (Ascii.eqb_spec a "#"); [auto|discriminate].
Qed.

Lemma captured_three (p q r : ascii -> bool) (s : string) :
  captured s (skip r (skip q (skip p s)))
  = keep p s ++ keep q (skip p s) ++ keep r (skip q (skip p s)).
Proof.
  rewrite (keep_skip p s) at 1.
  rewrite (keep_skip q (skip p s)) at 1.
  rewrite (keep_skip r (skip q (skip p s))) at 1.
  rewrite <- !append_assoc. apply captured_append.
Qed.

(** The groups of [optionalTestLine], on every text. *)
Lemma optionalTestLine_run (rest : string) :
  exists m,
    FindStringSubmatch optionalTestLine rest = Some m /\
    mkText (m 1%nat) (m 2%nat) (m 4%nat) (m 5%nat) = optional_parts rest.
Proof.
  rewrite find_nullable by reflexivity.
  unfold optionalTestLine, optional_parts. cbn [seqs].
  set (s1 := skip is_space rest).
  set (s3 := skip is_space (skip is_digit s1)).
  pose proof (skip_head is_nothash s3) as Hh.
  destruct (skip is_nothash s3) as [|h tail] eqn:E4.
  - eexists. split.
    + rewrite run_Seq. apply star_chr_first. fold s1.
      rewrite run_Seq. apply run_Opt_some. rewrite run_Grp.
      apply star_chr_first.
      rewrite run_Seq. apply star_chr_first. fold s3.
      rewrite run_Seq, run_Grp. apply star_chr_first. rewrite E4.
      rewrite run_Opt, run_Grp. cbn [seqs]. rewrite run_Seq, run_Chr.
      reflexivity.
    + assert (Hc : captured s3 "" = keep is_nothash s3)
        by (rewrite <- E4; apply captured_keep).
      unfold set_cap. cbn [Nat.eqb no_caps]. rewrite !captured_keep, Hc.
      reflexivity.
  - apply is_nothash_false in Hh. subst h.
    eexists. split.
    + rewrite run_Seq. apply star_chr_first. fold s1.
      rewrite run_Seq. apply run_Opt_some. rewrite run_Grp.
      apply star_chr_first.
      rewrite run_Seq. apply star_chr_first. fold s3.
      rewrite run_Seq, run_Grp. apply star_chr_first. rewrite E4.
      apply run_Opt_some. rewrite run_Grp. cbn [seqs].
      rewrite run_Seq, run_Chr. change (Ascii.eqb "#" "#") with true. cbv iota.
      rewrite run_Seq. apply star_chr_first.
      rewrite run_Seq, run_Grp, run_Seq, run_Grp. apply star_chr_first.
      rewrite run_Seq. apply star_chr_first. apply star_chr_first.
      apply star_chr_first. reflexivity.
    + assert (Hc : captured s3 (String "#" tail) = keep is_nothash s3)
        by (rewrite <- E4; apply captured_keep).
      unfold set_cap. cbn [Nat.eqb no_caps].
      rewrite !captured_keep, Hc, captured_three. reflexivity.
Qed.

(** * More on the parse engine *)

(** ** Numbers *)

Lemma keep_all_bytes (p : ascii -> bool) (s : string) :
  all_bytes p (keep p s) = true.
Proof.
  induction s as [|a s IH]; simpl; [reflexivity|].
  destruct (p a) eqn:E; simpl; [rewrite E, IH|]; reflexivity.
Qed.

Lemma digits_number_range (d : string) :
  all_bytes is_digit d = true -> 0 <= digits_number d.
Proof.
  intros H. unfold digits_number.
  destruct (digits_value_keep d 0) as (v & Hv & Hle); [lia|].
  rewrite (all_bytes_keep _ _ H) in Hv. rewrite Hv. exact Hle.
Qed.

Lemma Atoi_digits (d : string) :
  all_bytes is_digit d = true -> d <> "" -> Atoi d = stored_number d.
Proof.
  intros H Hne. destruct d as [|a t]; [contradiction|].
  assert (Ha : is_digit a = true)
    by (simpl in H; apply andb_true_iff in H; apply H).
  rewrite (Atoi_digit_head _ _ Ha). unfold stored_number, digits_number.
  destruct (digits_value_keep (String a t) 0) as (v & Hv & _); [lia|].
  rewrite (all_bytes_keep _ _ H) in Hv. rewrite Hv. reflexivity.
Qed.

Lemma stored_number_range (d : string) :
  all_bytes is_digit d = true -> 0 <= fst (stored_number d) <= max_int.
Proof.
  intros H. pose proof (digits_number_range d H) as Hr. unfold stored_number.
  destruct (Z.leb_spec (digits_number d) max_int); simpl;
    unfold max_int in *; lia.
Qed.

Lemma version_digits_digits (line d : string) :
  version_digits line = Some d -> all_bytes is_digit d = true /\ d <> "".
Proof.
  unfold version_digits.
  destruct (strip_prefix "TAP version " line) as [rest|]; [|discriminate].
  destruct (keep is_digit rest) as [|a t] eqn:E; [discriminate|].
  intros H. injection H as <-. rewrite <- E. split; [apply keep_all_bytes|].
  rewrite E. discriminate.
Qed.

Lemma plan_count_digits (line d : string) :
  plan_count line = Some d -> all_bytes is_digit d = true /\ d <> "".
Proof.
  unfold plan_count. destruct (keep is_digit line) as [|x y]; [discriminate|].
  destruct (strip_prefix ".." (skip is_digit line)) as [d'|]; [|discriminate].
  destruct d' as [|a t]; [discriminate|].
  destruct (all_bytes is_digit (String a t)) eqn:E; [|discriminate].
  intros H. injection H as <-. split; [exact E|discriminate].
Qed.

(** The match of a pattern, from the text of its group 1. *)
Lemma find_group1 (r : regex) (line : string) (g : option string) :
  option_map (fun m : caps => m 1%nat) (FindStringSubmatch r line) = g ->
  match g with
  | Some d => exists m, FindStringSubmatch r line = Some m /\ m 1%nat = d
  | None => FindStringSubmatch r line = None
  end.
Proof.
  destruct (FindStringSubmatch r line) as [m|]; simpl; intros <-;
    [exists m; auto|reflexivity].
Qed.

(** ** The version line, step by step *)

Lemma version_step (st : pstate) (line : string) :
  state st = findVersionString ->
  step st line =
  Some match version_digits line with
       | None => st
       | Some d =>
           let '(v, ok) := stored_number d in
           let st' := with_results (set_TapVersion v (results st)) st in
           if ok then with_state storeTestMetadata st' else st'
       end.
Proof.
  intros Hs. unfold step. rewrite Hs.
  pose proof (find_group1 _ _ _ (versionLine_run line)) as H.
  destruct (version_digits line) as [d|] eqn:Ev.
  - destruct H as (m & -> & Hm). rewrite Hm.
    destruct (version_digits_digits _ _ Ev) as [Hd Hne].
    rewrite (Atoi_digits _ Hd Hne).
    destruct (stored_number d) as [v [|]]; reflexivity.
  - rewrite H. reflexivity.
Qed.

(** ** The input is echoed *)

Lemma step_Lines (st st' : pstate) (line : string) :
  step st line = Some st' -> Lines (results st') = Lines (results st).
Proof.
  intros H. unfold step in H. destruct (state st).
  - repeat break_match; injection H as <-; reflexivity.
  - destruct (FindStringSubmatch bailOutLine line);
      [injection H as <-; reflexivity|].
    destruct (planStep st line) as [st1 b] eqn:Ep.
    apply planStep_spec in Ep as (v & -> & _).
    destruct b; [injection H as <-; reflexivity|].
    unfold testStep in H. destruct (FindStringSubmatch testLine line).
    + cbn [foundAllTests with_currentTest with_results] in H.
      destruct (foundAllTests st).
      * injection H as <-. simpl. destruct (currentTest st); reflexivity.
      * apply countTest_spec in H
          as (_ & _ & _ & _ & _ & _ & _ & _ & _ & _ & HL & _).
        rewrite HL. simpl. destruct (currentTest st); reflexivity.
    + destruct (MatchString yamlStart line); injection H as <-; [reflexivity|].
      unfold diagnosticStep. repeat break_match; reflexivity.
  - repeat break_match; injection H as <-; reflexivity.
Qed.

Lemma run_lines_Lines (lines : list string) :
  forall st st',
    run_lines st lines = Some st' -> Lines (results st') = Lines (results st).
Proof.
  induction lines as [|l lines IH]; simpl; intros st st' H.
  - injection H as <-. reflexivity.
  - destruct (step st l) as [st1|] eqn:E; [|discriminate].
    rewrite (IH _ _ H). exact (step_Lines _ _ _ E).
Qed.

(** X1: [Parse] returns, and its result echoes the lines it was given. *)
Theorem Parse_echoes_lines (lines : list string) :
  exists r, Parse lines = Some r /\ Lines r = lines.
Proof.
  unfold Parse.
  destruct (run_lines (init lines) lines) as [st|] eqn:E;
    [|destruct (run_lines_total _ _ E)].
  exists (finish st). split; [reflexivity|].
  apply run_lines_Lines in E. unfold finish.
  destruct (currentTest st); simpl; exact E.
Qed.

(** ** The plan is absent or a count *)

Lemma plan_recorded_range (st : pstate) (line : string) (v : Z) :
  plan_recorded st line = Some v -> 0 <= v <= max_int.
Proof.
  unfold plan_recorded. destruct (state st); try discriminate.
  destruct (FindStringSubmatch bailOutLine line); [discriminate|].
  destruct (foundTestPlan st); [discriminate|].
  pose proof (find_group1 _ _ _ (testPlanDeclaration_run line)) as H.
  destruct (plan_count line) as [d|] eqn:Ep.
  - destruct H as (m & -> & Hm). rewrite Hm.
    destruct (plan_count_digits _ _ Ep) as [Hd Hne].
    rewrite (Atoi_digits _ Hd Hne). intros E. injection E as <-.
    apply stored_number_range, Hd.
  - rewrite H. discriminate.
Qed.

Lemma run_lines_plan_range (lines : list string) :
  forall st st',
    ExpectedTests (results st) = -1 \/ 0 <= ExpectedTests (results st) <= max_int ->
    run_lines st lines = Some st' ->
    ExpectedTests (results st') = -1
    \/ 0 <= ExpectedTests (results st') <= max_int.
Proof.
  induction lines as [|l lines IH]; simpl; intros st st' Hr H.
  - injection H as <-. exact Hr.
  - destruct (step st l) as [st1|] eqn:E; [|discriminate].
    apply (IH st1 st'); [|exact H].
    rewrite (step_ExpectedTests _ _ _ E).
    destruct (plan_recorded st l) as [v|] eqn:Ep; [|exact Hr].
    right. exact (plan_recorded_range _ _ _ Ep).
Qed.

(** X2: the plan of the result is -1, no plan, or a count from 0 to the largest
    [int]. *)
Theorem plan_absent_or_count (lines : list string) :
  exists r,
    Parse lines = Some r /\
    (ExpectedTests r = -1 \/ 0 <= ExpectedTests r <= max_int).
Proof.
  unfold Parse.
  destruct (run_lines (init lines) lines) as [st|] eqn:E;
    [|destruct (run_lines_total _ _ E)].
  exists (finish st). split; [reflexivity|].
  unfold finish.
  destruct (flush_fields (currentTest st) (results st)) as (-> & _).
  apply (run_lines_plan_range lines (init lines) st); [left; reflexivity|exact E].
Qed.

(** ** The version is absent or a number *)

Lemma step_stream (st st' : pstate) (line : string) :
  state st <> findVersionString ->
  step st line = Some st' ->
  state st' <> findVersionString /\
  TapVersion (results st') = TapVersion (results st).
Proof.
  intros Hs H. unfold step in H. destruct (state st) eqn:Es; [congruence| |].
  - destruct (FindStringSubmatch bailOutLine line);
      [injection H as <-; simpl; rewrite Es; split; [discriminate|reflexivity]|].
    destruct (planStep st line) as [st1 b] eqn:Ep.
    apply planStep_spec in Ep as (v & -> & _).
    destruct b;
      [injection H as <-; simpl; rewrite Es; split; [discriminate|reflexivity]|].
    unfold testStep in H. destruct (FindStringSubmatch testLine line).
    + cbn [foundAllTests with_currentTest with_results] in H.
      destruct (foundAllTests st).
      * injection H as <-. simpl. rewrite Es. split; [discriminate|].
        destruct (currentTest st); reflexivity.
      * apply countTest_spec in H as (H1 & _ & _ & _ & _ & _ & H2 & _).
        rewrite H1, H2. simpl. rewrite Es. split; [discriminate|].
        destruct (currentTest st); reflexivity.
    + destruct (MatchString yamlStart line); injection H as <-;
        [simpl; split; [discriminate|reflexivity]|].
      unfold diagnosticStep.
      repeat break_match; simpl; rewrite Es; split;
        try discriminate; reflexivity.
  - destruct (MatchString yamlStop line);
      [injection H as <-; simpl; split; [discriminate|reflexivity]|].
    destruct (currentTest st); injection H as <-; simpl; rewrite Es;
      split; try discriminate; reflexivity.
Qed.

Lemma step_header_state (input : list string) (st st' : pstate) (line : string) :
  header_state input st -> step st line = Some st' -> header_state input st'.
Proof.
  unfold header_state. intros Hh H.
  destruct (state st) eqn:Es.
  - rewrite (version_step _ _ Es) in H. injection H as <-.
    destruct (version_digits line) as [d|] eqn:Ev; [|rewrite Es; exact Hh].
    destruct (version_digits_digits _ _ Ev) as [Hd _].
    pose proof (stored_number_range d Hd) as Hr.
    unfold stored_number in *.
    destruct (digits_number d <=? max_int); cbn [fst] in Hr.
    + simpl. exact Hr.
    + simpl. rewrite Es. split; [right; reflexivity|].
      destruct Hh as [_ Hst].
      remember (TapVersion (results st)) as tv eqn:Htv. clear Htv Es.
      subst st. reflexivity.
  - assert (Hn : state st <> findVersionString) by congruence.
    destruct (step_stream _ _ _ Hn H) as [Hs' Hv]. rewrite Hv.
    destruct (state st'); [congruence|exact Hh|exact Hh].
  - assert (Hn : state st <> findVersionString) by congruence.
    destruct (step_stream _ _ _ Hn H) as [Hs' Hv]. rewrite Hv.
    destruct (state st'); [congruence|exact Hh|exact Hh].
Qed.

Lemma run_lines_header_state (input lines : list string) :
  forall st st',
    header_state input st -> run_lines st lines = Some st' ->
    header_state input st'.
Proof.
  induction lines as [|l lines IH]; simpl; intros st st' Hh H.
  - injection H as <-. exact Hh.
  - destruct (step st l) as [st1|] eqn:E; [|discriminate].
    exact (IH _ _ (step_header_state _ _ _ _ Hh E) H).
Qed.

(** X3: the version of the result is -1 or a number from 0 to the largest [int],
    and when it is -1 no line was taken into account: the result is the
    initial one. *)
Theorem version_absent_or_number (lines : list string) :
  exists r,
    Parse lines = Some r /\
    (TapVersion r = -1 \/ 0 <= TapVersion r <= max_int) /\
    (TapVersion r = -1 -> r = initResults lines).
Proof.
  unfold Parse.
  destruct (run_lines (init lines) lines) as [st|] eqn:E;
    [|destruct (run_lines_total _ _ E)].
  exists (finish st). split; [reflexivity|].
  assert (Hh : header_state lines st).
  { apply (run_lines_header_state lines lines (init lines)); [|exact E].
    unfold header_state. simpl. auto. }
  unfold header_state in Hh. unfold finish.
  destruct (flush_fields (currentTest st) (results st))
    as (_ & _ & _ & _ & Hv & _).
  rewrite Hv.
  destruct (state st).
  - destruct Hh as [Hv' Hst]. split.
    + destruct Hv' as [->| ->]; [left; reflexivity|right; unfold max_int; lia].
    + intros Hm. rewrite Hst. rewrite Hm. reflexivity.
  - split; [right; exact Hh|]. intros Hm. lia.
  - split; [right; exact Hh|]. intros Hm. lia.
Qed.

(** ** What comes before the header *)

Lemma countTest_relabel (input : list string) (st : pstate) (a b : string) :
  countTest (relabel input st) a b = option_map (relabel input) (countTest st a b).
Proof.
  unfold countTest.
  destruct (FindStringSubmatch optionalTestLine b); [|reflexivity].
  cbn [relabel results with_results set_Lines TotalTests PassedTests FailedTests
       SkippedTests TodoTests].
  destruct (EqualFold _ "skip"); [|destruct (EqualFold _ "todo");
    [|destruct (String.eqb a "not ")]]; reflexivity.
Qed.

Lemma planStep_relabel (input : list string) (st : pstate) (line : string) :
  planStep (relabel input st) line
  = (relabel input (fst (planStep st line)), snd (planStep st line)).
Proof.
  unfold planStep. cbn [relabel foundTestPlan with_results].
  destruct (negb (foundTestPlan st)); [|reflexivity].
  destruct (FindStringSubmatch testPlanDeclaration line); [|reflexivity].
  destruct (Atoi _) as [v ok]. reflexivity.
Qed.

Lemma testStep_relabel (input : list string) (st : pstate) (line : string) :
  testStep (relabel input st) line
  = option_map (relabel input) (testStep st line).
Proof.
  unfold testStep. destruct (FindStringSubmatch testLine line).
  - cbn [relabel foundAllTests with_currentTest with_results].
    destruct (foundAllTests st).
    + simpl. destruct (currentTest st); reflexivity.
    + rewrite <- countTest_relabel. f_equal.
      unfold relabel. simpl. destruct (currentTest st); reflexivity.
  - destruct (MatchString yamlStart line); [reflexivity|].
    unfold diagnosticStep.
    destruct (FindStringSubmatch diagnostic line); [|reflexivity].
    destruct (String.eqb _ ""); [reflexivity|].
    cbn [relabel currentTest with_results].
    destruct (currentTest st); reflexivity.
Qed.

Lemma step_relabel (input : list string) (st : pstate) (line : string) :
  step (relabel input st) line = option_map (relabel input) (step st line).
Proof.
  unfold step. rewrite planStep_relabel, testStep_relabel.
  cbn [relabel state with_results currentTest results]. destruct (state st).
  - destruct (FindStringSubmatch versionLine line); [|reflexivity].
    destruct (Atoi _) as [v [|]]; reflexivity.
  - destruct (FindStringSubmatch bailOutLine line); [reflexivity|].
    destruct (planStep st line) as [st1 [|]]; reflexivity.
  - destruct (MatchString yamlStop line); [reflexivity|].
    destruct (currentTest st); reflexivity.
Qed.

Lemma run_lines_relabel (input lines : list string) :
  forall st,
    run_lines (relabel input st) lines
    = option_map (relabel input) (run_lines st lines).
Proof.
  induction lines as [|l lines IH]; simpl; intros st; [reflexivity|].
  rewrite step_relabel. destruct (step st l); simpl; [apply IH|reflexivity].
Qed.

Lemma run_lines_preamble (pre : list string) :
  forall st,
    state st = findVersionString ->
    Forall (fun l => version_digits l = None) pre ->
    run_lines st pre = Some st.
Proof.
  induction pre as [|l pre IH]; intros st Hs Hp; [reflexivity|].
  inversion Hp as [|? ? Hl Hp']; subst. simpl.
  rewrite (version_step _ _ Hs), Hl. apply IH; assumption.
Qed.

(** X4: the lines before the version line, none of which starts with [TAP version ]
    and a digit, are skipped: the result is that of the lines that follow,
    but for the echo of the input.  An input without a version line gives the
    initial result. *)
Theorem preamble_skipped (pre rest : list string) :
  Forall (fun l => version_digits l = None) pre ->
  Parse (pre ++ rest) = option_map (set_Lines (pre ++ rest)) (Parse rest) /\
  Parse pre = Some (initResults pre).
Proof.
  intros Hp. split.
  - unfold Parse. rewrite run_lines_app.
    rewrite (run_lines_preamble pre (init (pre ++ rest)) eq_refl Hp).
    change (init (pre ++ rest)) with (relabel (pre ++ rest) (init rest)).
    rewrite run_lines_relabel.
    destruct (run_lines (init rest) rest) as [st|]; [|reflexivity].
    simpl. f_equal. unfold finish, relabel. simpl.
    destruct (currentTest st); reflexivity.
  - unfold Parse. rewrite (run_lines_preamble pre (init pre) eq_refl Hp).
    reflexivity.
Qed.

Lemma preamble_skipped_witness :
  Forall (fun l => version_digits l = None) ["Test results:"; "TAP version x"] /\
  Parse (["Test results:"; "TAP version x"] ++ ["TAP version 13"; "ok"])
  = option_map
      (set_Lines (["Test results:"; "TAP version x"] ++ ["TAP version 13"; "ok"]))
      (Parse ["TAP version 13"; "ok"]) /\
  Parse ["Test results:"; "TAP version x"]
  = Some (initResults ["Test results:"; "TAP version x"]).
Proof.
  assert (H : Forall (fun l => version_digits l = None)
                ["Test results:"; "TAP version x"])
    by (repeat constructor).
  split; [exact H|].
  exact (preamble_skipped ["Test results:"; "TAP version x"]
           ["TAP version 13"; "ok"] H).
Defined.

(** ** Runs without a plan *)

Lemma step_unplanned (st st' : pstate) (line : string) (n : Z) :
  n < max_int ->
  bounded n (results st) ->
  step st line = Some st' ->
  ExpectedTests (results st') = -1 ->
  foundAllTests st = false ->
  foundAllTests st' = false /\
  (map flag_count (staged st') = map flag_count (staged st)
   \/ map flag_count (staged st') = (map flag_count (staged st) ++ [1%nat])%list).
Proof.
  intros Hn Hb H He Hf. unfold step in H. destruct (state st).
  - repeat break_match; injection H as <-; auto.
  - destruct (FindStringSubmatch bailOutLine line); [injection H as <-; auto|].
    destruct (planStep st line) as [st1 b] eqn:Ep.
    apply planStep_spec in Ep as (v & -> & _).
    destruct b; [injection H as <-; auto|].
    unfold testStep in H. destruct (FindStringSubmatch testLine line).
    + cbn [foundAllTests with_currentTest with_results] in H. rewrite Hf in H.
      apply countTest_spec in H
        as (_ & _ & Hfa & (t & Ht & Hfl) & Htot & Hexp & _ & _ & _ & HT & _).
      split.
      * rewrite Hfa, Htot, He.
        cbn [results with_currentTest with_results currentTest foundAllTests].
        destruct (flush_fields (currentTest st)
                    (set_ExpectedTests v (results st))) as (_ & -> & _).
        cbn [TotalTests set_ExpectedTests].
        destruct Hb as (Hc & Hle & _). unfold counters_ok in Hc.
        rewrite incr_small by lia.
        destruct (Z.eqb_spec (TotalTests (results st) + 1) (-1)); [lia|].
        exact Hf.
      * right. unfold staged. rewrite Ht, HT. simpl.
        rewrite map_app. simpl. rewrite Hfl.
        destruct (currentTest st); simpl; rewrite ?app_nil_r, ?map_app;
          reflexivity.
    + destruct (MatchString yamlStart line); injection H as <-; [auto|].
      split.
      * unfold diagnosticStep. repeat break_match; exact Hf.
      * left. apply (diagnosticStep_flags
                       (with_results (set_ExpectedTests v (results st)) st) line).
  - destruct (MatchString yamlStop line); [injection H as <-; auto|].
    unfold staged.
    destruct (currentTest st) eqn:E; injection H as <-; simpl;
      rewrite ?E, ?map_app; auto.
Qed.

Lemma step_plan_stays (st st' : pstate) (line : string) :
  step st line = Some st' ->
  ExpectedTests (results st') = -1 ->
  ExpectedTests (results st) = -1.
Proof.
  intros H He. rewrite (step_ExpectedTests _ _ _ H) in He.
  destruct (plan_recorded st line) as [v|] eqn:Ep; [|exact He].
  apply plan_recorded_range in Ep. lia.
Qed.

Lemma run_lines_unplanned (lines : list string) :
  forall st st' n,
    n + len lines <= max_int ->
    bounded n (results st) ->
    (ExpectedTests (results st) = -1 ->
     foundAllTests st = false /\
     Forall (fun k => k = 1%nat) (map flag_count (staged st))) ->
    run_lines st lines = Some st' ->
    ExpectedTests (results st') = -1 ->
    foundAllTests st' = false /\
    Forall (fun k => k = 1%nat) (map flag_count (staged st')).
Proof.
  unfold len.
  induction lines as [|l lines IH]; simpl List.length;
    intros st st' n Hn Hb Hi H He; simpl in H.
  - injection H as <-. exact (Hi He).
  - destruct (step st l) as [st1|] eqn:E; [|discriminate].
    apply (IH st1 st' (n + 1)); [lia| | |exact H|exact He].
    + eapply step_bounded; [|exact Hb|exact E]. lia.
    + intros He1. pose proof (step_plan_stays _ _ _ E He1) as He0.
      destruct (Hi He0) as [Hf Hall].
      destruct (step_unplanned st st1 l n) as [Hf1 [Hfl|Hfl]];
        try assumption; try lia; (split; [exact Hf1|]); rewrite Hfl;
        [exact Hall|].
      apply Forall_app. split; [exact Hall|]. constructor; [reflexivity|constructor].
Qed.

(** X5: without a plan in the result, every test line was counted: each record
    has exactly one of the four flags, and there are as many records as tests
    counted. *)
Theorem unplanned_all_counted (lines : list string) :
  len lines <= max_int ->
  exists r,
    Parse lines = Some r /\
    (ExpectedTests r = -1 ->
     Forall (fun t => flag_count t = 1%nat) (Tests r) /\
     Z.of_nat (List.length (Tests r)) = TotalTests r).
Proof.
  intros Hn.
  destruct (run_lines (init lines) lines) as [st|] eqn:E;
    [|destruct (run_lines_total _ _ E)].
  exists (finish st). unfold Parse. rewrite E. split; [reflexivity|].
  rewrite staged_finish. unfold finish.
  destruct (flush_fields (currentTest st) (results st)) as (-> & -> & _).
  intros He.
  destruct (run_lines_unplanned lines (init lines) st 0) as [_ Hall];
    [rewrite Z.add_0_l; exact Hn|apply init_bounded| |exact E|exact He|].
  { intros _. split; [reflexivity|constructor]. }
  assert (Hf : flags_ok (map flag_count (staged st)) (TotalTests (results st))).
  { apply (run_lines_flags_ok lines (init lines) st 0);
      [rewrite Z.add_0_l; exact Hn|apply init_bounded| |exact E].
    split; [constructor|reflexivity]. }
  destruct Hf as [_ Hc]. split.
  - rewrite Forall_map in Hall. exact Hall.
  - rewrite <- Hc. f_equal. rewrite <- (length_map flag_count (staged st)).
    f_equal. symmetry. clear Hc.
    induction (map flag_count (staged st)) as [|k fl IH]; [reflexivity|].
    inversion Hall as [|? ? Hk Hall']; subst. simpl. f_equal. exact (IH Hall').
Qed.

Lemma unplanned_all_counted_witness :
  len ["TAP version 13"; "ok"; "not ok # TODO"; "not ok"] <= max_int /\
  exists r,
    Parse ["TAP version 13"; "ok"; "not ok # TODO"; "not ok"] = Some r /\
    (ExpectedTests r = -1 ->
     Forall (fun t => flag_count t = 1%nat) (Tests r) /\
     Z.of_nat (List.length (Tests r)) = TotalTests r).
Proof.
  split; [vm_compute; discriminate|].
  apply (unplanned_all_counted ["TAP version 13"; "ok"; "not ok # TODO"; "not ok"]).
  vm_compute; discriminate.
Defined.

(** ** What a passing verdict means *)

Lemma spec_verdict_true (r : Results) :
  spec_verdict r = true <->
  0 <= TapVersion r /\ BailOut r = false /\
  SkippedTests r + TodoTests r + PassedTests r
  = (if ExpectedTests r >=? 0 then ExpectedTests r else TotalTests r).
Proof.
  unfold spec_verdict.
  destruct (Z.ltb_spec (TapVersion r) 0).
  - split; [discriminate|]. intros (H0 & _). lia.
  - destruct (BailOut r).
    + split; [discriminate|]. intros (_ & H1 & _). discriminate.
    + rewrite Z.eqb_eq. tauto.
Qed.

(** X6: without a plan, the verdict passes exactly when a version was read, the
    run was not aborted and no test failed. *)
Theorem unplanned_verdict (lines : list string) :
  len lines <= max_int ->
  exists r,
    Parse lines = Some r /\
    (ExpectedTests r = -1 ->
     (IsPassing r = true <->
      0 <= TapVersion r /\ BailOut r = false /\ FailedTests r = 0)).
Proof.
  intros Hn. destruct (Parse_bounded lines Hn) as (r & E & Hb).
  exists r. split; [exact E|]. intros He.
  rewrite (IsPassing_is_verdict r _ Hn Hb), spec_verdict_true, He.
  destruct Hb as (Hc & _). unfold counters_ok in Hc.
  change (-1 >=? 0) with false. cbv iota.
  split; intros (H0 & H1 & H2); (split; [exact H0|split; [exact H1|lia]]).
Qed.

Lemma unplanned_verdict_witness :
  len ["TAP version 13"; "ok"; "ok # SKIP"] <= max_int /\
  exists r,
    Parse ["TAP version 13"; "ok"; "ok # SKIP"] = Some r /\
    (ExpectedTests r = -1 ->
     (IsPassing r = true <->
      0 <= TapVersion r /\ BailOut r = false /\ FailedTests r = 0)).
Proof.
  split; [vm_compute; discriminate|].
  apply (unplanned_verdict ["TAP version 13"; "ok"; "ok # SKIP"]).
  vm_compute; discriminate.
Defined.

(** X7: with a plan that was read before as many tests were counted, the verdict
    passes exactly when a version was read, the run was not aborted, no test
    failed and as many tests were counted as the plan declares. *)
Theorem planned_verdict (lines : list string) :
  len lines <= max_int ->
  plans_ahead (init lines) lines = true ->
  exists r,
    Parse lines = Some r /\
    (0 <= ExpectedTests r ->
     (IsPassing r = true <->
      0 <= TapVersion r /\ BailOut r = false /\ FailedTests r = 0 /\
      TotalTests r = ExpectedTests r)).
Proof.
  intros Hn Hp.
  destruct (run_lines (init lines) lines) as [st|] eqn:E;
    [|destruct (run_lines_total _ _ E)].
  exists (finish st). unfold Parse. rewrite E. split; [reflexivity|].
  assert (Hc : capped st).
  { apply (run_lines_capped lines (init lines) st 0);
      [rewrite Z.add_0_l; exact Hn|apply init_bounded| |exact Hp|exact E].
    left. simpl. lia. }
  assert (Hb : bounded (len lines) (finish st)).
  { apply bounded_flush.
    apply (run_lines_bounded lines (init lines) st 0) in E;
      [exact E|rewrite Z.add_0_l; exact Hn|apply init_bounded]. }
  intros He.
  rewrite (IsPassing_is_verdict _ _ Hn Hb), spec_verdict_true.
  destruct Hb as (Hk & _). unfold counters_ok in Hk.
  unfold finish in *.
  destruct (flush_fields (currentTest st) (results st)) as (Hr1 & Hr2 & _).
  rewrite Hr1, Hr2 in *.
  destruct (Z.geb_spec (ExpectedTests (results st)) 0); [|lia].
  assert (Hle : TotalTests (results st) <= ExpectedTests (results st))
    by (destruct Hc as [Hc|[Hc|[Hc _]]]; lia).
  split.
  - intros (H0 & H1 & H2). repeat split; try assumption; lia.
  - intros (H0 & H1 & H2 & H3). repeat split; try assumption; lia.
Qed.

Lemma planned_verdict_witness :
  len ["TAP version 13"; "1..2"; "ok"; "ok # TODO"] <= max_int /\
  plans_ahead (init ["TAP version 13"; "1..2"; "ok"; "ok # TODO"])
    ["TAP version 13"; "1..2"; "ok"; "ok # TODO"] = true /\
  exists r,
    Parse ["TAP version 13"; "1..2"; "ok"; "ok # TODO"] = Some r /\
    (0 <= ExpectedTests r ->
     (IsPassing r = true <->
      0 <= TapVersion r /\ BailOut r = false /\ FailedTests r = 0 /\
      TotalTests r = ExpectedTests r)).
Proof.
  split; [vm_compute; discriminate|]. split; [vm_compute; reflexivity|].
  apply (planned_verdict ["TAP version 13"; "1..2"; "ok"; "ok # TODO"]).
  - vm_compute; discriminate.
  - vm_compute; reflexivity.
Defined.

(** ** Comments *)

Lemma countTest_fresh (st st' : pstate) (a b : string) :
  countTest st a b = Some st' ->
  exists t, currentTest st' = Some t /\ Diagnostics t = [] /\ YamlBytes t = "".
Proof.
  unfold countTest. intros H.
  destruct (FindStringSubmatch optionalTestLine b) as [m|]; [|discriminate].
  destruct (EqualFold _ "skip"); [|destruct (EqualFold _ "todo");
    [|destruct (String.eqb a "not ")]];
    injection H as <-; eexists; repeat split; reflexivity.
Qed.

Lemma staged_snoc (st : pstate) (t : Test) :
  staged (with_currentTest (Some t)
            (with_results (flush (currentTest st) (results st)) st))
  = (staged st ++ [t])%list.
Proof.
  unfold staged. simpl. destruct (currentTest st); simpl;
    rewrite ?app_nil_r; reflexivity.
Qed.

Lemma diagnosticStep_comments (st : pstate) (line : string) :
  comments_ok st -> comments_ok (diagnosticStep st line).
Proof.
  unfold comments_ok, diagnosticStep, staged. intros [He Hs].
  destruct (FindStringSubmatch diagnostic line) as [m|]; [|split; assumption].
  destruct (String.eqb_spec (TrimSpace (m 1%nat)) ""); [split; assumption|].
  destruct (currentTest st) as [t|] eqn:Ec; simpl; rewrite ?Ec.
  - split; [exact He|]. apply Forall_app in Hs as [Hs Ht].
    apply Forall_app. split; [exact Hs|].
    inversion Ht as [|? ? Hd _]; subst. constructor; [|constructor].
    simpl. apply Forall_app. split; [exact Hd|]. constructor; [assumption|constructor].
  - split; [|exact Hs]. apply Forall_app. split; [exact He|].
    constructor; [assumption|constructor].
Qed.

Lemma step_comments (st st' : pstate) (line : string) :
  comments_ok st -> step st line = Some st' -> comments_ok st'.
Proof.
  intros Hc H. unfold step in H. destruct (state st).
  - repeat break_match; injection H as <-; exact Hc.
  - destruct (FindStringSubmatch bailOutLine line); [injection H as <-; exact Hc|].
    destruct (planStep st line) as [st1 b] eqn:Ep.
    apply planStep_spec in Ep as (v & -> & _).
    assert (Hc1 : comments_ok (with_results (set_ExpectedTests v (results st)) st))
      by exact Hc.
    destruct b; [injection H as <-; exact Hc1|].
    unfold testStep in H. destruct (FindStringSubmatch testLine line).
    + cbn [foundAllTests with_currentTest with_results] in H.
      destruct (foundAllTests st).
      * injection H as <-. destruct Hc as [He Hs]. split.
        -- simpl. destruct (currentTest st); exact He.
        -- rewrite (staged_snoc (with_results (set_ExpectedTests v (results st)) st)).
           apply Forall_app. split; [exact Hs|]. repeat constructor.
      * pose proof (countTest_fresh _ _ _ _ H) as (t & Ht & Hd & _).
        apply countTest_spec in H
          as (_ & _ & _ & _ & _ & _ & _ & _ & _ & HT & _ & HE).
        destruct Hc as [He Hs]. split.
        -- rewrite HE. simpl. destruct (currentTest st); exact He.
        -- unfold staged. rewrite Ht, HT.
           pose proof (staged_snoc (with_results (set_ExpectedTests v (results st)) st) t)
             as Hsn. unfold staged in Hsn. simpl in Hsn. simpl.
           apply Forall_app. split.
           ++ unfold staged in Hs. destruct (currentTest st); simpl;
                rewrite ?app_nil_r in Hs; exact Hs.
           ++ constructor; [rewrite Hd; constructor|constructor].
    + destruct (MatchString yamlStart line); injection H as <-; [exact Hc1|].
      apply diagnosticStep_comments. exact Hc1.
  - destruct (MatchString yamlStop line); [injection H as <-; exact Hc|].
    destruct (currentTest st) as [t|] eqn:Ec; injection H as <-; [|exact Hc].
    destruct Hc as [He Hs]. split; [exact He|]. unfold staged in *. simpl.
    rewrite Ec in Hs. apply Forall_app in Hs as [Hs Ht].
    apply Forall_app. split; [exact Hs|].
    inversion Ht; subst. constructor; [assumption|constructor].
Qed.

Lemma run_lines_comments (lines : list string) :
  forall st st',
    comments_ok st -> run_lines st lines = Some st' -> comments_ok st'.
Proof.
  induction lines as [|l lines IH]; simpl; intros st st' Hc H.
  - injection H as <-. exact Hc.
  - destruct (step st l) as [st1|] eqn:E; [|discriminate].
    exact (IH _ _ (step_comments _ _ _ Hc E) H).
Qed.

(** X8: no comment stored by [Parse] is empty, neither in the explanation nor in
    the diagnostics of a test. *)
Theorem comments_not_empty (lines : list string) :
  exists r,
    Parse lines = Some r /\
    Forall (fun d : string => d <> "") (Explanation r) /\
    Forall (fun t => Forall (fun d : string => d <> "") (Diagnostics t)) (Tests r).
Proof.
  unfold Parse.
  destruct (run_lines (init lines) lines) as [st|] eqn:E;
    [|destruct (run_lines_total _ _ E)].
  exists (finish st). split; [reflexivity|].
  assert (Hc : comments_ok st).
  { apply (run_lines_comments lines (init lines)); [|exact E].
    split; constructor. }
  destruct Hc as [He Hs]. rewrite staged_finish. split; [|exact Hs].
  unfold finish. destruct (currentTest st); exact He.
Qed.

(** ** Results only grow *)

Lemma state_grown_same (st st' : pstate) :
  Tests (results st') = Tests (results st) ->
  Explanation (results st') = Explanation (results st) ->
  TotalTests (results st') = TotalTests (results st) ->
  PassedTests (results st') = PassedTests (results st) ->
  FailedTests (results st') = FailedTests (results st) ->
  SkippedTests (results st') = SkippedTests (results st) ->
  TodoTests (results st') = TodoTests (results st) ->
  (currentTest st' = None -> currentTest st = None) ->
  state_grown st st'.
Proof.
  intros HT HE H1 H2 H3 H4 H5 Hc. unfold state_grown, counters_le.
  rewrite HT, HE, H1, H2, H3, H4, H5.
  repeat split; try lia; try (exists []; symmetry; apply app_nil_r).
  apply Hc; assumption.
Qed.

Lemma state_grown_trans (a b c : pstate) :
  state_grown a b -> state_grown b c -> state_grown a c.
Proof.
  unfold state_grown, counters_le.
  intros ([m1 T1] & [e1 E1] & C1 & N1 & F1) ([m2 T2] & [e2 E2] & C2 & N2 & F2).
  split; [|split; [|split; [|split]]].
  - exists (m1 ++ m2)%list. rewrite T2, T1, app_assoc. reflexivity.
  - exists (e1 ++ e2)%list. rewrite E2, E1, app_assoc. reflexivity.
  - lia.
  - intros H. destruct (N2 H) as [Hb HT]. destruct (N1 Hb) as [Ha HT'].
    split; [exact Ha|congruence].
  - intros H. rewrite F2, F1; [reflexivity|exact H|].
    intros Hb. apply H. apply N1. exact Hb.
Qed.

Lemma countTest_grown (st st' : pstate) (a b : string) (n : Z) :
  n < max_int ->
  bounded n (results st) ->
  countTest st a b = Some st' ->
  counters_le (results st) (results st') /\ currentTest st' <> None.
Proof.
  unfold countTest, bounded, counters_ok, counters_le. intros Hn (Hc & Hle & He) H.
  destruct (FindStringSubmatch optionalTestLine b); [|discriminate].
  assert (Ht : incr (TotalTests (results st)) = TotalTests (results st) + 1)
    by (apply incr_small; lia).
  assert (Hp : incr (PassedTests (results st)) = PassedTests (results st) + 1)
    by (apply incr_small; lia).
  assert (Hf : incr (FailedTests (results st)) = FailedTests (results st) + 1)
    by (apply incr_small; lia).
  assert (Hs : incr (SkippedTests (results st)) = SkippedTests (results st) + 1)
    by (apply incr_small; lia).
  assert (Hd : incr (TodoTests (results st)) = TodoTests (results st) + 1)
    by (apply incr_small; lia).
  rewrite Ht, Hp, Hf, Hs, Hd in H.
  destruct (EqualFold _ "skip"); [|destruct (EqualFold _ "todo");
    [|destruct (String.eqb a "not ")]];
    injection H as <-; simpl; repeat split; try lia; discriminate.
Qed.

Lemma diagnosticStep_grown (st : pstate) (line : string) :
  state_grown st (diagnosticStep st line).
Proof.
  unfold diagnosticStep.
  destruct (FindStringSubmatch diagnostic line) as [m|];
    [|apply state_grown_same; auto].
  destruct (String.eqb _ ""); [apply state_grown_same; auto|].
  destruct (currentTest st) as [t|] eqn:Ec.
  - apply state_grown_same; try reflexivity. discriminate.
  - unfold state_grown, counters_le. simpl.
    repeat split; try lia; try assumption.
    + exists []. symmetry. apply app_nil_r.
    + eexists. reflexivity.
    + intros H. destruct (H Ec).
Qed.

Lemma step_grown (st st' : pstate) (line : string) (n : Z) :
  n < max_int ->
  bounded n (results st) ->
  step st line = Some st' ->
  state_grown st st'.
Proof.
  intros Hn Hb H. unfold step in H. destruct (state st).
  - repeat break_match; injection H as <-; apply state_grown_same; auto.
  - destruct (FindStringSubmatch bailOutLine line);
      [injection H as <-; apply state_grown_same; auto|].
    destruct (planStep st line) as [st1 b] eqn:Ep.
    apply planStep_in_int in Ep as (v & -> & Hv); [|apply Hb].
    assert (Hb1 : bounded n (set_ExpectedTests v (results st)))
      by (destruct Hb as (Hc & Hle & He); repeat split; try apply Hc; try apply Hv;
          exact Hle).
    assert (G1 : state_grown st (with_results (set_ExpectedTests v (results st)) st))
      by (apply state_grown_same; auto).
    destruct b; [injection H as <-; exact G1|].
    apply (state_grown_trans _ _ _ G1). clear G1.
    remember (with_results (set_ExpectedTests v (results st)) st) as st1 eqn:E1.
    assert (Hb' : bounded n (results st1)) by (subst st1; exact Hb1).
    clear E1 Hb1 Hb Hv v st.
    unfold testStep in H. destruct (FindStringSubmatch testLine line).
    + assert (G2 : state_grown st1
               (with_currentTest (Some zeroTest)
                  (with_results (flush (currentTest st1) (results st1)) st1))).
      { unfold state_grown, counters_le. simpl.
        destruct (currentTest st1) as [t|] eqn:Ec; simpl;
          repeat split; try lia; try discriminate;
          try (exists []; symmetry; apply app_nil_r);
          try (eexists; reflexivity). }
      cbn [foundAllTests with_currentTest with_results] in H.
      destruct (foundAllTests st1); [injection H as <-; exact G2|].
      apply (state_grown_trans _ _ _ G2).
      assert (Hcg : counters_le
                      (results
                         (with_currentTest (Some zeroTest)
                            (with_results
                               (flush (currentTest st1) (results st1)) st1)))
                      (results st') /\ currentTest st' <> None).
      { eapply countTest_grown; [exact Hn| |exact H].
        apply bounded_flush, Hb'. }
      destruct Hcg as [Hc Hcur].
      apply countTest_spec in H
        as (_ & _ & _ & _ & _ & _ & _ & _ & _ & HT & _ & HE).
      unfold state_grown. rewrite HT, HE.
      split; [exists []; symmetry; apply app_nil_r|].
      split; [exists []; symmetry; apply app_nil_r|].
      split; [exact Hc|].
      split; [intros Hx; destruct (Hcur Hx)|reflexivity].
    + destruct (MatchString yamlStart line); injection H as <-;
        [apply state_grown_same; auto|].
      apply diagnosticStep_grown.
  - destruct (MatchString yamlStop line);
      [injection H as <-; apply state_grown_same; auto|].
    destruct (currentTest st) as [t|] eqn:Ec; injection H as <-;
      apply state_grown_same; auto. discriminate.
Qed.

Lemma state_grown_follow (st st' : pstate) :
  state_grown st st' -> records_follow st -> records_follow st'.
Proof.
  unfold records_follow. intros (_ & _ & _ & N & _) Hf H.
  destruct (N H) as [Hc HT]. rewrite HT. apply Hf, Hc.
Qed.

Lemma run_lines_grown (lines : list string) :
  forall st st' n,
    n + len lines <= max_int ->
    bounded n (results st) ->
    run_lines st lines = Some st' ->
    state_grown st st'.
Proof.
  unfold len.
  induction lines as [|l lines IH]; simpl List.length; intros st st' n Hn Hb H.
  - simpl in H. injection H as <-. apply state_grown_same; auto.
  - simpl in H. destruct (step st l) as [st1|] eqn:E; [|discriminate].
    apply (state_grown_trans _ st1).
    + apply (step_grown _ _ _ n) in E; [exact E|lia|exact Hb].
    + apply (IH _ _ (n + 1)); [lia| |exact H].
      apply (step_bounded _ _ _ n) in E; [exact E|lia|exact Hb].
Qed.

Lemma init_relabel (input lines : list string) :
  init input = relabel input (init lines).
Proof. reflexivity. Qed.

Lemma finish_relabel (input : list string) (st : pstate) :
  finish (relabel input st) = set_Lines input (finish st).
Proof. unfold finish, relabel. simpl. destruct (currentTest st); reflexivity. Qed.

Lemma removelast_staged (st : pstate) :
  records_follow st -> removelast (staged st) = Tests (results st).
Proof.
  unfold records_follow, staged. intros H.
  destruct (currentTest st) as [t|].
  - apply removelast_last.
  - rewrite H; reflexivity.
Qed.

(** X9: reading further lines only adds to what [Parse] had found: the records
    found so far, except the last one, which is still open, stay in front and
    unchanged, the explanation is extended, and no counter goes down. *)
Theorem longer_input_only_adds (pre post : list string) :
  len (pre ++ post) <= max_int ->
  exists r0 r,
    Parse pre = Some r0 /\ Parse (pre ++ post) = Some r /\ grown r0 r.
Proof.
  intros Hn. unfold Parse.
  assert (Hl : len pre + len post <= max_int)
    by (unfold len in *; rewrite length_app in Hn; lia).
  rewrite run_lines_app, (init_relabel (pre ++ post) pre), run_lines_relabel.
  destruct (run_lines (init pre) pre) as [st|] eqn:E;
    [|destruct (run_lines_total _ _ E)].
  cbn [option_map].
  destruct (run_lines (relabel (pre ++ post) st) post) as [st'|] eqn:E';
    [|destruct (run_lines_total _ _ E')].
  exists (finish st), (finish st'). split; [reflexivity|]. split; [reflexivity|].
  assert (Hb : bounded (0 + len pre) (results st)).
  { apply (run_lines_bounded pre (init pre)); [unfold len in *; lia| |exact E].
    apply init_bounded. }
  assert (G0 : state_grown (init pre) st).
  { apply (run_lines_grown pre _ _ 0); [unfold len in *; lia| |exact E].
    apply init_bounded. }
  assert (F : records_follow st).
  { apply (state_grown_follow _ _ G0). intros _. reflexivity. }
  assert (G : state_grown (relabel (pre ++ post) st) st').
  { apply (run_lines_grown post _ _ (0 + len pre)); [lia| |exact E'].
    exact Hb. }
  destruct G as ([m T] & [e X] & C & N & _).
  cbn [relabel with_results results set_Lines Tests Explanation currentTest] in *.
  unfold grown. rewrite !staged_finish, (removelast_staged _ F).
  split; [|split].
  - unfold staged. rewrite T, <- app_assoc. eexists. reflexivity.
  - exists e. unfold finish.
    destruct (currentTest st'), (currentTest st); exact X.
  - unfold counters_le, finish in *.
    destruct (currentTest st'), (currentTest st); exact C.
Qed.

Lemma longer_input_only_adds_witness :
  exists r0 r,
    Parse ["TAP version 13"; "# intro"; "ok 1 - a"]%list = Some r0 /\
    Parse (["TAP version 13"; "# intro"; "ok 1 - a"]
           ++ ["# note"; "not ok 2 - b"])%list = Some r /\
    grown r0 r.
Proof.
  apply (longer_input_only_adds
           ["TAP version 13"; "# intro"; "ok 1 - a"]%list
           ["# note"; "not ok 2 - b"]%list).
  vm_compute. discriminate.
Defined.

(** X10: once a test line has been read, the explanation is closed: the comments
    that follow go to the tests, and the explanation of the final result is
    the one of that moment. *)
Theorem explanation_closed (pre post : list string) (st : pstate) :
  len (pre ++ post) <= max_int ->
  run_lines (init (pre ++ post)) pre = Some st ->
  currentTest st <> None ->
  exists r,
    Parse (pre ++ post) = Some r /\
    Explanation r = Explanation (results st).
Proof.
  intros Hn E Hc. unfold Parse. rewrite run_lines_app, E.
  assert (Hl : len pre + len post <= max_int)
    by (unfold len in *; rewrite length_app in Hn; lia).
  destruct (run_lines st post) as [st'|] eqn:E';
    [|destruct (run_lines_total _ _ E')].
  exists (finish st'). split; [reflexivity|].
  assert (Hb : bounded (0 + len pre) (results st)).
  { apply (run_lines_bounded pre (init (pre ++ post)));
      [unfold len in *; lia| |exact E].
    apply init_bounded. }
  assert (G : state_grown st st').
  { apply (run_lines_grown post _ _ (0 + len pre)); [lia|exact Hb|exact E']. }
  destruct G as (_ & _ & _ & _ & F). rewrite <- (F Hc).
  unfold finish. destruct (currentTest st'); reflexivity.
Qed.

Lemma explanation_closed_witness :
  exists r,
    Parse (["TAP version 13"; "# intro"; "ok 1 - a"]
           ++ ["# note"; "not ok 2 - b"])%list = Some r /\
    Explanation r = ["intro"]%list.
Proof.
  refine (explanation_closed
            ["TAP version 13"; "# intro"; "ok 1 - a"]%list
            ["# note"; "not ok 2 - b"]%list
            (mkP storeTestMetadata false false
               (Some (mkTest 1 true false false false "- a" "" [] ""))
               (mkResults (-1) 1 1 0 0 0 13 false ""
                  [] (["TAP version 13"; "# intro"; "ok 1 - a"]
                      ++ ["# note"; "not ok 2 - b"]) ["intro"]))
            _ _ _).
  - vm_compute. discriminate.
  - vm_compute. reflexivity.
  - discriminate.
Defined.

(** ** The kinds of lines *)

Lemma match_group1 (r : regex) (line : string) :
  MatchString r line
  = match option_map (fun m : caps => m 1%nat) (FindStringSubmatch r line) with
    | Some _ => true
    | None => false
    end.
Proof. unfold MatchString. destruct (FindStringSubmatch r line); reflexivity. Qed.

Lemma abort_head (a : ascii) (t : string) :
  MatchString bailOutLine (String a t) = true -> a = "B"%char.
Proof.
  rewrite match_group1, bailOutLine_run. unfold abort_reason.
  change (strip_prefix "Bail out!" (String a t))
    with (if Ascii.eqb "B" a then strip_prefix "ail out!" t else None).
  destruct (Ascii.eqb_spec "B" a) as [<-|]; [reflexivity|discriminate].
Qed.

Lemma plan_head (a : ascii) (t : string) :
  MatchString testPlanDeclaration (String a t) = true -> is_digit a = true.
Proof.
  rewrite match_group1, testPlanDeclaration_run. unfold plan_count.
  cbn [keep]. destruct (is_digit a); [reflexivity|discriminate].
Qed.

Lemma test_head (a : ascii) (t : string) :
  MatchString testLine (String a t) = true -> a = "o"%char \/ a = "n"%char.
Proof.
  unfold MatchString.
  destruct (FindStringSubmatch testLine (String a t)) as [m|] eqn:E;
    [intros _|discriminate].
  pose proof (testLine_run (String a t)) as H. rewrite E in H.
  unfold test_parts in H.
  change (strip_prefix "not ok" (String a t))
    with (if Ascii.eqb "n" a then strip_prefix "ot ok" t else None) in H.
  change (strip_prefix "ok" (String a t))
    with (if Ascii.eqb "o" a then strip_prefix "k" t else None) in H.
  destruct (Ascii.eqb_spec "n" a) as [<-|]; [right; reflexivity|].
  destruct (Ascii.eqb_spec "o" a) as [<-|]; [left; reflexivity|discriminate].
Qed.

Lemma delimiter_head (a : ascii) (t : string) :
  MatchString yamlStart (String a t) = true ->
  is_space a = true \/ a = "-"%char.
Proof.
  rewrite yamlStart_run. unfold is_delimiter. cbn [skip].
  destruct (is_space a); [left; reflexivity|].
  change (String.eqb (String a t) "---")
    with (if Ascii.eqb a "-" then String.eqb t "--" else false).
  destruct (Ascii.eqb_spec a "-") as [->|]; [right; reflexivity|discriminate].
Qed.

Lemma digit_not_space (a : ascii) : is_digit a = true -> is_space a = false.
Proof. destruct a as [[] [] [] [] [] [] [] []]; vm_compute; congruence. Qed.

(** X11: a line is of one kind at most: of the patterns [bailOutLine],
    [testPlanDeclaration], [testLine] and [yamlStart], which [Parse] tries in
    this order, no two match the same line. *)
Theorem line_kinds_exclusive (line : string) :
  (List.length
     (filter (fun b : bool => b)
        [MatchString bailOutLine line; MatchString testPlanDeclaration line;
         MatchString testLine line; MatchString yamlStart line])
   <= 1)%nat.
Proof.
  destruct line as [|a t]; [vm_compute; lia|].
  destruct (MatchString bailOutLine (String a t)) eqn:E1;
  destruct (MatchString testPlanDeclaration (String a t)) eqn:E2;
  destruct (MatchString testLine (String a t)) eqn:E3;
  destruct (MatchString yamlStart (String a t)) eqn:E4;
  simpl; try lia; exfalso;
  try apply abort_head in E1;
  try apply plan_head in E2;
  try (apply test_head in E3; destruct E3 as [E3|E3]);
  try (apply delimiter_head in E4; destruct E4 as [E4|E4]);
  try congruence;
  try (apply digit_not_space in E2; congruence);
  try (rewrite E1 in *; discriminate);
  try (rewrite E3 in *; discriminate);
  try (rewrite E4 in *; discriminate).
Qed.

Lemma all_bytes_append (p : ascii -> bool) (u v : string) :
  all_bytes p (u ++ v) = (all_bytes p u && all_bytes p v)%bool.
Proof.
  induction u as [|a u IH]; simpl; [reflexivity|].
  rewrite IH. apply andb_assoc.
Qed.

(** X12: the lines that [testLine] matches are those that start with [ok] or
    [not ok] where no word byte follows the [ok]. *)
Theorem test_line_form (line : string) :
  MatchString testLine line = true <->
  exists np rest,
    (np = "" \/ np = "not ") /\ line = np ++ "ok" ++ rest /\
    word_after rest = false.
Proof.
  unfold MatchString. pose proof (testLine_run line) as H.
  unfold test_parts in H. split.
  - destruct (FindStringSubmatch testLine line) as [m|]; [intros _|discriminate].
    destruct (strip_prefix "not ok" line) as [rest|] eqn:E1.
    + destruct (word_after rest) eqn:Ew; [discriminate|].
      exists "not ", rest. split; [right; reflexivity|].
      split; [exact (strip_prefix_append _ _ _ E1)|exact Ew].
    + destruct (strip_prefix "ok" line) as [rest|] eqn:E2; [|discriminate].
      destruct (word_after rest) eqn:Ew; [discriminate|].
      exists "", rest. split; [left; reflexivity|].
      split; [exact (strip_prefix_append _ _ _ E2)|exact Ew].
  - intros (np & rest & [->| ->] & -> & Ew).
    + change ("" ++ "ok" ++ rest) with ("ok" ++ rest) in *.
      assert (Hn : strip_prefix "not ok" ("ok" ++ rest) = None) by reflexivity.
      rewrite Hn, (strip_prefix_same "ok" rest), Ew in H.
      destruct (FindStringSubmatch testLine _); [reflexivity|discriminate].
    + change ("not " ++ "ok" ++ rest) with ("not ok" ++ rest) in *.
      rewrite (strip_prefix_same "not ok" rest), Ew in H.
      destruct (FindStringSubmatch testLine _); [reflexivity|discriminate].
Qed.

(** X13: the lines that [testPlanDeclaration] matches are those made of digits,
    two dots and digits, with at least one digit on each side. *)
Theorem plan_line_form (line : string) :
  MatchString testPlanDeclaration line = true <->
  exists a d,
    line = a ++ ".." ++ d /\
    all_bytes is_digit a = true /\ a <> "" /\
    all_bytes is_digit d = true /\ d <> "".
Proof.
  rewrite match_group1, testPlanDeclaration_run. unfold plan_count. split.
  - destruct (keep is_digit line) as [|x a] eqn:Ek; [discriminate|].
    destruct (strip_prefix ".." (skip is_digit line)) as [d|] eqn:Es;
      [|discriminate].
    destruct d as [|y d]; [discriminate|].
    destruct (all_bytes is_digit (String y d)) eqn:Ed; [intros _|discriminate].
    exists (String x a), (String y d).
    split; [|split; [|split; [discriminate|split; [exact Ed|discriminate]]]].
    + rewrite <- (strip_prefix_append _ _ _ Es), <- Ek. apply keep_skip.
    + rewrite <- Ek. apply keep_all_bytes.
  - intros (a & d & -> & Ha & Hne & Hd & Hnd).
    rewrite (keep_append is_digit a (".." ++ d) Ha),
            (skip_append is_digit a (".." ++ d) Ha); try reflexivity.
    destruct a as [|x a]; [congruence|].
    rewrite (strip_prefix_same ".." d).
    destruct d as [|y d]; [congruence|]. rewrite Hd. reflexivity.
Qed.

(** X14: a data block starts at a line that is three dashes, and ends at
    one that is three dots; white space may come before them on the line and
    nothing may follow. *)
Theorem delimiter_line_form (line : string) :
  (MatchString yamlStart line = true <->
   exists ws, line = ws ++ "---" /\ all_bytes is_space ws = true) /\
  (MatchString yamlStop line = true <->
   exists ws, line = ws ++ "..." /\ all_bytes is_space ws = true).
Proof.
  rewrite yamlStart_run, yamlStop_run. unfold is_delimiter.
  split; split.
  - intros H. apply String.eqb_eq in H. exists (keep is_space line).
    split; [rewrite <- H; apply keep_skip|apply keep_all_bytes].
  - intros (ws & -> & Hw). apply String.eqb_eq.
    apply skip_append; [exact Hw|reflexivity].
  - intros H. apply String.eqb_eq in H. exists (keep is_space line).
    split; [rewrite <- H; apply keep_skip|apply keep_all_bytes].
  - intros (ws & -> & Hw). apply String.eqb_eq.
    apply skip_append; [exact Hw|reflexivity].
Qed.

(** ** What each kind of line does *)

Lemma match_false (r : regex) (line : string) :
  MatchString r line = false -> FindStringSubmatch r line = None.
Proof.
  unfold MatchString. destruct (FindStringSubmatch r line); [discriminate|reflexivity].
Qed.

Lemma kinds_apart (line : string) :
  (MatchString testLine line = true ->
   MatchString bailOutLine line = false /\
   MatchString testPlanDeclaration line = false) /\
  (MatchString testPlanDeclaration line = true ->
   MatchString bailOutLine line = false /\
   MatchString testLine line = false /\
   MatchString yamlStart line = false).
Proof.
  destruct line as [|a t]; [vm_compute; split; discriminate|].
  destruct (MatchString bailOutLine (String a t)) eqn:E1;
  destruct (MatchString testPlanDeclaration (String a t)) eqn:E2;
  destruct (MatchString testLine (String a t)) eqn:E3;
  destruct (MatchString yamlStart (String a t)) eqn:E4;
  (split; intros E; [split|split; [|split]]); try reflexivity;
  try discriminate E; exfalso;
  try apply abort_head in E1;
  try apply plan_head in E2;
  try (apply test_head in E3; destruct E3 as [E3|E3]);
  try (apply delimiter_head in E4; destruct E4 as [E4|E4]);
  try congruence;
  try (apply digit_not_space in E2; congruence);
  try (rewrite E1 in *; discriminate);
  try (rewrite E3 in *; discriminate);
  try (rewrite E4 in *; discriminate).
Qed.

Lemma planStep_none (st : pstate) (line : string) :
  FindStringSubmatch testPlanDeclaration line = None ->
  planStep st line = (st, false).
Proof.
  unfold planStep. intros ->. destruct (negb (foundTestPlan st)); reflexivity.
Qed.

(** X15: a test line that is read while tests are counted closes the staged
    record, counts one more test and stages a new record made from the text:
    the number, the trimmed description before the first hash sign, the
    directive text, and one outcome, where a directive that starts with
    [skip] or [todo] in any case comes before [not ]. *)
Theorem test_line_read (st : pstate) (line np rest : string) :
  state st = storeTestMetadata ->
  foundAllTests st = false ->
  test_parts line = Some (np, rest) ->
  exists st',
    step st line = Some st' /\
    Tests (results st') = staged st /\
    TotalTests (results st') = incr (TotalTests (results st)) /\
    currentTest st' = Some (line_record np (optional_parts rest)).
Proof.
  intros Es Ha Ht.
  pose proof (testLine_run line) as Hr. rewrite Ht in Hr.
  destruct (FindStringSubmatch testLine line) as [m|] eqn:Em; [|discriminate].
  cbn [option_map] in Hr. injection Hr as H1 H2.
  assert (Hm : MatchString testLine line = true)
    by (unfold MatchString; rewrite Em; reflexivity).
  destruct (kinds_apart line) as [K _]. destruct (K Hm) as [Kb Kp].
  unfold step. rewrite Es, (match_false _ _ Kb), (planStep_none _ _ (match_false _ _ Kp)).
  unfold testStep. rewrite Em.
  cbn [foundAllTests with_currentTest with_results]. rewrite Ha.
  unfold countTest. rewrite H1, H2.
  destruct (optionalTestLine_run rest) as (o & -> & Ho).
  unfold line_record. rewrite <- Ho.
  cbn [number_text description_text directive_text directive_word].
  cbn [results with_currentTest with_results].
  assert (HT : Tests (flush (currentTest st) (results st)) = staged st)
    by apply flush_fields.
  assert (HC : TotalTests (flush (currentTest st) (results st))
               = TotalTests (results st)) by apply flush_fields.
  rewrite negb_involutive_reverse with (b := String.eqb (o 5%nat) "").
  destruct (EqualFold (o 5%nat) "skip"); [|destruct (EqualFold (o 5%nat) "todo");
    [|destruct (String.eqb np "not ")]];
    (eexists; split; [reflexivity|]); cbn; rewrite HT, HC;
    destruct (String.eqb (o 5%nat) ""); repeat split; reflexivity.
Qed.

Lemma test_line_read_witness :
  exists st',
    step (mkP storeTestMetadata false false None (initResults []))
      "not ok 2 - parse # TODO later" = Some st' /\
    Tests (results st') = [] /\
    TotalTests (results st') = 1 /\
    currentTest st'
    = Some (mkTest 2 false false false true "- parse" "TODO later" [] "").
Proof.
  exact (test_line_read
           (mkP storeTestMetadata false false None (initResults []))
           "not ok 2 - parse # TODO later" "not " " 2 - parse # TODO later"
           eq_refl eq_refl eq_refl).
Defined.

Lemma all_bytes_impl (p q : ascii -> bool) (s : string) :
  (forall a, p a = true -> q a = true) ->
  all_bytes p s = true -> all_bytes q s = true.
Proof.
  intros Hpq. induction s as [|a s IH]; simpl; [reflexivity|].
  intros H. apply andb_true_iff in H as [Ha Hs].
  rewrite (Hpq _ Ha), (IH Hs). reflexivity.
Qed.

Lemma after_hash_none (s : string) :
  all_bytes is_nothash s = true -> after_hash s = None.
Proof.
  induction s as [|a s IH]; [reflexivity|].
  cbn [all_bytes after_hash]. intros H. apply andb_true_iff in H as [Ha Hs].
  unfold is_nothash in Ha. rewrite Ascii.eqb_sym.
  destruct (Ascii.eqb a "#"); [discriminate|]. exact (IH Hs).
Qed.

Lemma digit_nothash (a : ascii) : is_digit a = true -> is_nothash a = true.
Proof. destruct a as [[] [] [] [] [] [] [] []]; vm_compute; congruence. Qed.

Lemma digit_is_dot (a : ascii) : is_digit a = true -> is_dot a = true.
Proof. destruct a as [[] [] [] [] [] [] [] []]; vm_compute; congruence. Qed.

Lemma space_nothash (a : ascii) : is_space a = true -> is_nothash a = true.
Proof. destruct a as [[] [] [] [] [] [] [] []]; vm_compute; congruence. Qed.

Lemma plan_count_bytes (line d : string) :
  plan_count line = Some d ->
  all_bytes is_nothash line = true /\ all_bytes is_dot line = true.
Proof.
  unfold plan_count. intros H.
  destruct (keep is_digit line) as [|x a] eqn:Ek; [discriminate|].
  destruct (strip_prefix ".." (skip is_digit line)) as [e|] eqn:Es;
    [|discriminate].
  destruct e as [|y e]; [discriminate|].
  destruct (all_bytes is_digit (String y e)) eqn:Ed; [|discriminate].
  rewrite (keep_skip is_digit line), (strip_prefix_append _ _ _ Es).
  rewrite !all_bytes_append.
  pose proof (keep_all_bytes is_digit line) as Hk.
  rewrite (all_bytes_impl _ _ _ digit_nothash Hk),
          (all_bytes_impl _ _ _ digit_is_dot Hk),
          (all_bytes_impl _ _ _ digit_nothash Ed),
          (all_bytes_impl _ _ _ digit_is_dot Ed).
  split; reflexivity.
Qed.

Lemma hash_apart (line text : string) :
  after_hash line = Some text ->
  plan_count line = None /\ is_delimiter "---" line = false.
Proof.
  intros H. split.
  - destruct (plan_count line) as [d|] eqn:E; [|reflexivity].
    apply plan_count_bytes in E as [E _].
    rewrite (after_hash_none _ E) in H. discriminate.
  - unfold is_delimiter. destruct (String.eqb_spec (skip is_space line) "---") as [E|];
      [|reflexivity].
    assert (Hn : all_bytes is_nothash line = true).
    { rewrite (keep_skip is_space line), E, all_bytes_append.
      rewrite (all_bytes_impl _ _ _ space_nothash (keep_all_bytes is_space line)).
      reflexivity. }
    rewrite (after_hash_none _ Hn) in H. discriminate.
Qed.

Lemma group1_none (r : regex) (line : string) :
  option_map (fun m : caps => m 1%nat) (FindStringSubmatch r line) = None ->
  FindStringSubmatch r line = None.
Proof. destruct (FindStringSubmatch r line); [discriminate|reflexivity]. Qed.

Lemma abort_none (line : string) :
  abort_reason line = None -> FindStringSubmatch bailOutLine line = None.
Proof. intros H. apply group1_none. rewrite bailOutLine_run. exact H. Qed.

Lemma plan_none (line : string) :
  plan_count line = None -> FindStringSubmatch testPlanDeclaration line = None.
Proof. intros H. apply group1_none. rewrite testPlanDeclaration_run. exact H. Qed.

Lemma test_none (line : string) :
  test_parts line = None -> FindStringSubmatch testLine line = None.
Proof.
  intros H. pose proof (testLine_run line) as R. rewrite H in R.
  destruct (FindStringSubmatch testLine line); [discriminate|reflexivity].
Qed.

(** X16: a line with a hash sign that is neither an abort line nor a test line is
    a comment, wherever the sign stands: what follows the first sign is
    trimmed and, unless nothing is left, added to the diagnostics of the
    staged test, or to the explanation when no test line was read yet. *)
Theorem comment_line_read (st : pstate) (line text : string) :
  state st = storeTestMetadata ->
  abort_reason line = None ->
  test_parts line = None ->
  all_bytes is_dot line = true ->
  after_hash line = Some text ->
  step st line
  = Some (if String.eqb (TrimSpace text) "" then st
          else add_comment (TrimSpace text) st).
Proof.
  intros Es Hb Ht Hd Hh.
  destruct (hash_apart _ _ Hh) as [Hp Hy].
  unfold step. rewrite Es, (abort_none _ Hb), (planStep_none _ _ (plan_none _ Hp)).
  unfold testStep. rewrite (test_none _ Ht), yamlStart_run, Hy.
  unfold diagnosticStep, add_comment.
  pose proof (diagnostic_run line Hd) as R. rewrite Hh in R.
  destruct (FindStringSubmatch diagnostic line) as [m|]; [|discriminate].
  injection R as ->. reflexivity.
Qed.

Lemma comment_line_read_witness :
  step (mkP storeTestMetadata false false None (initResults []))
    "make: entering # build  "
  = Some (mkP storeTestMetadata false false None
            (mkResults (-1) 0 0 0 0 0 (-1) false "" [] [] ["build"])).
Proof.
  exact (comment_line_read
           (mkP storeTestMetadata false false None (initResults []))
           "make: entering # build  " " build  "
           eq_refl eq_refl eq_refl eq_refl eq_refl).
Defined.

(** X17: a plan line changes the expected count and nothing else; the count is
    the number after the dots, or the largest [int] when that number does not
    fit. *)
Theorem plan_line_read (st : pstate) (line d : string) :
  state st = storeTestMetadata ->
  foundTestPlan st = false ->
  plan_count line = Some d ->
  step st line
  = Some (with_results
            (set_ExpectedTests (fst (stored_number d)) (results st)) st).
Proof.
  intros Es Hf Hp.
  pose proof (testPlanDeclaration_run line) as R. rewrite Hp in R.
  destruct (FindStringSubmatch testPlanDeclaration line) as [m|] eqn:Em;
    [|discriminate].
  injection R as R.
  assert (Hm : MatchString testPlanDeclaration line = true)
    by (unfold MatchString; rewrite Em; reflexivity).
  destruct (kinds_apart line) as [_ K]. destruct (K Hm) as (Kb & Kt & Ky).
  destruct (plan_count_digits _ _ Hp) as [Hd Hne].
  destruct (plan_count_bytes _ _ Hp) as [Hh Hdot].
  unfold step. rewrite Es, (match_false _ _ Kb).
  unfold planStep. rewrite Hf, Em, R, (Atoi_digits d Hd Hne).
  cbn [negb]. destruct (stored_number d) as [v [|]]; cbn [negb fst];
    [|reflexivity].
  unfold testStep. rewrite (match_false _ _ Kt), Ky.
  unfold diagnosticStep.
  pose proof (diagnostic_run line Hdot) as D.
  rewrite (after_hash_none _ Hh) in D.
  rewrite (group1_none _ _ D). reflexivity.
Qed.

Lemma plan_line_read_witness :
  step (mkP storeTestMetadata false false None (initResults [])) "1..12"
  = Some (mkP storeTestMetadata false false None
            (mkResults 12 0 0 0 0 0 (-1) false "" [] [] [])).
Proof.
  exact (plan_line_read
           (mkP storeTestMetadata false false None (initResults []))
           "1..12" "12" eq_refl eq_refl eq_refl).
Defined.

Lemma run_lines_stream (lines : list string) :
  forall st st',
    state st <> findVersionString ->
    run_lines st lines = Some st' ->
    TapVersion (results st') = TapVersion (results st).
Proof.
  induction lines as [|l lines IH]; simpl; intros st st' Hs H.
  - injection H as <-. reflexivity.
  - destruct (step st l) as [st1|] eqn:E; [|discriminate].
    destruct (step_stream _ _ _ Hs E) as [Hs1 Hv].
    rewrite (IH _ _ Hs1 H). exact Hv.
Qed.

(** X18: the version is read from the first line that starts with [TAP version ]
    and a digit.  When its number fits an [int], that is the version of the
    result whatever follows; when it does not, the largest [int] is stored
    and the search goes on, so that without a later version line nothing else
    is ever recorded. *)
Theorem version_line_read (pre rest : list string) (line d : string) :
  Forall (fun l => version_digits l = None) pre ->
  version_digits line = Some d ->
  exists r,
    Parse (pre ++ line :: rest) = Some r /\
    (digits_number d <= max_int -> TapVersion r = digits_number d) /\
    (max_int < digits_number d ->
     Forall (fun l => version_digits l = None) rest ->
     r = set_TapVersion max_int (initResults (pre ++ line :: rest))).
Proof.
  intros Hpre Hl. unfold Parse. rewrite run_lines_app.
  rewrite (run_lines_preamble pre (init (pre ++ line :: rest)) eq_refl Hpre).
  cbn [run_lines].
  rewrite (version_step (init (pre ++ line :: rest)) line eq_refl), Hl.
  unfold stored_number.
  destruct (Z.leb_spec (digits_number d) max_int) as [Hle|Hgt].
  - match goal with |- context [run_lines ?s rest] =>
      destruct (run_lines s rest) as [st'|] eqn:E end;
      [|destruct (run_lines_total _ _ E)].
    exists (finish st'). split; [reflexivity|]. split; [|lia].
    intros _. apply run_lines_stream in E; [|discriminate].
    unfold finish. destruct (currentTest st'); exact E.
  - match goal with |- context [run_lines ?s rest] =>
      destruct (run_lines s rest) as [st'|] eqn:E end;
      [|destruct (run_lines_total _ _ E)].
    exists (finish st'). split; [reflexivity|]. split; [lia|].
    intros _ Hrest.
    rewrite run_lines_preamble in E; [|reflexivity|exact Hrest].
    injection E as <-. reflexivity.
Qed.

Lemma version_line_read_witness :
  exists r,
    Parse (["junk"] ++ "TAP version 13" :: ["ok 1"])%list = Some r /\
    (13 <= max_int -> TapVersion r = 13) /\
    (max_int < 13 ->
     Forall (fun l => version_digits l = None) ["ok 1"] ->
     r = set_TapVersion max_int
           (initResults (["junk"] ++ "TAP version 13" :: ["ok 1"])%list)).
Proof.
  refine (version_line_read ["junk"]%list ["ok 1"]%list "TAP version 13" "13"
            _ eq_refl).
  constructor; [reflexivity|constructor].
Defined.
